(** * nRF54L15 dual-core test firmware: cross-core envelope, workload
      dispatcher, audio pipeline and telemetry

    A shallow embedding of
    [nrf54l15_dual_core_test/cpuflpr/src/main.c] (the RISC-V compute core)
    and of the receive side of
    [nrf54l15_dual_core_test/cpuapp/src/main.c] (the ARM reporting core).

    Conventions.
    - C integers are [Z] with the width written out: [wrap16]/[wrap32] for
      [int16_t]/[int32_t] (two's complement), [Z.modulo] by [2^32]/[2^64]
      for the unsigned types.  C's [/] truncates: it is [Z.quot].
      An expression over a few [int16_t] operands is evaluated in [int]
      and cannot leave its range, so it is written with plain [Z]
      operations; accumulators and products of [int32_t] values go
      through [add32], [mul32] and the like.
    - Arrays are lists read with [!!!] and written with [<[i:=x]>].
    - Objects that are reinterpreted through a cast pointer
      ([struct ipc_message], [struct stats_data]) are byte buffers with
      little-endian loads and stores that fault outside the object.
    - [printk] output is console text only and is left out. *)

From Stdlib Require Import ZArith Lia.
From Stdlib.Strings Require Import Byte.
From stdpp Require Import base list numbers strings relations.

Local Open Scope Z_scope.

(** ** Machine integers *)

Module CInt.

Definition wrap16 (z : Z) : Z := (z + 2^15) `mod` 2^16 - 2^15.
Definition wrap32 (z : Z) : Z := (z + 2^31) `mod` 2^32 - 2^31.
Definition u32 (z : Z) : Z := z `mod` 2^32.
Definition u64 (z : Z) : Z := z `mod` 2^64.
Definition u8 (z : Z) : Z := z `mod` 2^8.

(** [int32_t] arithmetic as the target performs it. *)
Definition add32 (a b : Z) : Z := wrap32 (a + b).
Definition sub32 (a b : Z) : Z := wrap32 (a - b).
Definition mul32 (a b : Z) : Z := wrap32 (a * b).
Definition div32 (a b : Z) : Z := wrap32 (a ÷ b).
Definition neg32 (a : Z) : Z := wrap32 (- a).

(** [(x < 0) ? -x : x] on [int32_t]. *)
Definition abs32 (x : Z) : Z := if x <? 0 then neg32 x else x.

End CInt.
Import CInt.

(** ** Byte buffers *)

Module Mem.

(** Result of an access through a pointer: the value, or a fault that
    records the access ([off], [size]) and the size of the object. *)
Inductive result (A : Type) : Type :=
  | Ok (a : A)
  | OutOfBounds (off size len : nat).
Arguments Ok {A} a.
Arguments OutOfBounds {A} off size len.

#[export] Instance result_ret : MRet result := fun A a => Ok a.
#[export] Instance result_bind : MBind result := fun A B k r =>
  match r with
  | Ok a => k a
  | OutOfBounds o s l => OutOfBounds o s l
  end.

Definition byte_of_Z (z : Z) : byte :=
  default x00 (Byte.of_N (Z.to_N (z `mod` 256))).
Definition Z_of_byte (b : byte) : Z := Z.of_N (Byte.to_N b).

(** [n] bytes of [v], least significant first. *)
Fixpoint le_bytes (n : nat) (v : Z) : list byte :=
  match n with
  | O => []
  | S n' => byte_of_Z v :: le_bytes n' (v ≫ 8)
  end.

Fixpoint le_value (bs : list byte) : Z :=
  match bs with
  | [] => 0
  | b :: bs' => Z_of_byte b + 256 * le_value bs'
  end.

Definition store (buf : list byte) (off size : nat) (v : Z) : result (list byte) :=
  if decide (off + size <= length buf)%nat
  then Ok (take off buf ++ le_bytes size v ++ drop (off + size) buf)
  else OutOfBounds off size (length buf).

Definition load (buf : list byte) (off size : nat) : result Z :=
  if decide (off + size <= length buf)%nat
  then Ok (le_value (take size (drop off buf)))
  else OutOfBounds off size (length buf).

(** [memset(&obj, 0, sizeof(obj))] *)
Definition zeroed (size : nat) : list byte := replicate size x00.

End Mem.
Import Mem.

(** ** Struct layouts ([__packed]) *)

Module Layout.

Record field := Field { f_name : string; f_size : nat }.

Definition sizeof (s : list field) : nat := sum_list (f_size <$> s).

Fixpoint offsetof (s : list field) (name : string) : nat :=
  match s with
  | [] => 0
  | f :: s' => if String.eqb (f_name f) name then 0 else (f_size f + offsetof s' name)%nat
  end.

(** [struct ipc_message] *)
Definition ipc_message : list field :=
  [ Field "type" 1; Field "workload" 1; Field "reserved" 2; Field "data" (5 * 4) ].

(** [struct stats_data] *)
Definition stats_data : list field :=
  [ Field "total_cycles" 8; Field "iterations" 4; Field "mips" 4;
    Field "workload_type" 4; Field "cpu_pct" 4 ].

End Layout.

(** ** Enumerations *)

Definition IPC_MSG_STATS : Z := 1.
Definition IPC_MSG_SET_WORKLOAD : Z := 2.
Definition IPC_MSG_HEARTBEAT : Z := 3.
Definition IPC_MSG_AUDIO_DATA : Z := 4.

Definition WORKLOAD_IDLE : Z := 0.
Definition WORKLOAD_MATRIX_MULT : Z := 1.
Definition WORKLOAD_SORTING : Z := 2.
Definition WORKLOAD_FFT_SIM : Z := 3.
Definition WORKLOAD_CRYPTO_SIM : Z := 4.
Definition WORKLOAD_MIXED : Z := 5.
Definition WORKLOAD_AUDIO_PIPELINE : Z := 6.
Definition WORKLOAD_AUDIO_PIPELINE_AEC : Z := 7.
Definition WORKLOAD_PROXIMITY_VAD : Z := 8.
Definition WORKLOAD_CHEST_RESONANCE : Z := 9.
Definition WORKLOAD_CLOTHING_RUSTLE : Z := 10.
Definition WORKLOAD_SPATIAL_NOISE_CANCEL : Z := 11.
Definition WORKLOAD_WIND_NOISE_REDUCTION : Z := 12.
Definition WORKLOAD_NECKLACE_FULL : Z := 13.

Definition RISCV_FREQ_MHZ : Z := 128.
Definition NUM_MICS : nat := 3.
Definition FRAME_SIZE : nat := 128.
Definition AEC_FILTER_TAPS : nat := 256.

(** ** Control flow *)

(** [for (i = lo; i < hi; i++) body] *)
Definition for_ {S : Type} (lo hi : nat) (body : nat -> S -> S) (s : S) : S :=
  foldl (fun s i => body i s) s (seq lo (hi - lo)).

(** [for (i = lo; i < hi; i += step) body], [n] iterations *)
Definition for_step {S : Type} (lo step n : nat) (body : nat -> S -> S) (s : S) : S :=
  foldl (fun s j => body (lo + step * j)%nat s) s (seq 0 n).

(** ** The compute core (cpuflpr) *)

(** Effects visible outside the core. *)
Inductive event :=
  | IpcSend (msg : list byte)   (* ipc_service_send(&ep, &msg, sizeof(msg)) *)
  | Sleep (ms : Z).             (* k_sleep(K_MSEC(ms)) *)

(** What the code takes from its surroundings. *)
Record env := Env {
  (* successive values of get_timestamp_us() *)
  uptime_us : nat -> Z;
  (* indeterminate contents of an uninitialised local array:
     invocation, array, index *)
  stack : nat -> string -> nat -> Z;
  (* DT_NODE_EXISTS(DT_NODELABEL(ipc0)) *)
  ipc0 : bool
}.

(** File-scope and function-static variables, with the number of timer
    reads so far and the effects so far (oldest first). *)
Record flpr := Flpr {
  current_workload : Z;     (* enum workload_type *)
  total_work_cycles : Z;    (* uint64_t *)
  work_iterations : Z;      (* uint32_t *)
  work_result : Z;          (* volatile uint32_t *)
  aec_filter : list Z;      (* static int16_t [AEC_FILTER_TAPS] *)
  far_end_buffer : list Z;  (* static int16_t [AEC_FILTER_TAPS] *)
  noise_filter : list Z;    (* static int16_t [32] *)
  clock_reads : nat;
  events : list event
}.

(** State at reset: static storage is zero-initialised. *)
Definition boot : flpr :=
  {| current_workload := WORKLOAD_IDLE; total_work_cycles := 0;
     work_iterations := 0; work_result := 0;
     aec_filter := replicate AEC_FILTER_TAPS 0;
     far_end_buffer := replicate AEC_FILTER_TAPS 0;
     noise_filter := replicate 32 0;
     clock_reads := 0; events := [] |}.

Definition set_current_workload (v : Z) (m : flpr) : flpr :=
  Flpr v (total_work_cycles m) (work_iterations m) (work_result m)
       (aec_filter m) (far_end_buffer m) (noise_filter m) (clock_reads m) (events m).
Definition set_total_work_cycles (v : Z) (m : flpr) : flpr :=
  Flpr (current_workload m) v (work_iterations m) (work_result m)
       (aec_filter m) (far_end_buffer m) (noise_filter m) (clock_reads m) (events m).
Definition set_work_iterations (v : Z) (m : flpr) : flpr :=
  Flpr (current_workload m) (total_work_cycles m) v (work_result m)
       (aec_filter m) (far_end_buffer m) (noise_filter m) (clock_reads m) (events m).
Definition set_work_result (v : Z) (m : flpr) : flpr :=
  Flpr (current_workload m) (total_work_cycles m) (work_iterations m) v
       (aec_filter m) (far_end_buffer m) (noise_filter m) (clock_reads m) (events m).
Definition set_aec_filter (v : list Z) (m : flpr) : flpr :=
  Flpr (current_workload m) (total_work_cycles m) (work_iterations m) (work_result m)
       v (far_end_buffer m) (noise_filter m) (clock_reads m) (events m).
Definition set_far_end_buffer (v : list Z) (m : flpr) : flpr :=
  Flpr (current_workload m) (total_work_cycles m) (work_iterations m) (work_result m)
       (aec_filter m) v (noise_filter m) (clock_reads m) (events m).
Definition set_noise_filter (v : list Z) (m : flpr) : flpr :=
  Flpr (current_workload m) (total_work_cycles m) (work_iterations m) (work_result m)
       (aec_filter m) (far_end_buffer m) v (clock_reads m) (events m).
Definition emit (ev : event) (m : flpr) : flpr :=
  Flpr (current_workload m) (total_work_cycles m) (work_iterations m) (work_result m)
       (aec_filter m) (far_end_buffer m) (noise_filter m) (clock_reads m) (events m ++ [ev]).

(** The state after one more timer read *)
Definition tick (m : flpr) : flpr :=
  Flpr (current_workload m) (total_work_cycles m) (work_iterations m) (work_result m)
       (aec_filter m) (far_end_buffer m) (noise_filter m) (S (clock_reads m)) (events m).

(** [get_timestamp_us()] *)
Definition get_timestamp_us (e : env) (m : flpr) : Z * flpr :=
  (u64 (uptime_us e (clock_reads m)), tick m).

(** [(end_us - start_us) * RISCV_FREQ_MHZ] in [uint64_t] *)
Definition elapsed_cycles (start_us end_us : Z) : Z :=
  u64 (u64 (end_us - start_us) * RISCV_FREQ_MHZ).

(** An uninitialised local array [name[n]] of invocation [id], whose
    elements have the type that [conv] converts to. *)
Definition uninit (conv : Z -> Z) (e : env) (id : nat) (name : string) (n : nat) : list Z :=
  (fun i => conv (stack e id name i)) <$> seq 0 n.
Definition uninit_2d (conv : Z -> Z) (e : env) (id : nat) (name : string)
    (rows cols : nat) : list (list Z) :=
  (fun r => (fun i => conv (stack e id name (r * cols + i)%nat)) <$> seq 0 cols) <$> seq 0 rows.

(** *** Message construction *)

Definition off_type : nat := Layout.offsetof Layout.ipc_message "type".
Definition off_workload : nat := Layout.offsetof Layout.ipc_message "workload".
Definition off_data (i : nat) : nat :=
  (Layout.offsetof Layout.ipc_message "data" + 4 * i)%nat.
(** Offset, from the start of the message, of a [struct stats_data] field
    reached through [(struct stats_data * )msg.data]. *)
Definition off_stats (name : string) : nat :=
  (Layout.offsetof Layout.ipc_message "data" + Layout.offsetof Layout.stats_data name)%nat.

(** *** IPC receive callback: [ep_recv] of cpuflpr *)

Definition ep_recv (data : list byte) (m : flpr) : result flpr :=
  ty ← load data off_type 1;
  if ty =? IPC_MSG_SET_WORKLOAD then
    w ← load data off_workload 1;
    mret (set_work_iterations 0 (set_total_work_cycles 0 (set_current_workload w m)))
  else mret m.

(** *** Audio front end: stages 1 to 5 of [workload_audio_pipeline], which
    [workload_audio_pipeline_aec] repeats verbatim *)

Definition get2 (a : list (list Z)) (r i : nat) : Z := (a !!! r) !!! i.
Definition set2 (a : list (list Z)) (r i : nat) (v : Z) : list (list Z) :=
  <[r := <[i := v]> (a !!! r)]> a.

(** [(i * (mic + 1) * c + work_result) & mask], stored in an [int16_t] *)
Definition adc_sample (c mask wr : Z) (mic i : nat) : Z :=
  wrap16 (Z.land (u32 (Z.of_nat i * (Z.of_nat mic + 1) * c + wr)) mask).

(** 1. Simulated ADC reads *)
Definition adc (c wr : Z) (mic_data : list (list Z)) : list (list Z) :=
  for_ 0 NUM_MICS (fun mic md =>
    for_ 0 FRAME_SIZE (fun i md => set2 md mic i (adc_sample c 0xFFF wr mic i)) md)
  mic_data.

(** 2. DC removal and 3-tap FIR; entries 0 and 1 of each row of
    [filtered_data] are not written.  (The first value given to
    [filtered] in the source is overwritten before it is used.) *)
Definition preprocess (mic_data filtered_data : list (list Z)) : list (list Z) :=
  for_ 0 NUM_MICS (fun mic fd =>
    let dc_sum := for_ 0 FRAME_SIZE (fun i s => add32 s (get2 mic_data mic i)) 0 in
    let dc_offset := wrap16 (dc_sum ÷ Z.of_nat FRAME_SIZE) in
    for_ 2 FRAME_SIZE (fun i fd =>
      let filtered := (get2 mic_data mic (i - 2) + 2 * get2 mic_data mic (i - 1)
                       + get2 mic_data mic i) ÷ 4 in
      set2 fd mic i (wrap16 (filtered - dc_offset))) fd)
  filtered_data.

(** 3. Delay-and-sum beamforming *)
Definition beamform (filtered_data : list (list Z)) (beamformed_output : list Z) : list Z :=
  for_ 0 FRAME_SIZE (fun i out =>
    let delay_mic1 := if decide (2 <= i)%nat then (i - 2)%nat else 0%nat in
    let delay_mic2 := if decide (2 <= i)%nat then (i - 2)%nat else 0%nat in
    let sum := 0 in
    let sum := add32 sum (get2 filtered_data 0 i * 2) in
    let sum := add32 sum (get2 filtered_data 1 delay_mic1) in
    let sum := add32 sum (get2 filtered_data 2 delay_mic2) in
    <[i := wrap16 (sum ÷ 4)]> out)
  beamformed_output.

(** 4a. Noise gate; returns [processed_output] and [signal_energy]. *)
Definition noise_gate (beamformed_output processed_output : list Z) : list Z * Z :=
  let noise_floor := 100 in
  for_ 0 FRAME_SIZE (fun i '(po, signal_energy) =>
    let sample := beamformed_output !!! i in
    let magnitude := abs32 sample in
    let po := if magnitude >? noise_floor then <[i := sample]> po else <[i := 0]> po in
    (po, add32 signal_energy (po !!! i * po !!! i)))
  (processed_output, 0).

(** 4b. AGC gain: [int16_t gain = 1; if (rms > 0) { ... }] *)
Definition agc_gain (rms : Z) : Z :=
  let gain := 1 in
  if rms >? 0 then
    let gain := wrap16 ((2000 * 256) ÷ add32 rms 1) in
    let gain := if gain >? 512 then 512 else gain in
    let gain := if gain <? 64 then 64 else gain in
    gain
  else gain.

Definition apply_gain (gain : Z) (processed_output : list Z) : list Z :=
  for_ 0 FRAME_SIZE (fun i po => <[i := wrap16 ((po !!! i * gain) ÷ 256)]> po)
  processed_output.

(** 5. VAD metrics: [frame_energy] (after [/= FRAME_SIZE]) and
    [zero_crossings]. *)
Definition vad_metrics (processed_output : list Z) : Z * Z :=
  let '(frame_energy, zero_crossings) :=
    for_ 0 FRAME_SIZE (fun i '(fe, zc) =>
      let fe := add32 fe (processed_output !!! i * processed_output !!! i) in
      let zc :=
        if decide (0 < i)%nat then
          if ((processed_output !!! i >=? 0) && (processed_output !!! (i - 1)%nat <? 0))
             || ((processed_output !!! i <? 0) && (processed_output !!! (i - 1)%nat >=? 0))
          then add32 zc 1 else zc
        else zc in
      (fe, zc))
    (0, 0) in
  (frame_energy ÷ Z.of_nat FRAME_SIZE, zero_crossings).

(** [(frame_energy > 1000) && (zero_crossings > 10) && (zero_crossings < 80)] *)
Definition vad_decision (frame_energy zero_crossings : Z) : bool :=
  (frame_energy >? 1000) && (zero_crossings >? 10) && (zero_crossings <? 80).

Record front_end := FrontEnd {
  fe_rms : Z;
  fe_gain : Z;
  fe_processed_output : list Z;
  fe_frame_energy : Z;
  fe_zero_crossings : Z;
  fe_voice_detected : bool
}.

(** Stages 1 to 5 for invocation [id] with [work_result = wr]. *)
Definition audio_front_end (e : env) (id : nat) (wr : Z) : front_end :=
  let mic_data := adc 37 wr (uninit_2d wrap16 e id "mic_data" NUM_MICS FRAME_SIZE) in
  let filtered_data :=
    preprocess mic_data (uninit_2d wrap16 e id "filtered_data" NUM_MICS FRAME_SIZE) in
  let beamformed_output :=
    beamform filtered_data (uninit wrap16 e id "beamformed_output" FRAME_SIZE) in
  let '(processed_output, signal_energy) :=
    noise_gate beamformed_output (uninit wrap16 e id "processed_output" FRAME_SIZE) in
  let rms := signal_energy ÷ Z.of_nat FRAME_SIZE in
  let gain := agc_gain rms in
  let processed_output := apply_gain gain processed_output in
  let '(frame_energy, zero_crossings) := vad_metrics processed_output in
  FrontEnd rms gain processed_output frame_energy zero_crossings
           (vad_decision frame_energy zero_crossings).

(** [(a & 0xFFFF) | ((b & 0xFFFF) << 16)] *)
Definition pack16 (a b : Z) : Z :=
  Z.lor (Z.land a 0xFFFF) (Z.shiftl (Z.land b 0xFFFF) 16).

Definition sizeof_ipc_message : nat := Layout.sizeof Layout.ipc_message.

(** *** [workload_audio_pipeline] *)

Definition workload_audio_pipeline (e : env) (m : flpr) : result (Z * flpr) :=
  let id := clock_reads m in
  let '(start_us, m) := get_timestamp_us e m in
  let fe := audio_front_end e id (work_result m) in
  let processed_output := fe_processed_output fe in
  let '(end_us, m) := get_timestamp_us e m in
  m ← (if fe_voice_detected fe then
         m ← (if ipc0 e then
                msg ← store (zeroed sizeof_ipc_message) off_type 1 IPC_MSG_AUDIO_DATA;
                msg ← store msg off_workload 1 WORKLOAD_AUDIO_PIPELINE;
                msg ← store msg (off_data 0) 4
                        (pack16 (processed_output !!! 0%nat) (processed_output !!! 1%nat));
                msg ← store msg (off_data 1) 4
                        (pack16 (processed_output !!! 2%nat) (processed_output !!! 3%nat));
                msg ← store msg (off_data 2) 4 (fe_frame_energy fe);
                msg ← store msg (off_data 3) 4 (fe_zero_crossings fe);
                mret (emit (IpcSend msg) m)
              else mret m);
         mret (set_work_result (u32 (processed_output !!! 0%nat)) m)
       else mret (set_work_result 0 m));
  mret (elapsed_cycles start_us end_us, m).

(** *** [workload_audio_pipeline_aec] *)

(** Taps visited by [for (k = 0; k < AEC_FILTER_TAPS && k <= n; k++)] *)
Definition aec_taps (n : nat) : nat := Nat.min AEC_FILTER_TAPS (S n).

(** Simulated far-end reference written at the start of stage 6 *)
Definition far_end_fill (wr : Z) (far_end_buffer : list Z) : list Z :=
  for_ 0 (Nat.min FRAME_SIZE AEC_FILTER_TAPS) (fun i far =>
    <[i := wrap16 (Z.land (u32 (Z.of_nat i * 29 + wr)) 0x7FF)]> far)
  far_end_buffer.

(** Convolution: [echo_est] for sample [n] *)
Definition aec_convolve (aec_filter far_end_buffer : list Z) (n : nat) : Z :=
  for_ 0 (aec_taps n) (fun k echo_est =>
    add32 echo_est ((aec_filter !!! k * far_end_buffer !!! (n - k)%nat) ÷ 256))
  0.

(** Normalisation factor [power] for sample [n] *)
Definition aec_power (far_end_buffer : list Z) (n : nat) : Z :=
  let power :=
    for_ 0 (aec_taps n) (fun k power =>
      let val := far_end_buffer !!! (n - k)%nat in
      add32 power ((val * val) ÷ 256))
    0 in
  add32 (power ÷ Z.of_nat AEC_FILTER_TAPS) 1.

(** One coefficient update: [aec_filter[k] += update] and the two limits *)
Definition aec_update_tap (far_end_buffer : list Z) (n : nat) (update_factor : Z)
    (k : nat) (aec_filter : list Z) : list Z :=
  let update := mul32 update_factor (far_end_buffer !!! (n - k)%nat) ÷ 256 in
  let w := <[k := wrap16 (add32 (aec_filter !!! k) update)]> aec_filter in
  let w := if w !!! k >? 8192 then <[k := 8192]> w else w in
  let w := if w !!! k <? -8192 then <[k := -8192]> w else w in
  w.

(** The NLMS update loop of sample [n] *)
Definition aec_adapt (far_end_buffer : list Z) (n : nat) (update_factor : Z)
    (aec_filter : list Z) : list Z :=
  for_ 0 (aec_taps n) (aec_update_tap far_end_buffer n update_factor) aec_filter.

(** Body of [for (n = 0; n < FRAME_SIZE; n++)] on
    [(aec_filter, echo_estimate, error_signal)] *)
Definition aec_sample (processed_output far_end_buffer : list Z) (n : nat)
    (s : list Z * list Z * list Z) : list Z * list Z * list Z :=
  let '(aec_filter, echo_estimate, error_signal) := s in
  let echo_est := aec_convolve aec_filter far_end_buffer n in
  let echo_estimate := <[n := wrap16 echo_est]> echo_estimate in
  let error_signal :=
    <[n := wrap16 (processed_output !!! n - echo_estimate !!! n)]> error_signal in
  let aec_filter :=
    if (Z.of_nat n `rem` 2 =? 0) then
      let power := aec_power far_end_buffer n in
      let mu := 16 in
      let update_factor := (mu * error_signal !!! n) ÷ power in
      aec_adapt far_end_buffer n update_factor aec_filter
    else aec_filter in
  (aec_filter, echo_estimate, error_signal).

Definition aec_frame (processed_output far_end_buffer : list Z)
    (s : list Z * list Z * list Z) : list Z * list Z * list Z :=
  for_ 0 FRAME_SIZE (aec_sample processed_output far_end_buffer) s.

(** Residual echo suppression into [final_output] *)
Definition residual_suppress (double_talk : bool)
    (processed_output error_signal final_output : list Z) : list Z :=
  for_ 0 FRAME_SIZE (fun i out =>
    if double_talk then <[i := processed_output !!! i]> out
    else
      let suppressed := error_signal !!! i in
      let magnitude := abs32 suppressed in
      let suppressed := if magnitude <? 50 then suppressed ÷ 2 else suppressed in
      <[i := wrap16 suppressed]> out)
  final_output.

Definition workload_audio_pipeline_aec (e : env) (m : flpr) : result (Z * flpr) :=
  let id := clock_reads m in
  let '(start_us, m) := get_timestamp_us e m in
  (* stages 1 to 5 *)
  let fe := audio_front_end e id (work_result m) in
  let processed_output := fe_processed_output fe in
  (* stage 6 *)
  let m := set_far_end_buffer (far_end_fill (work_result m) (far_end_buffer m)) m in
  let '(w, echo_estimate, error_signal) :=
    aec_frame processed_output (far_end_buffer m)
      (aec_filter m, uninit wrap16 e id "echo_estimate" FRAME_SIZE,
       uninit wrap16 e id "error_signal" FRAME_SIZE) in
  let m := set_aec_filter w m in
  let near_end_energy := fe_frame_energy fe in
  let far_end_energy :=
    for_ 0 FRAME_SIZE (fun i s =>
      add32 s (far_end_buffer m !!! i * far_end_buffer m !!! i)) 0 in
  let far_end_energy := far_end_energy ÷ Z.of_nat FRAME_SIZE in
  let double_talk := (near_end_energy >? 500) && (far_end_energy >? 500) in
  let final_output :=
    residual_suppress double_talk processed_output error_signal
      (uninit wrap16 e id "final_output" FRAME_SIZE) in
  let '(end_us, m) := get_timestamp_us e m in
  (* 7. transfer *)
  m ← (if fe_voice_detected fe then
         m ← (if ipc0 e then
                msg ← store (zeroed sizeof_ipc_message) off_type 1 IPC_MSG_AUDIO_DATA;
                msg ← store msg off_workload 1 WORKLOAD_AUDIO_PIPELINE_AEC;
                msg ← store msg (off_data 0) 4
                        (pack16 (final_output !!! 0%nat) (final_output !!! 1%nat));
                msg ← store msg (off_data 1) 4
                        (pack16 (final_output !!! 2%nat) (final_output !!! 3%nat));
                msg ← store msg (off_data 2) 4 (fe_frame_energy fe);
                msg ← store msg (off_data 3) 4 (fe_zero_crossings fe);
                msg ← store msg (off_data 4) 4 (if double_talk then 1 else 0);
                mret (emit (IpcSend msg) m)
              else mret m);
         mret (set_work_result (u32 (final_output !!! 0%nat)) m)
       else mret (set_work_result 0 m));
  mret (elapsed_cycles start_us end_us, m).

(** *** Compute kernels *)

(** Value left in [work_result] by [workload_matrix_mult] *)
Definition matrix_mult_frame (e : env) (id : nat) : Z :=
  let init :=
    for_ 0 4 (fun i abc =>
      for_ 0 4 (fun j '(a, b, c) =>
        (set2 a i j (wrap16 (Z.land (Z.of_nat i + Z.of_nat j) 0xFF)),
         set2 b i j (wrap16 (Z.land (Z.of_nat i * Z.of_nat j) 0xFF)),
         set2 c i j 0)) abc)
    (uninit_2d wrap16 e id "a" 4 4, uninit_2d wrap16 e id "b" 4 4, uninit_2d wrap16 e id "c" 4 4) in
  let '(a, b, c) := init in
  let c :=
    for_ 0 4 (fun i c =>
      for_ 0 4 (fun j c =>
        for_ 0 4 (fun k c =>
          set2 c i j (wrap16 (get2 c i j + get2 a i k * get2 b k j))) c) c) c in
  u32 (get2 c 0 0).

Definition workload_matrix_mult (e : env) (m : flpr) : result (Z * flpr) :=
  let id := clock_reads m in
  let '(start_us, m) := get_timestamp_us e m in
  let r := matrix_mult_frame e id in
  let '(end_us, m) := get_timestamp_us e m in
  let m := set_work_result r m in
  mret (elapsed_cycles start_us end_us, m).

(** Value left in [work_result] by [workload_sorting] *)
Definition sorting_frame (e : env) (id : nat) : Z :=
  let arr :=
    for_ 0 32 (fun i arr => <[i := wrap32 (Z.land (Z.of_nat i * 7 + 13) 0xFFFF)]> arr)
    (uninit wrap32 e id "arr" 32) in
  let arr :=
    for_ 0 31 (fun i arr =>
      for_ 0 (31 - i) (fun j arr =>
        if arr !!! j >? arr !!! (j + 1)%nat then
          let temp := arr !!! j in
          let arr := <[j := arr !!! (j + 1)%nat]> arr in
          <[(j + 1)%nat := temp]> arr
        else arr) arr) arr in
  u32 (arr !!! 0%nat).

Definition workload_sorting (e : env) (m : flpr) : result (Z * flpr) :=
  let id := clock_reads m in
  let '(start_us, m) := get_timestamp_us e m in
  let r := sorting_frame e id in
  let '(end_us, m) := get_timestamp_us e m in
  let m := set_work_result r m in
  mret (elapsed_cycles start_us end_us, m).

(** Value left in [work_result] by [workload_fft_sim] *)
Definition fft_sim_frame (e : env) (id : nat) : Z :=
  let '(real, imag) :=
    for_ 0 16 (fun i '(real, imag) =>
      (<[i := wrap32 (Z.land (Z.of_nat i * 100) 0xFFFF)]> real, <[i := 0]> imag))
    (uninit wrap32 e id "real" 16, uninit wrap32 e id "imag" 16) in
  let '(real, imag) :=
    for_ 0 4 (fun stage ri =>
      for_step 0 2 8 (fun i '(real, imag) =>
        let tr := add32 (real !!! i) (real !!! (i + 1)%nat) in
        let ti := add32 (imag !!! i) (imag !!! (i + 1)%nat) in
        let real := <[(i + 1)%nat := sub32 (real !!! i) (real !!! (i + 1)%nat)]> real in
        let imag := <[(i + 1)%nat := sub32 (imag !!! i) (imag !!! (i + 1)%nat)]> imag in
        let real := <[i := tr]> real in
        let imag := <[i := ti]> imag in
        (real, imag)) ri)
    (real, imag) in
  u32 (real !!! 0%nat).

Definition workload_fft_sim (e : env) (m : flpr) : result (Z * flpr) :=
  let id := clock_reads m in
  let '(start_us, m) := get_timestamp_us e m in
  let r := fft_sim_frame e id in
  let '(end_us, m) := get_timestamp_us e m in
  let m := set_work_result r m in
  mret (elapsed_cycles start_us end_us, m).

(** Value left in [work_result] by [workload_crypto_sim] *)
Definition crypto_sim_frame (e : env) (id : nat) : Z :=
  let '(state, key) :=
    for_ 0 16 (fun i '(state, key) =>
      (<[i := u8 (Z.of_nat i)]> state, <[i := u8 (15 - Z.of_nat i)]> key))
    (uninit u8 e id "state" 16, uninit u8 e id "key" 16) in
  let state :=
    for_ 0 4 (fun round state =>
      (* SubBytes simulation *)
      let state :=
        for_ 0 16 (fun i state =>
          <[i := u8 (Z.lxor (state !!! i) (key !!! i)
                     + Z.land (Z.shiftl (state !!! i) 1) 0xFF)]> state) state in
      (* ShiftRows simulation *)
      let temp := state !!! 1%nat in
      let state := <[1%nat := state !!! 5%nat]> state in
      let state := <[5%nat := state !!! 9%nat]> state in
      let state := <[9%nat := state !!! 13%nat]> state in
      let state := <[13%nat := temp]> state in
      (* MixColumns simulation *)
      for_ 0 4 (fun i state =>
        let a := state !!! (i * 4)%nat in
        let b := state !!! (i * 4 + 1)%nat in
        let state := <[(i * 4)%nat := u8 (Z.lxor a b)]> state in
        <[(i * 4 + 1)%nat := u8 (Z.lxor b a)]> state) state)
    state in
  u32 (state !!! 0%nat).

Definition workload_crypto_sim (e : env) (m : flpr) : result (Z * flpr) :=
  let id := clock_reads m in
  let '(start_us, m) := get_timestamp_us e m in
  let r := crypto_sim_frame e id in
  let '(end_us, m) := get_timestamp_us e m in
  let m := set_work_result r m in
  mret (elapsed_cycles start_us end_us, m).

Definition workload_mixed (e : env) (m : flpr) : result (Z * flpr) :=
  let cycles := 0 in
  '(c, m) ← workload_matrix_mult e m;
  let cycles := u64 (cycles + c) in
  '(c, m) ← workload_sorting e m;
  let cycles := u64 (cycles + c) in
  '(c, m) ← workload_fft_sim e m;
  let cycles := u64 (cycles + c) in
  '(c, m) ← workload_crypto_sim e m;
  let cycles := u64 (cycles + c) in
  mret (cycles, m).

(** *** Necklace analysis workloads *)

(** Sign change between samples [i-1] and [i] *)
Definition crosses_zero (x : list Z) (i : nat) : bool :=
  ((x !!! i >=? 0) && (x !!! (i - 1)%nat <? 0))
  || ((x !!! i <? 0) && (x !!! (i - 1)%nat >=? 0)).

(** [energy_avg] and [energy_diff] over the three per-microphone energies *)
Definition energy_spread (mic_energy : list Z) : Z * Z :=
  let energy_avg := for_ 0 NUM_MICS (fun mic s => add32 s (mic_energy !!! mic)) 0 in
  let energy_avg := energy_avg ÷ Z.of_nat NUM_MICS in
  let energy_diff :=
    for_ 0 NUM_MICS (fun mic s =>
      let diff := sub32 (mic_energy !!! mic) energy_avg in
      let diff := if diff <? 0 then neg32 diff else diff in
      add32 s diff) 0 in
  (energy_avg, energy_diff).

(** Value left in [work_result] by [workload_proximity_vad] *)
Definition proximity_vad_frame (e : env) (id : nat) (wr : Z) : Z :=
  let mic_data := adc 37 wr (uninit_2d wrap16 e id "mic_data" NUM_MICS FRAME_SIZE) in
  let mic_energy :=
    for_ 0 NUM_MICS (fun mic me =>
      let energy :=
        for_ 0 FRAME_SIZE (fun i energy =>
          let sample := get2 mic_data mic i in
          add32 energy ((sample * sample) ÷ 256)) 0 in
      <[mic := energy ÷ Z.of_nat FRAME_SIZE]> me)
    (uninit wrap32 e id "mic_energy" NUM_MICS) in
  let '(energy_avg, energy_diff) := energy_spread mic_energy in
  let proximity_ratio := div32 (mul32 energy_diff 100) (add32 energy_avg 1) in
  let '(voice_band_energy, noise_band_energy) :=
    for_ 0 NUM_MICS (fun mic '(voice_band_energy, noise_band_energy) =>
      let '(zero_crossings, low_freq_energy, high_freq_energy) :=
        for_ 1 FRAME_SIZE (fun i '(zc, lo, hi) =>
          let zc := if crosses_zero (mic_data !!! mic) i then add32 zc 1 else zc in
          let sq := (get2 mic_data mic i * get2 mic_data mic i) ÷ 256 in
          if decide (i < FRAME_SIZE / 4)%nat
          then (zc, add32 lo sq, hi)
          else (zc, lo, add32 hi sq))
        (0, 0, 0) in
      if (zero_crossings >=? 10) && (zero_crossings <=? 30)
      then (add32 voice_band_energy low_freq_energy, noise_band_energy)
      else (voice_band_energy, add32 noise_band_energy high_freq_energy))
    (0, 0) in
  let is_wearer_voice :=
    (proximity_ratio >? 30) && (voice_band_energy >? mul32 noise_band_energy 2)
    && (energy_avg >? 500) in
  if is_wearer_voice then 1 else 0.

Definition workload_proximity_vad (e : env) (m : flpr) : result (Z * flpr) :=
  let id := clock_reads m in
  let '(start_us, m) := get_timestamp_us e m in
  let r := proximity_vad_frame e id (work_result m) in
  let '(end_us, m) := get_timestamp_us e m in
  let m := set_work_result r m in
  mret (elapsed_cycles start_us end_us, m).

(** Value left in [work_result] by [workload_chest_resonance] *)
Definition chest_resonance_frame (e : env) (id : nat) (wr : Z) : Z :=
  let mic_data := adc 41 wr (uninit_2d wrap16 e id "mic_data" NUM_MICS FRAME_SIZE) in
  let resonance_energy :=
    for_ 0 NUM_MICS (fun mic re =>
      let '(low_freq_sum, low_freq_samples) :=
        for_step 4 4 31 (fun i '(sum, samples) =>
          let avg := (get2 mic_data mic (i - 3) + get2 mic_data mic (i - 2)
                      + get2 mic_data mic (i - 1) + get2 mic_data mic i) ÷ 4 in
          (add32 sum ((avg * avg) ÷ 256), add32 samples 1))
        (0, 0) in
      <[mic := div32 low_freq_sum low_freq_samples]> re)
    (uninit wrap32 e id "resonance_energy" NUM_MICS) in
  let energy_avg := for_ 0 NUM_MICS (fun mic s => add32 s (resonance_energy !!! mic)) 0 in
  let energy_avg := energy_avg ÷ Z.of_nat NUM_MICS in
  let energy_variance :=
    for_ 0 NUM_MICS (fun mic s =>
      let diff := sub32 (resonance_energy !!! mic) energy_avg in
      add32 s (mul32 diff diff ÷ 256)) 0 in
  let energy_variance := energy_variance ÷ Z.of_nat NUM_MICS in
  let coherence_score := div32 (mul32 energy_avg 100) (add32 energy_variance 1) in
  let chest_resonance_detected := (energy_avg >? 300) && (coherence_score >? 50) in
  if chest_resonance_detected then u32 energy_avg else 0.

Definition workload_chest_resonance (e : env) (m : flpr) : result (Z * flpr) :=
  let id := clock_reads m in
  let '(start_us, m) := get_timestamp_us e m in
  let r := chest_resonance_frame e id (work_result m) in
  let '(end_us, m) := get_timestamp_us e m in
  let m := set_work_result r m in
  mret (elapsed_cycles start_us end_us, m).

(** Value left in [work_result] by [workload_clothing_rustle] *)
Definition clothing_rustle_frame (e : env) (id : nat) (wr : Z) : Z :=
  let mic_data := adc 43 wr (uninit_2d wrap16 e id "mic_data" NUM_MICS FRAME_SIZE) in
  let rustle_detected : list bool := replicate FRAME_SIZE false in
  let rustle_detected : list bool :=
    for_ 2 FRAME_SIZE (fun i (rd : list bool) =>
      let '(energy_change, total_change) :=
        for_ 0 NUM_MICS (fun mic '(ec, total) =>
          let accel := get2 mic_data mic i - 2 * get2 mic_data mic (i - 1)
                       + get2 mic_data mic (i - 2) in
          let accel := if accel <? 0 then - accel else accel in
          (<[mic := accel]> ec, add32 total accel))
        (uninit wrap32 e id "energy_change" NUM_MICS, 0) in
      let change_avg := total_change ÷ Z.of_nat NUM_MICS in
      let correlation :=
        for_ 0 NUM_MICS (fun mic corr =>
          let diff := sub32 (energy_change !!! mic) change_avg in
          let diff := if diff <? 0 then neg32 diff else diff in
          add32 corr diff) 0 in
      if (total_change >? 500) && (correlation >? 300) then
        let rd := <[i := true]> rd in
        let rd := if decide (0 < i)%nat then <[(i - 1)%nat := true]> rd else rd in
        let rd := if decide (i < FRAME_SIZE - 1)%nat then <[(i + 1)%nat := true]> rd else rd in
        rd
      else rd)
    rustle_detected in
  let '(processed_output, rustles_suppressed) :=
    for_ 0 FRAME_SIZE (fun i '(po, n) =>
      if (rustle_detected !!! i : bool)
      then (<[i := wrap16 (get2 mic_data 0 i ÷ 4)]> po, add32 n 1)
      else (<[i := get2 mic_data 0 i]> po, n))
    (uninit wrap16 e id "processed_output" FRAME_SIZE, 0) in
  u32 rustles_suppressed.

Definition workload_clothing_rustle (e : env) (m : flpr) : result (Z * flpr) :=
  let id := clock_reads m in
  let '(start_us, m) := get_timestamp_us e m in
  let r := clothing_rustle_frame e id (work_result m) in
  let '(end_us, m) := get_timestamp_us e m in
  let m := set_work_result r m in
  mret (elapsed_cycles start_us end_us, m).

(** One tap of the LMS update in [workload_spatial_noise_cancel] *)
Definition noise_update_tap (noise_estimate : list Z) (n : nat) (error : Z)
    (k : nat) (noise_filter : list Z) : list Z :=
  let mu := 8 in
  let update :=
    mul32 (mul32 mu error) (noise_estimate !!! (n - k)%nat) ÷ (Z.of_nat FRAME_SIZE * 256) in
  let w := <[k := wrap16 (add32 (noise_filter !!! k) update)]> noise_filter in
  let w := if w !!! k >? 2048 then <[k := 2048]> w else w in
  let w := if w !!! k <? -2048 then <[k := -2048]> w else w in
  w.

(** Value left in [work_result] by [workload_spatial_noise_cancel] *)
Definition spatial_noise_cancel_frame (e : env) (id : nat) (wr : Z) (noise_filter0 : list Z) : Z * list Z :=
  let mic_data := adc 47 wr (uninit_2d wrap16 e id "mic_data" NUM_MICS FRAME_SIZE) in
  (* primary beam *)
  let clean_output :=
    for_ 0 FRAME_SIZE (fun i out =>
      let beamformed := get2 mic_data 0 i * 2 + get2 mic_data 1 i + get2 mic_data 2 i in
      <[i := wrap16 (beamformed ÷ 4)]> out)
    (uninit wrap16 e id "clean_output" FRAME_SIZE) in
  (* noise reference *)
  let noise_estimate :=
    for_ 0 FRAME_SIZE (fun i ne =>
      let noise_ref := (get2 mic_data 1 i + get2 mic_data 2 i) ÷ 2 - get2 mic_data 0 i in
      <[i := wrap16 noise_ref]> ne)
    (uninit wrap16 e id "noise_estimate" FRAME_SIZE) in
  (* adaptive noise cancellation *)
  let '(clean_output, nf) :=
    for_ 32 FRAME_SIZE (fun n '(clean_output, nf) =>
      let noise_est :=
        for_ 0 32 (fun k s =>
          add32 s ((nf !!! k * noise_estimate !!! (n - k)%nat) ÷ 256)) 0 in
      let error := sub32 (clean_output !!! n) noise_est in
      let clean_output := <[n := wrap16 error]> clean_output in
      let nf := for_ 0 32 (noise_update_tap noise_estimate n error) nf in
      (clean_output, nf))
    (clean_output, noise_filter0) in
  let '(output_energy, noise_energy) :=
    for_ 0 FRAME_SIZE (fun i '(oe, ne) =>
      (add32 oe ((clean_output !!! i * clean_output !!! i) ÷ 256),
       add32 ne ((noise_estimate !!! i * noise_estimate !!! i) ÷ 256)))
    (0, 0) in
  (u32 (output_energy ÷ Z.of_nat FRAME_SIZE), nf).

Definition workload_spatial_noise_cancel (e : env) (m : flpr) : result (Z * flpr) :=
  let id := clock_reads m in
  let '(start_us, m) := get_timestamp_us e m in
  let '(r, nf) := spatial_noise_cancel_frame e id (work_result m) (noise_filter m) in
  let m := set_noise_filter nf m in
  let '(end_us, m) := get_timestamp_us e m in
  let m := set_work_result r m in
  mret (elapsed_cycles start_us end_us, m).

(** Value left in [work_result] by [workload_wind_noise_reduction] *)
Definition wind_noise_reduction_frame (e : env) (id : nat) (wr : Z) : Z :=
  let mic_data := adc 51 wr (uninit_2d wrap16 e id "mic_data" NUM_MICS FRAME_SIZE) in
  let low_freq_energy :=
    for_ 0 NUM_MICS (fun mic lfe =>
      let energy :=
        for_step 8 8 15 (fun i energy =>
          let sample := get2 mic_data mic i in
          add32 energy ((sample * sample) ÷ 256)) 0 in
      <[mic := energy ÷ Z.of_nat (FRAME_SIZE / 8)]> lfe)
    (uninit wrap32 e id "low_freq_energy" NUM_MICS) in
  let correlation :=
    for_ 0 FRAME_SIZE (fun i correlation =>
      let cross_product := 0 in
      let cross_product := add32 cross_product (get2 mic_data 0 i * get2 mic_data 1 i) in
      let cross_product := add32 cross_product (get2 mic_data 1 i * get2 mic_data 2 i) in
      let cross_product := add32 cross_product (get2 mic_data 0 i * get2 mic_data 2 i) in
      add32 correlation (cross_product ÷ (256 * 3))) 0 in
  let correlation := correlation ÷ Z.of_nat FRAME_SIZE in
  let avg_energy :=
    add32 (add32 (low_freq_energy !!! 0%nat) (low_freq_energy !!! 1%nat))
          (low_freq_energy !!! 2%nat) ÷ 3 in
  let wind_detected := (avg_energy >? 400) && (correlation <? 100) in
  let processed_output :=
    if wind_detected then
      let min_energy_mic :=
        for_ 1 NUM_MICS (fun mic best =>
          if low_freq_energy !!! mic <? low_freq_energy !!! best then mic else best) 0%nat in
      for_ 0 FRAME_SIZE (fun i po =>
        let sample := get2 mic_data min_energy_mic i in
        let sample :=
          if decide (2 <= i)%nat
          then get2 mic_data min_energy_mic i - get2 mic_data min_energy_mic (i - 1)
          else sample in
        <[i := wrap16 sample]> po)
      (uninit wrap16 e id "processed_output" FRAME_SIZE)
    else
      for_ 0 FRAME_SIZE (fun i po =>
        <[i := wrap16 ((get2 mic_data 0 i * 2 + get2 mic_data 1 i + get2 mic_data 2 i) ÷ 4)]> po)
      (uninit wrap16 e id "processed_output" FRAME_SIZE) in
  if wind_detected then 1 else 0.

Definition workload_wind_noise_reduction (e : env) (m : flpr) : result (Z * flpr) :=
  let id := clock_reads m in
  let '(start_us, m) := get_timestamp_us e m in
  let r := wind_noise_reduction_frame e id (work_result m) in
  let '(end_us, m) := get_timestamp_us e m in
  let m := set_work_result r m in
  mret (elapsed_cycles start_us end_us, m).

(** Value left in [work_result] by [workload_necklace_full] *)
Definition necklace_full_frame (e : env) (id : nat) (wr : Z) : Z :=
  (* stage 1: ADC + DC removal *)
  let '(mic_data, stage1_output) :=
    for_ 0 NUM_MICS (fun mic '(md, s1) =>
      let md := for_ 0 FRAME_SIZE (fun i md =>
                  set2 md mic i (adc_sample 53 0xFFF wr mic i)) md in
      let dc_sum := for_ 0 FRAME_SIZE (fun i s => add32 s (get2 md mic i)) 0 in
      let dc_offset := wrap16 (dc_sum ÷ Z.of_nat FRAME_SIZE) in
      let s1 := for_ 0 FRAME_SIZE (fun i s1 =>
                  set2 s1 mic i (wrap16 (get2 md mic i - dc_offset))) s1 in
      (md, s1))
    (uninit_2d wrap16 e id "mic_data" NUM_MICS FRAME_SIZE,
     uninit_2d wrap16 e id "stage1_output" NUM_MICS FRAME_SIZE) in
  (* stage 2: spatial noise cancellation *)
  let stage2_output :=
    for_ 0 FRAME_SIZE (fun i s2 =>
      let primary := (get2 stage1_output 0 i * 2 + get2 stage1_output 1 i
                      + get2 stage1_output 2 i) ÷ 4 in
      let noise_ref := (get2 stage1_output 1 i + get2 stage1_output 2 i) ÷ 2
                       - get2 stage1_output 0 i in
      <[i := wrap16 (primary - noise_ref ÷ 4)]> s2)
    (uninit wrap16 e id "stage2_output" FRAME_SIZE) in
  (* stage 3: wind noise reduction *)
  let low_freq_energy :=
    for_step 0 8 16 (fun i s =>
      add32 s ((stage2_output !!! i * stage2_output !!! i) ÷ 256)) 0 in
  let wind_detected := low_freq_energy ÷ Z.of_nat (FRAME_SIZE / 8) >? 400 in
  let stage3_output :=
    for_ 0 FRAME_SIZE (fun i s3 =>
      if wind_detected && bool_decide (1 <= i)%nat
      then <[i := wrap16 (stage2_output !!! i - stage2_output !!! (i - 1)%nat)]> s3
      else <[i := stage2_output !!! i]> s3)
    (uninit wrap16 e id "stage3_output" FRAME_SIZE) in
  (* stage 4: clothing rustle suppression; entries 0 and 1 are not written *)
  let stage4_output :=
    for_ 2 FRAME_SIZE (fun i s4 =>
      let accel := stage3_output !!! i - 2 * stage3_output !!! (i - 1)%nat
                   + stage3_output !!! (i - 2)%nat in
      let accel := if accel <? 0 then - accel else accel in
      if accel >? 500
      then <[i := wrap16 (stage3_output !!! i ÷ 4)]> s4
      else <[i := stage3_output !!! i]> s4)
    (uninit wrap16 e id "stage4_output" FRAME_SIZE) in
  (* stage 5: proximity score *)
  let mic_energy :=
    for_ 0 NUM_MICS (fun mic me =>
      let energy :=
        for_ 0 FRAME_SIZE (fun i energy =>
          add32 energy ((get2 stage1_output mic i * get2 stage1_output mic i) ÷ 256)) 0 in
      <[mic := energy ÷ Z.of_nat FRAME_SIZE]> me)
    (uninit wrap32 e id "mic_energy" NUM_MICS) in
  let energy_avg :=
    add32 (add32 (mic_energy !!! 0%nat) (mic_energy !!! 1%nat)) (mic_energy !!! 2%nat) ÷ 3 in
  let energy_diff :=
    for_ 0 NUM_MICS (fun mic s =>
      let diff := sub32 (mic_energy !!! mic) energy_avg in
      let diff := if diff <? 0 then neg32 diff else diff in
      add32 s diff) 0 in
  let near_field := div32 (mul32 energy_diff 100) (add32 energy_avg 1) >? 30 in
  let stage5_output :=
    for_ 0 FRAME_SIZE (fun i s5 => <[i := stage4_output !!! i]> s5)
    (uninit wrap16 e id "stage5_output" FRAME_SIZE) in
  (* stage 6: AGC + chest-resonance-aware VAD *)
  let signal_energy :=
    for_ 0 FRAME_SIZE (fun i s =>
      add32 s ((stage5_output !!! i * stage5_output !!! i) ÷ 256)) 0 in
  let rms := signal_energy ÷ Z.of_nat FRAME_SIZE in
  let gain := 128 in
  let gain :=
    if rms >? 0 then
      let gain := wrap16 ((2000 * 256) ÷ add32 rms 1) in
      let gain := if gain >? 512 then 512 else gain in
      let gain := if gain <? 64 then 64 else gain in
      gain
    else gain in
  let final_output :=
    for_ 0 FRAME_SIZE (fun i out => <[i := wrap16 ((stage5_output !!! i * gain) ÷ 256)]> out)
    (uninit wrap16 e id "final_output" FRAME_SIZE) in
  let chest_resonance :=
    for_step 4 4 31 (fun i s =>
      let low_freq := (get2 stage1_output 0 (i - 3) + get2 stage1_output 0 (i - 2)
                       + get2 stage1_output 0 (i - 1) + get2 stage1_output 0 i) ÷ 4 in
      add32 s ((low_freq * low_freq) ÷ 256)) 0 in
  let chest_resonance := chest_resonance ÷ Z.of_nat (FRAME_SIZE / 4) in
  let voice_detected := near_field && (rms >? 500) && (chest_resonance >? 300) in
  if voice_detected then u32 (final_output !!! 0%nat) else 0.

Definition workload_necklace_full (e : env) (m : flpr) : result (Z * flpr) :=
  let id := clock_reads m in
  let '(start_us, m) := get_timestamp_us e m in
  let r := necklace_full_frame e id (work_result m) in
  let '(end_us, m) := get_timestamp_us e m in
  let m := set_work_result r m in
  mret (elapsed_cycles start_us end_us, m).

(** *** Dispatcher: [execute_workload] and the body of [workload_thread] *)

Definition execute_workload (e : env) (m : flpr) : result (Z * flpr) :=
  let w := current_workload m in
  if w =? WORKLOAD_MATRIX_MULT then workload_matrix_mult e m
  else if w =? WORKLOAD_SORTING then workload_sorting e m
  else if w =? WORKLOAD_FFT_SIM then workload_fft_sim e m
  else if w =? WORKLOAD_CRYPTO_SIM then workload_crypto_sim e m
  else if w =? WORKLOAD_MIXED then workload_mixed e m
  else if w =? WORKLOAD_AUDIO_PIPELINE then workload_audio_pipeline e m
  else if w =? WORKLOAD_AUDIO_PIPELINE_AEC then workload_audio_pipeline_aec e m
  else if w =? WORKLOAD_PROXIMITY_VAD then workload_proximity_vad e m
  else if w =? WORKLOAD_CHEST_RESONANCE then workload_chest_resonance e m
  else if w =? WORKLOAD_CLOTHING_RUSTLE then workload_clothing_rustle e m
  else if w =? WORKLOAD_SPATIAL_NOISE_CANCEL then workload_spatial_noise_cancel e m
  else if w =? WORKLOAD_WIND_NOISE_REDUCTION then workload_wind_noise_reduction e m
  else if w =? WORKLOAD_NECKLACE_FULL then workload_necklace_full e m
  else (* case WORKLOAD_IDLE: default: *)
    mret (0, emit (Sleep 100) m).

(** One turn of [while (1)] in [workload_thread] *)
Definition workload_thread_step (e : env) (m : flpr) : result flpr :=
  if negb (current_workload m =? WORKLOAD_IDLE) then
    '(cycles, m) ← execute_workload e m;
    let m := set_total_work_cycles (u64 (total_work_cycles m + cycles)) m in
    let m := set_work_iterations (u32 (work_iterations m + 1)) m in
    mret m
  else mret (emit (Sleep 100) m).

(** *** Telemetry: the body of [stats_thread] *)

Definition STATS_INTERVAL_MS : Z := 1000.

(** [instructions = (cycle_delta * 10) / 15; mips = instructions / 1000000] *)
Definition estimate_mips (cycle_delta : Z) : Z :=
  let instructions := u64 (cycle_delta * 10) ÷ 15 in
  u32 (instructions ÷ 1000000).

(** [cpu_pct = (mips * 100) / RISCV_FREQ_MHZ; if (cpu_pct > 100) cpu_pct = 100] *)
Definition estimate_cpu_pct (mips : Z) : Z :=
  let cpu_pct := u32 (mips * 100) ÷ RISCV_FREQ_MHZ in
  if cpu_pct >? 100 then 100 else cpu_pct.

(** Locals of [stats_thread] that live across turns *)
Record stats_locals := StatsLocals { prev_cycles : Z; prev_iterations : Z }.

(** The stores made through [stats = (struct stats_data * )msg.data] *)
Definition write_stats (msg : list byte)
    (cycle_delta iter_delta mips workload cpu_pct : Z) : result (list byte) :=
  msg ← store msg (off_stats "total_cycles") 8 cycle_delta;
  msg ← store msg (off_stats "iterations") 4 iter_delta;
  msg ← store msg (off_stats "mips") 4 mips;
  msg ← store msg (off_stats "workload_type") 4 workload;
  msg ← store msg (off_stats "cpu_pct") 4 cpu_pct;
  mret msg.

(** One turn of [while (1)] in [stats_thread] *)
Definition stats_thread_step (l : stats_locals) (m : flpr) : result (stats_locals * flpr) :=
  let m := emit (Sleep STATS_INTERVAL_MS) m in
  let cycle_delta := u64 (total_work_cycles m - prev_cycles l) in
  let iter_delta := u32 (work_iterations m - prev_iterations l) in
  let l := StatsLocals (total_work_cycles m) (work_iterations m) in
  let mips := estimate_mips cycle_delta in
  let cpu_pct := estimate_cpu_pct mips in
  msg ← store (zeroed sizeof_ipc_message) off_type 1 IPC_MSG_STATS;
  msg ← store msg off_workload 1 (current_workload m);
  msg ← write_stats msg cycle_delta iter_delta mips (current_workload m) cpu_pct;
  mret (l, emit (IpcSend msg) m).

(** ** The reporting core (cpuapp): IPC receive callback *)

Module CpuApp.

Record app := App {
  riscv_mips : Z;             (* uint32_t *)
  riscv_workload : Z;         (* uint32_t *)
  riscv_cpu_pct : Z;          (* uint32_t *)
  audio_frames_received : Z;  (* uint32_t *)
  audio_voice_detected : Z    (* uint32_t *)
}.

Definition ep_recv (data : list byte) (a : app) : result app :=
  ty ← load data off_type 1;
  if ty =? IPC_MSG_STATS then
    mips ← load data (off_stats "mips") 4;
    workload ← load data (off_stats "workload_type") 4;
    cpu_pct ← load data (off_stats "cpu_pct") 4;
    mret (App mips workload cpu_pct (audio_frames_received a) (audio_voice_detected a))
  else if ty =? IPC_MSG_AUDIO_DATA then
    let frames := u32 (audio_frames_received a + 1) in
    d0 ← load data (off_data 0) 4;
    d1 ← load data (off_data 1) 4;
    frame_energy ← load data (off_data 2) 4;
    zero_crossings ← load data (off_data 3) 4;
    let voice :=
      if frame_energy >? 1000 then u32 (audio_voice_detected a + 1)
      else audio_voice_detected a in
    mret (App (riscv_mips a) (riscv_workload a) (riscv_cpu_pct a) frames voice)
  else mret a.

End CpuApp.

(** ** The compute core as a transition system *)

(** The three activities of the core.  Each turn is taken as one atomic
    step; the code itself takes no lock. *)
Inductive label :=
  | Recv (data : list byte)          (* the transport calls ep_recv on a buffer *)
  | Work                             (* one turn of workload_thread *)
  | Stats (l l' : stats_locals).     (* one turn of stats_thread *)

Inductive step (e : env) : label -> flpr -> flpr -> Prop :=
  | step_recv data m m' :
      ep_recv data m = Ok m' -> step e (Recv data) m m'
  | step_work m m' :
      workload_thread_step e m = Ok m' -> step e Work m m'
  | step_stats l l' m m' :
      stats_thread_step l m = Ok (l', m') -> step e (Stats l l') m m'.

Definition reachable (e : env) (m : flpr) : Prop :=
  rtc (fun m m' => exists l, step e l m m') boot m.

(** ** Vocabulary of the statements below *)

(** The designed range of an AEC coefficient *)
Definition coeff_ok (c : Z) : Prop := -8192 <= c <= 8192.

Definition clamp_coeff (v : Z) : Z :=
  if v >? 8192 then 8192 else if v <? -8192 then -8192 else v.

(** Wire image of an [IPC_MSG_AUDIO_DATA] message: header, four payload
    words, and the bytes of the fifth word. *)
Definition audio_data_bytes (workload w0 w1 w2 w3 : Z) (word4 : list byte) : list byte :=
  [byte_of_Z IPC_MSG_AUDIO_DATA; byte_of_Z workload; x00; x00]
  ++ le_bytes 4 w0 ++ le_bytes 4 w1 ++ le_bytes 4 w2 ++ le_bytes 4 w3 ++ word4.

(** Every message sent in [evs] is an AudioData envelope whose fifth
    payload word satisfies [P]; nothing else happens in [evs]. *)
Definition audio_sends (P : Z -> Prop) (evs : list event) : Prop :=
  Forall (fun ev =>
    match ev with
    | IpcSend msg =>
        length msg = sizeof_ipc_message /\
        load msg off_type 1 = Ok IPC_MSG_AUDIO_DATA /\
        exists w4, load msg (off_data 4) 4 = Ok w4 /\ P w4
    | Sleep _ => False
    end) evs.

(** [m'] differs from [m] at most in the scratch variables of a kernel:
    [work_result], [noise_filter] and the timer-read count. *)
Definition kernel_footprint (m m' : flpr) : Prop :=
  current_workload m' = current_workload m /\
  total_work_cycles m' = total_work_cycles m /\
  work_iterations m' = work_iterations m /\
  aec_filter m' = aec_filter m /\
  far_end_buffer m' = far_end_buffer m /\
  events m' = events m.

(** The body of the [IPC_MSG_SET_WORKLOAD] branch of [ep_recv] *)
Definition switched (w : Z) (m : flpr) : flpr :=
  set_work_iterations 0 (set_total_work_cycles 0 (set_current_workload w m)).

(** The coefficient arrays that a run of coefficient updates can
    produce from the zero-initialised filter. *)
Inductive filter_reachable : list Z -> Prop :=
  | fr_boot : filter_reachable (replicate AEC_FILTER_TAPS 0)
  | fr_update far n update_factor k w :
      filter_reachable w ->
      filter_reachable (aec_update_tap far n update_factor k w).

(** *** Concrete runs *)

(** The 24-byte SetWorkload envelope for workload byte [w]: a zeroed
    message with [type] and [workload] set. *)
Definition set_workload_envelope (w : byte) : list byte :=
  [x02; w; x00; x00] ++ replicate 20 x00.

(** A timer that advances 1000 us per read, an all-zero stack. *)
Definition env_quiet : env := Env (fun n => 1000 * Z.of_nat n) (fun _ _ _ => 0) true.

(** The same with four stale values in the cells of [filtered_data]
    that the pre-processing loop does not write. *)
Definition env_stale : env :=
  Env (fun n => 1000 * Z.of_nat n)
      (fun _ name i =>
         if String.eqb name "filtered_data" then
           match i with
           | 0%nat => -4000 | 1%nat => 4000 | 128%nat => -4000 | 129%nat => 4000
           | _ => 0
           end
         else 0)
      true.

Definition state_of (r : result flpr) : flpr :=
  match r with Ok m => m | OutOfBounds _ _ _ => boot end.

(** boot, SetWorkload(MatrixMult), two turns of the workload thread *)
Definition run_matrix : result flpr :=
  m ← ep_recv (set_workload_envelope x01) boot;
  m ← workload_thread_step env_quiet m;
  workload_thread_step env_quiet m.

(** boot, SetWorkload(AudioPipelineAEC), one frame *)
Definition run_aec : result flpr :=
  m ← ep_recv (set_workload_envelope x07) boot;
  workload_thread_step env_quiet m.

(** boot, SetWorkload(ChestResonance), one frame, then a switch to
    workload byte [w] *)
Definition run_chest_then (w : byte) : result flpr :=
  m ← ep_recv (set_workload_envelope x09) boot;
  m ← workload_thread_step env_stale m;
  ep_recv (set_workload_envelope w) m.

(** boot, SetWorkload(AudioPipelineAEC), two frames *)
Definition run_aec_again : result flpr :=
  m ← run_aec;
  workload_thread_step env_quiet m.

(** The same, with the coefficients zeroed between the two frames *)
Definition run_aec_fresh : result flpr :=
  m ← run_aec;
  workload_thread_step env_quiet (set_aec_filter (replicate AEC_FILTER_TAPS 0) m).

(** ** Runs of the workload thread *)

(** [n] consecutive turns of [workload_thread] *)
Fixpoint workload_turns (e : env) (n : nat) (m : flpr) : result flpr :=
  match n with
  | O => mret m
  | S n' => m ← workload_thread_step e m; workload_turns e n' m
  end.

(** Sum of the [n] cycle estimates taken from timer reads [k], [k+1],
    then [k+2], [k+3], and so on *)
Fixpoint elapsed_sum (e : env) (k n : nat) : Z :=
  match n with
  | O => 0
  | S n' =>
      elapsed_cycles (u64 (uptime_us e k)) (u64 (uptime_us e (S k)))
      + elapsed_sum e (S (S k)) n'
  end.

(** ** The reporting core (cpuapp): control writes, streaming, statistics *)

Module CpuAppCtl.

Definition TEST_DATA_SIZE : Z := 495.
Definition STATS_INTERVAL_MS : Z := 1000.

(** File-scope variables of cpuapp other than the remote stats, with the
    effects so far (oldest first). *)
Record ctl := Ctl {
  current_conn : bool;      (* current_conn != NULL *)
  bytes_sent : Z;           (* uint32_t *)
  bytes_received : Z;       (* uint32_t *)
  total_cycles : Z;         (* uint64_t *)
  iterations : Z;           (* uint32_t *)
  notify_enabled : bool;
  target_tx_kbps : Z;       (* uint32_t *)
  ipc_ready : bool;
  ctl_events : list event
}.

Definition ctl_emit (ev : event) (c : ctl) : ctl :=
  Ctl (current_conn c) (bytes_sent c) (bytes_received c) (total_cycles c) (iterations c)
      (notify_enabled c) (target_tx_kbps c) (ipc_ready c) (ctl_events c ++ [ev]).

(** [ep_bound] *)
Definition ep_bound (c : ctl) : ctl :=
  Ctl (current_conn c) (bytes_sent c) (bytes_received c) (total_cycles c) (iterations c)
      (notify_enabled c) (target_tx_kbps c) true (ctl_events c).

(** [on_receive]: [len] is a [uint16_t] *)
Definition on_receive (len : Z) (c : ctl) : Z * ctl :=
  (len,
   if len >? 0 then
     Ctl (current_conn c) (bytes_sent c) (u32 (bytes_received c + len)) (total_cycles c)
         (iterations c) (notify_enabled c) (target_tx_kbps c) (ipc_ready c) (ctl_events c)
   else c).

(** [on_control_write]: the length of [buf] is [len]; [memcpy] into a
    [uint32_t] on a little-endian core *)
Definition on_control_write (buf : list byte) (c : ctl) : Z * ctl :=
  let len := Z.of_nat (length buf) in
  (len,
   if len =? 4 then
     Ctl (current_conn c) (bytes_sent c) (bytes_received c) (total_cycles c) (iterations c)
         (notify_enabled c) (le_value buf) (ipc_ready c) (ctl_events c)
   else c).

(** [for (int i = 0; i < 20 && !ipc_ready; i++) k_sleep(K_MSEC(100));]
    with [fuel] turns left.  [bound_in i] tells whether the transport
    calls [ep_bound] while turn [i] sleeps. *)
Fixpoint wait_ipc_ready (bound_in : nat -> bool) (i fuel : nat) (c : ctl) : ctl :=
  match fuel with
  | O => c
  | S fuel' =>
      if ipc_ready c then c
      else
        let c := ctl_emit (Sleep 100) c in
        let c := if bound_in i then ep_bound c else c in
        wait_ipc_ready bound_in (S i) fuel' c
  end.

(** [on_riscv_workload_write]; [ipc0] is
    [DT_NODE_EXISTS(DT_NODELABEL(ipc0))], the length of [buf] is [len]. *)
Definition on_riscv_workload_write (ipc0 : bool) (bound_in : nat -> bool)
    (buf : list byte) (c : ctl) : result (Z * ctl) :=
  let len := Z.of_nat (length buf) in
  if len =? 1 then
    workload ← load buf 0 1;
    if ipc0 then
      let c := if negb (ipc_ready c) then wait_ipc_ready bound_in 0 20 c else c in
      if negb (ipc_ready c) then mret (len, c)
      else
        msg ← store (zeroed sizeof_ipc_message) off_type 1 IPC_MSG_SET_WORKLOAD;
        msg ← store msg off_workload 1 workload;
        mret (len, ctl_emit (IpcSend msg) c)
    else mret (len, c)
  else mret (len, c).

(** [disconnected] *)
Definition disconnected (c : ctl) : ctl :=
  Ctl false 0 0 0 0 false 0 (ipc_ready c) (ctl_events c).

(** The delay computed in [stream_thread]; [None] when [bytes_per_sec]
    is zero and the division has no result. *)
Definition tx_delay_ms (target_tx_kbps : Z) : option Z :=
  if target_tx_kbps =? 0 then Some 10
  else
    let bytes_per_sec := u32 (target_tx_kbps * 1000) ÷ 8 in
    if bytes_per_sec =? 0 then None
    else
      let delay_ms := u32 (TEST_DATA_SIZE * 1000) ÷ bytes_per_sec in
      Some (if delay_ms <? 5 then 5 else delay_ms).

(** One turn of [while (1)] in [stream_thread]; [err] is what
    [send_data] returns and [cycles] what [timing_cycles_get] returns. *)
Definition stream_thread_step (err cycles : Z) (c : ctl) : option ctl :=
  if current_conn c && notify_enabled c then
    let c :=
      if err =? 0 then
        Ctl (current_conn c) (u32 (bytes_sent c + TEST_DATA_SIZE)) (bytes_received c)
            (u64 (total_cycles c + cycles)) (u32 (iterations c + 1))
            (notify_enabled c) (target_tx_kbps c) (ipc_ready c) (ctl_events c)
      else c in
    delay_ms ← tx_delay_ms (target_tx_kbps c);
    Some (ctl_emit (Sleep delay_ms) c)
  else Some (ctl_emit (Sleep 100) c).

(** The figures [stats_thread] derives from the two byte deltas *)
Definition kbps (delta : Z) : Z := u32 (delta * 8) ÷ STATS_INTERVAL_MS.

Definition arm_cpu_pct (sent_delta recv_delta : Z) : Z :=
  let total_bytes_per_sec := u32 (sent_delta + recv_delta) in
  let base_overhead_pct := 10 in
  let throughput_kbytes_per_sec := total_bytes_per_sec ÷ 1000 in
  let throughput_cost_pct := u32 (throughput_kbytes_per_sec * 5) ÷ 10 in
  let arm_cpu_pct := u32 (base_overhead_pct + throughput_cost_pct) in
  if arm_cpu_pct >? 100 then 100 else arm_cpu_pct.

(** [voice_pct], printed when [audio_frames_received > 0] *)
Definition voice_pct (a : CpuApp.app) : option Z :=
  if CpuApp.audio_frames_received a >? 0 then
    Some (u32 (CpuApp.audio_voice_detected a * 100) ÷ CpuApp.audio_frames_received a)
  else None.

(** The samples extracted from a payload word in [ep_recv]:
    [int16_t s0 = d & 0xFFFF; int16_t s1 = (d >> 16) & 0xFFFF] *)
Definition sample_lo (d : Z) : Z := wrap16 (Z.land d 0xFFFF).
Definition sample_hi (d : Z) : Z := wrap16 (Z.land (Z.shiftr d 16) 0xFFFF).

End CpuAppCtl.

(** ** Shapes shared by the workloads *)

(** The frame of a kernel that reads the timer before and after its
    loops and leaves [r] in [work_result] *)
Definition timed (e : env) (m : flpr) (r : Z) : result (Z * flpr) :=
  Ok (elapsed_cycles (u64 (uptime_us e (clock_reads m)))
                     (u64 (uptime_us e (S (clock_reads m)))),
      set_work_result r (tick (tick m))).

(** A dispatch that reads the timer exactly twice, returns the scaled
    difference of the two readings and leaves the dispatcher's
    variables alone *)
Definition single_post (e : env) (m : flpr) (c : Z) (m' : flpr) : Prop :=
  c = elapsed_cycles (u64 (uptime_us e (clock_reads m)))
                     (u64 (uptime_us e (S (clock_reads m)))) /\
  clock_reads m' = S (S (clock_reads m)) /\
  current_workload m' = current_workload m /\
  total_work_cycles m' = total_work_cycles m /\
  work_iterations m' = work_iterations m.

(** ** Shape of the echo canceller's static arrays *)

(** Both arrays keep their 256 cells; coefficients 127 and up and
    reference cells 128 and up hold 0; reference samples are 11-bit. *)
Definition aec_shape (w far : list Z) : Prop :=
  length w = AEC_FILTER_TAPS /\ length far = AEC_FILTER_TAPS /\
  (forall k, (127 <= k < 256)%nat -> w !!! k = 0) /\
  (forall k, (128 <= k < 256)%nat -> far !!! k = 0) /\
  Forall (fun x => 0 <= x <= 2047) far.

(** ** Runs of the reporting core's receive callback *)

Fixpoint ep_recv_all (bufs : list (list byte)) (a : CpuApp.app) : result CpuApp.app :=
  match bufs with
  | [] => mret a
  | data :: bufs' => a ← CpuApp.ep_recv data a; ep_recv_all bufs' a
  end.

(** boot, SetWorkload(SpatialNoiseCancel), one frame *)
Definition run_spatial : result flpr :=
  m ← ep_recv (set_workload_envelope x0b) boot;
  workload_thread_step env_quiet m.

(** * Facts *)

(** ** Machine integers *)

Lemma wrap16_range z : -32768 <= wrap16 z <= 32767.
Proof. unfold wrap16. pose proof (Z.mod_pos_bound (z + 2^15) (2^16)). lia. Qed.

(** ** Loops *)

Lemma for_ind {S : Type} (P : S -> Prop) lo hi (body : nat -> S -> S) s :
  P s ->
  (forall i s, (lo <= i < hi)%nat -> P s -> P (body i s)) ->
  P (for_ lo hi body s).
Proof.
  intros Hs Hbody. unfold for_.
  assert (Hin : forall i, i ∈ seq lo (hi - lo) -> (lo <= i < hi)%nat).
  { intros i Hi. apply elem_of_seq in Hi. lia. }
  revert s Hs Hin. generalize (seq lo (hi - lo)) as l.
  induction l as [|i l IH]; intros s Hs Hin; simpl; [done|].
  apply IH.
  - apply Hbody; [|done]. apply Hin. left.
  - intros j Hj. apply Hin. by right.
Qed.

(** ** Byte buffers *)

Lemma le_bytes_length n v : length (le_bytes n v) = n.
Proof. revert v. induction n as [|n IH]; intros v; simpl; [done|]. by rewrite IH. Qed.

Lemma Z_of_byte_of_Z z : Z_of_byte (byte_of_Z z) = z `mod` 256.
Proof.
  unfold Z_of_byte, byte_of_Z.
  pose proof (Z.mod_pos_bound z 256 ltac:(lia)) as Hb.
  destruct (Byte.of_N (Z.to_N (z `mod` 256))) as [b|] eqn:Hof; simpl.
  - apply Byte.to_of_N in Hof. rewrite Hof. lia.
  - apply Byte.of_N_None_iff in Hof. lia.
Qed.

(** Little-endian encoding keeps the low [8 n] bits. *)
Lemma le_value_le_bytes n v : le_value (le_bytes n v) = v `mod` 2 ^ (8 * Z.of_nat n).
Proof.
  revert v. induction n as [|n IH]; intros v.
  - simpl. by rewrite Z.mod_1_r.
  - cbn [le_bytes le_value]. rewrite IH, Z_of_byte_of_Z, Z.shiftr_div_pow2 by lia.
    replace (8 * Z.of_nat (S n)) with (8 + 8 * Z.of_nat n) by lia.
    rewrite Z.pow_add_r by lia.
    change (2 ^ 8) with 256.
    rewrite (Z.rem_mul_r v 256) by lia. done.
Qed.

Lemma store_ok buf off size v :
  (off + size <= length buf)%nat ->
  store buf off size v = Ok (take off buf ++ le_bytes size v ++ drop (off + size) buf).
Proof. intros H. unfold store. by rewrite decide_True. Qed.

Lemma store_fault buf off size v :
  (length buf < off + size)%nat ->
  store buf off size v = OutOfBounds off size (length buf).
Proof. intros H. unfold store. rewrite decide_False; [done | lia]. Qed.

Lemma store_length buf off size v buf' :
  store buf off size v = Ok buf' -> length buf' = length buf.
Proof.
  unfold store. case_decide; [|done]. intros [= <-].
  rewrite !length_app, length_take, length_drop, le_bytes_length. lia.
Qed.

Lemma load_ok buf off size :
  (off + size <= length buf)%nat ->
  load buf off size = Ok (le_value (take size (drop off buf))).
Proof. intros H. unfold load. by rewrite decide_True. Qed.

Lemma load_fault buf off size :
  (length buf < off + size)%nat ->
  load buf off size = OutOfBounds off size (length buf).
Proof. intros H. unfold load. rewrite decide_False; [done | lia]. Qed.

(** Reading back what was stored (round trip on the low bits) *)
Lemma load_store_same buf off size v buf' :
  store buf off size v = Ok buf' ->
  load buf' off size = Ok (v `mod` 2 ^ (8 * Z.of_nat size)).
Proof.
  intros Hst. pose proof (store_length _ _ _ _ _ Hst) as Hlen.
  unfold store in Hst. case_decide as Hle; [|done]. injection Hst as <-.
  unfold load. rewrite Hlen, decide_True by done. f_equal.
  rewrite drop_app_length' by (rewrite length_take; lia).
  rewrite take_app_length' by (by rewrite le_bytes_length).
  apply le_value_le_bytes.
Qed.

Lemma store_lookup buf off size v buf' i :
  store buf off size v = Ok buf' ->
  buf' !! i = if decide (off <= i < off + size)%nat
              then le_bytes size v !! (i - off)%nat else buf !! i.
Proof.
  unfold store. case_decide as Hle; [|done]. intros [= <-].
  case_decide as Hi.
  - rewrite lookup_app_r; rewrite length_take; [|lia].
    rewrite lookup_app_l; [|rewrite le_bytes_length; lia].
    f_equal. lia.
  - destruct (decide (i < off)%nat).
    + rewrite lookup_app_l; [|rewrite length_take; lia].
      by rewrite lookup_take_lt.
    + rewrite lookup_app_r; rewrite length_take; [|lia].
      rewrite lookup_app_r; rewrite le_bytes_length; [|lia].
      rewrite lookup_drop. f_equal. lia.
Qed.

(** A store leaves every disjoint field as it was. *)
Lemma load_store_other buf off size v buf' off' size' :
  store buf off size v = Ok buf' ->
  (off' + size' <= off \/ off + size <= off')%nat ->
  load buf' off' size' = load buf off' size'.
Proof.
  intros Hst Hdis. unfold load. rewrite (store_length _ _ _ _ _ Hst).
  case_decide; [|done]. do 2 f_equal.
  apply list_eq. intros i.
  destruct (decide (i < size')%nat).
  - rewrite !lookup_take_lt by done. rewrite !lookup_drop.
    rewrite (store_lookup _ _ _ _ _ _ Hst). rewrite decide_False; [done | lia].
  - rewrite !lookup_take_ge by lia. done.
Qed.

Lemma load_byte0 t rest : load (t :: rest) 0 1 = Ok (Z_of_byte t).
Proof. rewrite load_ok by (simpl; lia). simpl. f_equal. lia. Qed.

Lemma load_byte1 t w rest : load (t :: w :: rest) 1 1 = Ok (Z_of_byte w).
Proof. rewrite load_ok by (simpl; lia). simpl. f_equal. lia. Qed.

Lemma Ok_pair_inj {A B} (a a' : A) (b b' : B) :
  Ok (a, b) = Ok (a', b') -> a = a' /\ b = b'.
Proof. intros H. by injection H. Qed.

(** ** Receive callback *)

Lemma ep_recv_eq t w rest m :
  ep_recv (t :: w :: rest) m =
  Ok (if Z_of_byte t =? IPC_MSG_SET_WORKLOAD then switched (Z_of_byte w) m else m).
Proof.
  unfold ep_recv. change off_type with 0%nat. change off_workload with 1%nat.
  rewrite load_byte0. cbn [mbind result_bind].
  destruct (Z_of_byte t =? IPC_MSG_SET_WORKLOAD); [|done].
  rewrite load_byte1. done.
Qed.

Lemma switched_aec_filter w m : aec_filter (switched w m) = aec_filter m.
Proof. reflexivity. Qed.

Lemma switched_far_end_buffer w m : far_end_buffer (switched w m) = far_end_buffer m.
Proof. reflexivity. Qed.

Lemma ep_recv_cases data m m' :
  ep_recv data m = Ok m' -> m' = m \/ exists w, m' = switched w m.
Proof.
  unfold ep_recv. destruct (load data off_type 1) as [ty|]; [|done].
  cbn [mbind result_bind]. destruct (ty =? IPC_MSG_SET_WORKLOAD).
  - destruct (load data off_workload 1) as [w|]; [|done].
    intros [= <-]. right. by exists w.
  - intros [= <-]. by left.
Qed.

(** ** Kernels *)

Lemma kernel_footprint_trans m1 m2 m3 :
  kernel_footprint m1 m2 -> kernel_footprint m2 m3 -> kernel_footprint m1 m3.
Proof.
  unfold kernel_footprint. intros (?&?&?&?&?&?) (?&?&?&?&?&?).
  repeat split; congruence.
Qed.

Ltac kernel_footprint_tac :=
  unfold get_timestamp_us; cbv beta iota zeta;
  eexists _, _; split; [reflexivity | repeat split].

Lemma workload_matrix_mult_footprint e m :
  exists c m', workload_matrix_mult e m = Ok (c, m') /\ kernel_footprint m m'.
Proof. unfold workload_matrix_mult. kernel_footprint_tac. Qed.

Lemma workload_sorting_footprint e m :
  exists c m', workload_sorting e m = Ok (c, m') /\ kernel_footprint m m'.
Proof. unfold workload_sorting. kernel_footprint_tac. Qed.

Lemma workload_fft_sim_footprint e m :
  exists c m', workload_fft_sim e m = Ok (c, m') /\ kernel_footprint m m'.
Proof. unfold workload_fft_sim. kernel_footprint_tac. Qed.

Lemma workload_crypto_sim_footprint e m :
  exists c m', workload_crypto_sim e m = Ok (c, m') /\ kernel_footprint m m'.
Proof. unfold workload_crypto_sim. kernel_footprint_tac. Qed.

Lemma workload_proximity_vad_footprint e m :
  exists c m', workload_proximity_vad e m = Ok (c, m') /\ kernel_footprint m m'.
Proof. unfold workload_proximity_vad. kernel_footprint_tac. Qed.

Lemma workload_chest_resonance_footprint e m :
  exists c m', workload_chest_resonance e m = Ok (c, m') /\ kernel_footprint m m'.
Proof. unfold workload_chest_resonance. kernel_footprint_tac. Qed.

Lemma workload_clothing_rustle_footprint e m :
  exists c m', workload_clothing_rustle e m = Ok (c, m') /\ kernel_footprint m m'.
Proof. unfold workload_clothing_rustle. kernel_footprint_tac. Qed.

Lemma workload_spatial_noise_cancel_footprint e m :
  exists c m', workload_spatial_noise_cancel e m = Ok (c, m') /\ kernel_footprint m m'.
Proof.
  unfold workload_spatial_noise_cancel, get_timestamp_us. cbv beta iota zeta.
  match goal with
  | |- context [spatial_noise_cancel_frame ?a ?b ?c ?d] =>
      destruct (spatial_noise_cancel_frame a b c d) as [r nf]
  end.
  eexists _, _. split; [reflexivity | repeat split].
Qed.

Lemma workload_wind_noise_reduction_footprint e m :
  exists c m', workload_wind_noise_reduction e m = Ok (c, m') /\ kernel_footprint m m'.
Proof. unfold workload_wind_noise_reduction. kernel_footprint_tac. Qed.

Lemma workload_necklace_full_footprint e m :
  exists c m', workload_necklace_full e m = Ok (c, m') /\ kernel_footprint m m'.
Proof. unfold workload_necklace_full. kernel_footprint_tac. Qed.

Lemma workload_mixed_footprint e m :
  exists c m', workload_mixed e m = Ok (c, m') /\ kernel_footprint m m'.
Proof.
  unfold workload_mixed.
  destruct (workload_matrix_mult_footprint e m) as (c1 & m1 & -> & F1).
  cbn [mbind result_bind].
  destruct (workload_sorting_footprint e m1) as (c2 & m2 & -> & F2).
  cbn [mbind result_bind].
  destruct (workload_fft_sim_footprint e m2) as (c3 & m3 & -> & F3).
  cbn [mbind result_bind].
  destruct (workload_crypto_sim_footprint e m3) as (c4 & m4 & -> & F4).
  cbn [mbind result_bind].
  eexists _, _. split; [reflexivity|].
  eauto using kernel_footprint_trans.
Qed.

(** ** Audio pipelines *)

Lemma audio_stores_eq {A} workload w0 w1 w2 w3 (K : list byte -> result A) :
  (msg ← store (zeroed sizeof_ipc_message) off_type 1 IPC_MSG_AUDIO_DATA;
   msg ← store msg off_workload 1 workload;
   msg ← store msg (off_data 0) 4 w0;
   msg ← store msg (off_data 1) 4 w1;
   msg ← store msg (off_data 2) 4 w2;
   msg ← store msg (off_data 3) 4 w3;
   K msg) = K (audio_data_bytes workload w0 w1 w2 w3 [x00; x00; x00; x00]).
Proof. reflexivity. Qed.

Lemma audio_stores_aec_eq {A} workload w0 w1 w2 w3 w4 (K : list byte -> result A) :
  (msg ← store (zeroed sizeof_ipc_message) off_type 1 IPC_MSG_AUDIO_DATA;
   msg ← store msg off_workload 1 workload;
   msg ← store msg (off_data 0) 4 w0;
   msg ← store msg (off_data 1) 4 w1;
   msg ← store msg (off_data 2) 4 w2;
   msg ← store msg (off_data 3) 4 w3;
   msg ← store msg (off_data 4) 4 w4;
   K msg) = K (audio_data_bytes workload w0 w1 w2 w3 (le_bytes 4 w4)).
Proof. reflexivity. Qed.

Lemma audio_data_bytes_type workload w0 w1 w2 w3 word4 :
  load (audio_data_bytes workload w0 w1 w2 w3 word4) off_type 1 = Ok IPC_MSG_AUDIO_DATA.
Proof. reflexivity. Qed.

Lemma audio_data_bytes_word4_zero workload w0 w1 w2 w3 :
  load (audio_data_bytes workload w0 w1 w2 w3 [x00; x00; x00; x00]) (off_data 4) 4 = Ok 0.
Proof. reflexivity. Qed.

Lemma audio_data_bytes_word4 workload w0 w1 w2 w3 w4 :
  load (audio_data_bytes workload w0 w1 w2 w3 (le_bytes 4 w4)) (off_data 4) 4
  = Ok (w4 `mod` 2 ^ 32).
Proof.
  change (load _ _ _) with (Ok (le_value (le_bytes 4 w4))).
  f_equal. apply le_value_le_bytes.
Qed.

Lemma audio_data_bytes_length workload w0 w1 w2 w3 word4 :
  length word4 = 4%nat ->
  length (audio_data_bytes workload w0 w1 w2 w3 word4) = sizeof_ipc_message.
Proof. intros H. unfold audio_data_bytes. simpl. rewrite H. reflexivity. Qed.

(** [workload_audio_pipeline] in closed form: it always returns, and
    sends at most one message, whose fifth word is never written. *)
Lemma workload_audio_pipeline_eq e m :
  let fe := audio_front_end e (clock_reads m) (work_result m) in
  let po := fe_processed_output fe in
  let msg := audio_data_bytes WORKLOAD_AUDIO_PIPELINE
               (pack16 (po !!! 0%nat) (po !!! 1%nat)) (pack16 (po !!! 2%nat) (po !!! 3%nat))
               (fe_frame_energy fe) (fe_zero_crossings fe) [x00; x00; x00; x00] in
  workload_audio_pipeline e m =
  Ok (elapsed_cycles (u64 (uptime_us e (clock_reads m)))
                     (u64 (uptime_us e (S (clock_reads m)))),
      if fe_voice_detected fe then
        set_work_result (u32 (po !!! 0%nat))
          (if ipc0 e then emit (IpcSend msg) (tick (tick m)) else tick (tick m))
      else set_work_result 0 (tick (tick m))).
Proof.
  intros fe po msg.
  unfold workload_audio_pipeline, get_timestamp_us. cbv beta iota zeta.
  cbn [clock_reads work_result tick].
  fold fe. fold po.
  rewrite audio_stores_eq. fold msg.
  destruct (fe_voice_detected fe); [|reflexivity].
  destruct (ipc0 e); reflexivity.
Qed.

(** [workload_audio_pipeline_aec] in closed form *)
Lemma workload_audio_pipeline_aec_eq e m :
  let id := clock_reads m in
  let fe := audio_front_end e id (work_result m) in
  let far := far_end_fill (work_result m) (far_end_buffer m) in
  let s := aec_frame (fe_processed_output fe) far
             (aec_filter m, uninit wrap16 e id "echo_estimate" FRAME_SIZE,
              uninit wrap16 e id "error_signal" FRAME_SIZE) in
  let far_end_energy :=
    for_ 0 FRAME_SIZE (fun i s => add32 s (far !!! i * far !!! i)) 0 ÷ Z.of_nat FRAME_SIZE in
  let double_talk := (fe_frame_energy fe >? 500) && (far_end_energy >? 500) in
  let out :=
    residual_suppress double_talk (fe_processed_output fe) s.2
      (uninit wrap16 e id "final_output" FRAME_SIZE) in
  let msg := audio_data_bytes WORKLOAD_AUDIO_PIPELINE_AEC
               (pack16 (out !!! 0%nat) (out !!! 1%nat)) (pack16 (out !!! 2%nat) (out !!! 3%nat))
               (fe_frame_energy fe) (fe_zero_crossings fe)
               (le_bytes 4 (if double_talk then 1 else 0)) in
  let m1 := tick (tick (set_aec_filter s.1.1 (set_far_end_buffer far m))) in
  workload_audio_pipeline_aec e m =
  Ok (elapsed_cycles (u64 (uptime_us e id)) (u64 (uptime_us e (S id))),
      if fe_voice_detected fe then
        set_work_result (u32 (out !!! 0%nat))
          (if ipc0 e then emit (IpcSend msg) m1 else m1)
      else set_work_result 0 m1).
Proof.
  intros id fe far s far_end_energy double_talk out msg m1.
  unfold workload_audio_pipeline_aec, get_timestamp_us. cbv beta iota zeta.
  cbn [clock_reads work_result far_end_buffer aec_filter set_far_end_buffer tick].
  fold id. fold fe. fold far. fold s.
  subst m1 msg out double_talk far_end_energy.
  destruct s as [[w ee] es].
  rewrite audio_stores_aec_eq.
  cbn [fst snd clock_reads work_result far_end_buffer aec_filter
       set_far_end_buffer set_aec_filter tick].
  destruct (fe_voice_detected fe); [|reflexivity].
  destruct (ipc0 e); reflexivity.
Qed.

(** ** Adaptive filter coefficients *)

Lemma clamp_coeff_ok v : coeff_ok (clamp_coeff v).
Proof. unfold coeff_ok, clamp_coeff. repeat case_match; lia. Qed.

(** One tap update is an in-place write of the clamped sum (and no write
    at all outside the array). *)
Lemma aec_update_tap_eq far n uf k w :
  aec_update_tap far n uf k w =
  <[k := clamp_coeff (wrap16 (add32 (w !!! k)
                        (mul32 uf (far !!! (n - k)%nat) ÷ 256)))]> w.
Proof.
  unfold aec_update_tap. cbv zeta.
  set (v := wrap16 _).
  destruct (decide (k < length w)%nat) as [Hk|Hk].
  - rewrite list_lookup_total_insert_eq by done.
    unfold clamp_coeff.
    destruct (Z.gtb_spec v 8192).
    + rewrite list_insert_insert_eq.
      rewrite list_lookup_total_insert_eq by done. done.
    + rewrite list_lookup_total_insert_eq by done.
      destruct (Z.ltb_spec v (-8192)); [|done].
      by rewrite list_insert_insert_eq.
  - rewrite !(list_insert_ge w) by lia.
    repeat case_match; rewrite ?(list_insert_ge w) by lia; reflexivity.
Qed.

Lemma aec_update_tap_bounded far n uf k w :
  Forall coeff_ok w -> Forall coeff_ok (aec_update_tap far n uf k w).
Proof.
  intros H. rewrite aec_update_tap_eq.
  apply Forall_insert; [done | apply clamp_coeff_ok].
Qed.

(** The tap just updated is in range whatever it held before. *)
Lemma aec_update_tap_clamped far n uf k w :
  (k < length w)%nat -> coeff_ok (aec_update_tap far n uf k w !!! k).
Proof.
  intros Hk. rewrite aec_update_tap_eq, list_lookup_total_insert_eq by done.
  apply clamp_coeff_ok.
Qed.

Lemma aec_update_tap_length far n uf k w :
  length (aec_update_tap far n uf k w) = length w.
Proof. rewrite aec_update_tap_eq. apply length_insert. Qed.

Lemma aec_adapt_bounded far n uf w :
  Forall coeff_ok w -> Forall coeff_ok (aec_adapt far n uf w).
Proof.
  intros H. unfold aec_adapt. apply for_ind; [done|].
  intros i s _ Hs. by apply aec_update_tap_bounded.
Qed.

Lemma aec_sample_bounded po far n s :
  Forall coeff_ok s.1.1 -> Forall coeff_ok (aec_sample po far n s).1.1.
Proof.
  destruct s as [[w ee] es]. simpl. intros H.
  destruct (_ =? _); simpl; [|done].
  by apply aec_adapt_bounded.
Qed.

Lemma aec_frame_bounded po far s :
  Forall coeff_ok s.1.1 -> Forall coeff_ok (aec_frame po far s).1.1.
Proof.
  intros H. unfold aec_frame. apply (for_ind (fun s => Forall coeff_ok s.1.1)); [done|].
  intros i s' _ Hs. by apply aec_sample_bounded.
Qed.

Lemma workload_audio_pipeline_aec_bounded e m c m' :
  workload_audio_pipeline_aec e m = Ok (c, m') ->
  Forall coeff_ok (aec_filter m) -> Forall coeff_ok (aec_filter m').
Proof.
  rewrite workload_audio_pipeline_aec_eq. cbv zeta. intros Heq H.
  apply Ok_pair_inj in Heq as [_ <-].
  destruct (fe_voice_detected _); [destruct (ipc0 e)|];
    cbn [aec_filter set_work_result emit tick set_aec_filter set_far_end_buffer];
    apply aec_frame_bounded; cbn [fst snd]; exact H.
Qed.

(** ** Dispatcher *)

Ltac unfold_workloads :=
  unfold WORKLOAD_IDLE, WORKLOAD_MATRIX_MULT, WORKLOAD_SORTING, WORKLOAD_FFT_SIM,
    WORKLOAD_CRYPTO_SIM, WORKLOAD_MIXED, WORKLOAD_AUDIO_PIPELINE,
    WORKLOAD_AUDIO_PIPELINE_AEC, WORKLOAD_PROXIMITY_VAD, WORKLOAD_CHEST_RESONANCE,
    WORKLOAD_CLOTHING_RUSTLE, WORKLOAD_SPATIAL_NOISE_CANCEL,
    WORKLOAD_WIND_NOISE_REDUCTION, WORKLOAD_NECKLACE_FULL in *.

(** The [case WORKLOAD_IDLE: default:] arm is taken by every value
    other than the thirteen named cases. *)
Lemma execute_workload_default e m :
  ~ 1 <= current_workload m <= 13 ->
  execute_workload e m = Ok (0, emit (Sleep 100) m).
Proof.
  intros H. unfold execute_workload. unfold_workloads. cbv zeta.
  repeat match goal with
    | |- context [?a =? ?b] => destruct (Z.eqb_spec a b); [lia|]
    end.
  reflexivity.
Qed.

Ltac kernel_branch H lem :=
  let c0 := fresh "c0" in
  let m0 := fresh "m0" in
  let E := fresh "E" in
  let F := fresh "F" in
  destruct lem as (c0 & m0 & E & F);
  rewrite E in H; injection H as <- <-;
  destruct F as (_ & _ & _ & ? & ? & _); split; assumption.

(** Outside the AEC workload, a dispatch leaves the filter state alone. *)
Lemma execute_workload_keeps_filter e m c m' :
  execute_workload e m = Ok (c, m') ->
  current_workload m <> WORKLOAD_AUDIO_PIPELINE_AEC ->
  aec_filter m' = aec_filter m /\ far_end_buffer m' = far_end_buffer m.
Proof.
  intros H Hne. unfold execute_workload in H. cbv zeta in H.
  destruct (_ =? WORKLOAD_MATRIX_MULT);
    [kernel_branch H (workload_matrix_mult_footprint e m)|].
  destruct (_ =? WORKLOAD_SORTING);
    [kernel_branch H (workload_sorting_footprint e m)|].
  destruct (_ =? WORKLOAD_FFT_SIM);
    [kernel_branch H (workload_fft_sim_footprint e m)|].
  destruct (_ =? WORKLOAD_CRYPTO_SIM);
    [kernel_branch H (workload_crypto_sim_footprint e m)|].
  destruct (_ =? WORKLOAD_MIXED);
    [kernel_branch H (workload_mixed_footprint e m)|].
  destruct (_ =? WORKLOAD_AUDIO_PIPELINE).
  { rewrite workload_audio_pipeline_eq in H. cbv zeta in H.
    apply Ok_pair_inj in H as [_ <-].
    destruct (fe_voice_detected _); [destruct (ipc0 e)|];
      cbn [aec_filter far_end_buffer set_work_result emit tick]; split; reflexivity. }
  destruct (Z.eqb_spec (current_workload m) WORKLOAD_AUDIO_PIPELINE_AEC);
    [exfalso; apply Hne; assumption|].
  destruct (_ =? WORKLOAD_PROXIMITY_VAD);
    [kernel_branch H (workload_proximity_vad_footprint e m)|].
  destruct (_ =? WORKLOAD_CHEST_RESONANCE);
    [kernel_branch H (workload_chest_resonance_footprint e m)|].
  destruct (_ =? WORKLOAD_CLOTHING_RUSTLE);
    [kernel_branch H (workload_clothing_rustle_footprint e m)|].
  destruct (_ =? WORKLOAD_SPATIAL_NOISE_CANCEL);
    [kernel_branch H (workload_spatial_noise_cancel_footprint e m)|].
  destruct (_ =? WORKLOAD_WIND_NOISE_REDUCTION);
    [kernel_branch H (workload_wind_noise_reduction_footprint e m)|].
  destruct (_ =? WORKLOAD_NECKLACE_FULL);
    [kernel_branch H (workload_necklace_full_footprint e m)|].
  apply Ok_pair_inj in H as [_ <-]. split; reflexivity.
Qed.

Ltac decide_cases :=
  repeat match goal with
  | |- context [?a =? ?b] =>
      let r := eval vm_compute in (a =? b) in change (a =? b) with r
  end;
  cbv iota.

Lemma execute_workload_aec e m :
  current_workload m = WORKLOAD_AUDIO_PIPELINE_AEC ->
  execute_workload e m = workload_audio_pipeline_aec e m.
Proof.
  intros H. unfold execute_workload. cbv zeta. rewrite H.
  unfold_workloads. decide_cases. reflexivity.
Qed.

Lemma execute_workload_audio e m :
  current_workload m = WORKLOAD_AUDIO_PIPELINE ->
  execute_workload e m = workload_audio_pipeline e m.
Proof.
  intros H. unfold execute_workload. cbv zeta. rewrite H.
  unfold_workloads. decide_cases. reflexivity.
Qed.

Lemma execute_workload_bounded e m c m' :
  execute_workload e m = Ok (c, m') ->
  Forall coeff_ok (aec_filter m) -> Forall coeff_ok (aec_filter m').
Proof.
  intros H Hb.
  destruct (decide (current_workload m = WORKLOAD_AUDIO_PIPELINE_AEC)) as [Heq|Hne].
  - rewrite (execute_workload_aec _ _ Heq) in H.
    eapply workload_audio_pipeline_aec_bounded; [exact H | exact Hb].
  - destruct (execute_workload_keeps_filter _ _ _ _ H Hne) as [-> _]. exact Hb.
Qed.

(** ** Telemetry *)

(** The last store of [write_stats] lies outside the message. *)
Lemma stats_thread_step_fault l m :
  stats_thread_step l m = OutOfBounds 24 4 24.
Proof. reflexivity. Qed.

(** ** Invariants of the transition system *)

Lemma filter_reachable_bounded w : filter_reachable w -> Forall coeff_ok w.
Proof.
  induction 1 as [|far n uf k w _ IH].
  - apply Forall_replicate. unfold coeff_ok. lia.
  - by apply aec_update_tap_bounded.
Qed.

Lemma aec_frame_filter_reachable po far s :
  filter_reachable s.1.1 -> filter_reachable (aec_frame po far s).1.1.
Proof.
  intros H. unfold aec_frame.
  apply (for_ind (fun s => filter_reachable s.1.1)); [done|].
  intros n [[w ee] es] _ Hw. cbn [fst] in Hw. unfold aec_sample.
  destruct (_ =? _); cbn [fst]; [|done].
  unfold aec_adapt. apply for_ind; [done|].
  intros k w' _ Hw'. by constructor.
Qed.

Lemma workload_audio_pipeline_aec_filter_reachable e m c m' :
  workload_audio_pipeline_aec e m = Ok (c, m') ->
  filter_reachable (aec_filter m) -> filter_reachable (aec_filter m').
Proof.
  rewrite workload_audio_pipeline_aec_eq. cbv zeta. intros Heq H.
  apply Ok_pair_inj in Heq as [_ <-].
  destruct (fe_voice_detected _); [destruct (ipc0 e)|];
    cbn [aec_filter set_work_result emit tick set_aec_filter set_far_end_buffer];
    apply aec_frame_filter_reachable; cbn [fst snd]; exact H.
Qed.

Lemma workload_thread_step_inv e m m' :
  workload_thread_step e m = Ok m' ->
  (current_workload m = WORKLOAD_IDLE /\ m' = emit (Sleep 100) m) \/
  (current_workload m <> WORKLOAD_IDLE /\
   exists c m1, execute_workload e m = Ok (c, m1) /\
     m' = set_work_iterations (u32 (work_iterations m1 + 1))
            (set_total_work_cycles (u64 (total_work_cycles m1 + c)) m1)).
Proof.
  unfold workload_thread_step.
  destruct (Z.eqb_spec (current_workload m) WORKLOAD_IDLE) as [Heq|Hne]; cbn [negb].
  - intros [= <-]. by left.
  - destruct (execute_workload e m) as [[c m1]|]; [|done].
    cbn [mbind result_bind]. intros [= <-]. right. split; [done|]. by exists c, m1.
Qed.

(** Every step other than an AEC frame leaves the filter state alone. *)
Lemma step_keeps_filter e l m m' :
  step e l m m' ->
  (l = Work -> current_workload m <> WORKLOAD_AUDIO_PIPELINE_AEC) ->
  aec_filter m' = aec_filter m /\ far_end_buffer m' = far_end_buffer m.
Proof.
  intros Hstep Hl. destruct Hstep as [data m m' H | m m' H | l l' m m' H].
  - apply ep_recv_cases in H as [-> | [w ->]]; by split.
  - specialize (Hl eq_refl).
    apply workload_thread_step_inv in H as [[_ ->] | (_ & c & m1 & Hex & ->)];
      [by split|].
    apply (execute_workload_keeps_filter _ _ _ _ Hex Hl).
  - by rewrite stats_thread_step_fault in H.
Qed.

Lemma step_filter_reachable e l m m' :
  step e l m m' -> filter_reachable (aec_filter m) -> filter_reachable (aec_filter m').
Proof.
  intros Hstep Hb. destruct Hstep as [data m m' H | m m' H | l l' m m' H].
  - apply ep_recv_cases in H as [-> | [w ->]]; exact Hb.
  - apply workload_thread_step_inv in H as [[_ ->] | (_ & c & m1 & Hex & ->)];
      [exact Hb|].
    cbn [aec_filter set_work_iterations set_total_work_cycles].
    destruct (decide (current_workload m = WORKLOAD_AUDIO_PIPELINE_AEC)) as [Heq|Hne].
    + rewrite (execute_workload_aec _ _ Heq) in Hex.
      eapply workload_audio_pipeline_aec_filter_reachable; [exact Hex | exact Hb].
    + destruct (execute_workload_keeps_filter _ _ _ _ Hex Hne) as [-> _]. exact Hb.
  - by rewrite stats_thread_step_fault in H.
Qed.

Lemma reachable_filter_reachable e m :
  reachable e m -> filter_reachable (aec_filter m).
Proof.
  unfold reachable. intros H.
  refine (rtc_ind_r (fun m => filter_reachable (aec_filter m)) boot _ _ m H).
  - constructor.
  - intros y z _ [l Hstep] IH.
    eapply step_filter_reachable; [exact Hstep | exact IH].
Qed.

(** ** Front end *)

Lemma audio_front_end_gain e id wr :
  fe_gain (audio_front_end e id wr) = agc_gain (fe_rms (audio_front_end e id wr)).
Proof.
  unfold audio_front_end. cbv zeta.
  match goal with |- context [noise_gate ?a ?b] => destruct (noise_gate a b) as [po se] end.
  match goal with |- context [vad_metrics ?a] => destruct (vad_metrics a) as [fe zc] end.
  reflexivity.
Qed.

Lemma audio_front_end_vad e id wr :
  fe_voice_detected (audio_front_end e id wr) =
  vad_decision (fe_frame_energy (audio_front_end e id wr))
               (fe_zero_crossings (audio_front_end e id wr)).
Proof.
  unfold audio_front_end. cbv zeta.
  match goal with |- context [noise_gate ?a ?b] => destruct (noise_gate a b) as [po se] end.
  match goal with |- context [vad_metrics ?a] => destruct (vad_metrics a) as [fe zc] end.
  reflexivity.
Qed.

Lemma vad_decision_spec energy zc :
  vad_decision energy zc = true <-> 1000 < energy /\ 10 < zc < 80.
Proof.
  unfold vad_decision. rewrite !andb_true_iff.
  rewrite !Z.gtb_lt, Z.ltb_lt. lia.
Qed.

Lemma agc_gain_range rms : 0 < rms -> 64 <= agc_gain rms <= 512.
Proof.
  intros H. unfold agc_gain. cbv zeta.
  destruct (Z.gtb_spec rms 0); [|lia].
  repeat match goal with
    | |- context [?a >? ?b] => destruct (Z.gtb_spec a b)
    | |- context [?a <? ?b] => destruct (Z.ltb_spec a b)
    end; lia.
Qed.

(** For a mean square of 1 to 14 the quotient does not fit [int16_t]: it
    wraps to a negative value and the lower limit applies. *)
Lemma agc_gain_low_rms : agc_gain 1 = 64 /\ agc_gain 14 = 64 /\ agc_gain 15 = 512.
Proof. repeat split. Qed.

(** ** Telemetry arithmetic *)

Lemma estimate_cpu_pct_saturates mips :
  1280 < mips <= 42949672 -> estimate_cpu_pct mips = 100.
Proof.
  intros H. unfold estimate_cpu_pct, u32, RISCV_FREQ_MHZ. cbv zeta.
  rewrite Z.mod_small by lia.
  rewrite Z.quot_div_nonneg by lia.
  assert (1000 <= mips * 100 / 128) by (apply Z.div_le_lower_bound; lia).
  destruct (Z.gtb_spec (mips * 100 / 128) 100); [done | lia].
Qed.

(** A kind outside the enumeration is counted as an iteration by
    [workload_thread], which Idle is not. *)
Lemma workload_thread_step_unknown e m :
  ~ 0 <= current_workload m <= 13 ->
  workload_thread_step e m =
  Ok (set_work_iterations (u32 (work_iterations m + 1))
        (set_total_work_cycles (u64 (total_work_cycles m + 0)) (emit (Sleep 100) m))).
Proof.
  intros H. unfold workload_thread_step.
  destruct (Z.eqb_spec (current_workload m) WORKLOAD_IDLE) as [Heq|Hne].
  - unfold WORKLOAD_IDLE in Heq. lia.
  - cbn [negb]. rewrite execute_workload_default by lia. reflexivity.
Qed.

Lemma workload_thread_step_idle e m :
  current_workload m = WORKLOAD_IDLE ->
  workload_thread_step e m = Ok (emit (Sleep 100) m).
Proof. intros H. unfold workload_thread_step. rewrite H. reflexivity. Qed.

(** ** Reporting core *)

(** A Stats envelope of the size the compute core sends is read past its
    end; a longer buffer is accepted. *)
Lemma cpuapp_stats_read a :
  CpuApp.ep_recv (x01 :: replicate 23 x00) a = OutOfBounds 24 4 24 /\
  CpuApp.ep_recv (x01 :: replicate 27 x05) a =
    Ok (CpuApp.App 84215045 84215045 84215045
          (CpuApp.audio_frames_received a) (CpuApp.audio_voice_detected a)).
Proof. split; reflexivity. Qed.

(** On a buffer of 28 bytes or more every field the callback reads is
    inside the buffer, and the first byte alone selects what it does. *)
Lemma cpuapp_ep_recv_long data a :
  (28 <= length data)%nat ->
  exists ty mips workload cpu_pct energy,
    load data off_type 1 = Ok ty /\
    load data (off_stats "mips") 4 = Ok mips /\
    load data (off_stats "workload_type") 4 = Ok workload /\
    load data (off_stats "cpu_pct") 4 = Ok cpu_pct /\
    load data (off_data 2) 4 = Ok energy /\
    CpuApp.ep_recv data a =
      Ok (if ty =? IPC_MSG_STATS then
            CpuApp.App mips workload cpu_pct
              (CpuApp.audio_frames_received a) (CpuApp.audio_voice_detected a)
          else if ty =? IPC_MSG_AUDIO_DATA then
            CpuApp.App (CpuApp.riscv_mips a) (CpuApp.riscv_workload a)
              (CpuApp.riscv_cpu_pct a)
              (u32 (CpuApp.audio_frames_received a + 1))
              (if energy >? 1000 then u32 (CpuApp.audio_voice_detected a + 1)
               else CpuApp.audio_voice_detected a)
          else a).
Proof.
  intros H. unfold CpuApp.ep_recv.
  change off_type with 0%nat. change (off_stats "mips") with 16%nat.
  change (off_stats "workload_type") with 20%nat.
  change (off_stats "cpu_pct") with 24%nat.
  change (off_data 0) with 4%nat. change (off_data 1) with 8%nat.
  change (off_data 2) with 12%nat. change (off_data 3) with 16%nat.
  rewrite !load_ok by lia. cbn [mbind result_bind].
  eexists _, _, _, _, _. repeat (split; [reflexivity|]).
  destruct (_ =? IPC_MSG_STATS); [reflexivity|].
  destruct (_ =? IPC_MSG_AUDIO_DATA); reflexivity.
Qed.

(** An AudioData buffer of 20 bytes is counted. *)
Lemma cpuapp_audio_read a :
  CpuApp.ep_recv (x04 :: replicate 19 x00) a =
    Ok (CpuApp.App (CpuApp.riscv_mips a) (CpuApp.riscv_workload a) (CpuApp.riscv_cpu_pct a)
          (u32 (CpuApp.audio_frames_received a + 1)) (CpuApp.audio_voice_detected a)).
Proof. reflexivity. Qed.

(** ** Concrete runs *)

Lemma run_matrix_ok : run_matrix = Ok (state_of run_matrix).
Proof. vm_compute. reflexivity. Qed.

Lemma run_aec_ok : run_aec = Ok (state_of run_aec).
Proof. vm_compute. reflexivity. Qed.

(** After a chest-resonance frame has left 17749 in [work_result], a frame
    of the audio pipeline on a stack with stale [filtered_data] cells
    detects voice and sends one AudioData envelope with a zero fifth
    word; the AEC variant sends one with the double-talk flag set. *)
Lemma audio_pipeline_sends :
  match workload_audio_pipeline env_stale (state_of (run_chest_then x06)) with
  | Ok (_, m') =>
      exists msg, events m' = [IpcSend msg] /\
        load msg off_type 1 = Ok IPC_MSG_AUDIO_DATA /\
        load msg (off_data 2) 4 = Ok 27284 /\
        load msg (off_data 3) 4 = Ok 11 /\
        load msg (off_data 4) 4 = Ok 0
  | OutOfBounds _ _ _ => False
  end.
Proof. vm_compute. eexists. repeat split. Qed.

Lemma audio_pipeline_aec_sends :
  match workload_audio_pipeline_aec env_stale (state_of (run_chest_then x07)) with
  | Ok (_, m') =>
      exists msg, events m' = [IpcSend msg] /\
        load msg off_type 1 = Ok IPC_MSG_AUDIO_DATA /\
        load msg (off_data 4) 4 = Ok 1
  | OutOfBounds _ _ _ => False
  end.
Proof. vm_compute. eexists. repeat split. Qed.

(** * Properties of the specification *)

(** C1 (the code departs from the claim).  The claim is that the
    [stats_data] overlay fits the 20-byte payload, so that writing it
    through [msg.data] stays inside the 24-byte message.  In the code
    [struct stats_data] is 24 bytes: [cpu_pct] lies at payload offset 20,
    that is at bytes 24..27 of the message.  Every turn of [stats_thread]
    therefore faults on the store to [stats->cpu_pct], and the reporting
    core reads [cpu_pct] past the end of a 24-byte Stats envelope. *)
Theorem C1_stats_overlay_overruns_message :
  Layout.sizeof Layout.ipc_message = 24%nat /\
  (Layout.sizeof Layout.ipc_message - Layout.offsetof Layout.ipc_message "data" = 20)%nat /\
  Layout.sizeof Layout.stats_data = 24%nat /\
  (off_stats "cpu_pct" + 4 = 28)%nat /\
  (forall l m, stats_thread_step l m = OutOfBounds 24 4 24) /\
  (forall a, CpuApp.ep_recv (x01 :: replicate 23 x00) a = OutOfBounds 24 4 24).
Proof.
  split; [reflexivity|]. split; [reflexivity|]. split; [reflexivity|].
  split; [reflexivity|]. split.
  - intros l m. apply stats_thread_step_fault.
  - intros a. apply cpuapp_stats_read.
Qed.

(** C2, as stated, fails: a 2-byte buffer is neither rejected nor without
    effect.  After two matrix-multiply turns it switches the workload and
    zeroes the accumulators; and on the reporting core a 28-byte buffer
    replaces the last-known remote stats. *)
Lemma C2_other_lengths_change_state :
  length [x02; x05] <> 24%nat /\
  (exists m m',
     run_matrix = Ok m /\ ep_recv [x02; x05] m = Ok m' /\
     (current_workload m, total_work_cycles m, work_iterations m) = (1, 256000, 2) /\
     (current_workload m', total_work_cycles m', work_iterations m') = (5, 0, 0)) /\
  length (x01 :: replicate 27 x05) <> 24%nat /\
  CpuApp.ep_recv (x01 :: replicate 27 x05) (CpuApp.App 0 0 0 0 0) =
    Ok (CpuApp.App 84215045 84215045 84215045 0 0).
Proof.
  split; [simpl; lia|]. split; [|split; [simpl; lia | reflexivity]].
  exists (state_of run_matrix), (switched 5 (state_of run_matrix)).
  split; [apply run_matrix_ok|]. split; [apply ep_recv_eq|].
  split; vm_compute; reflexivity.
Qed.

(** C2, amended.  Neither receive callback looks at the length, and there
    is no decode step that could fail.  On the compute core a buffer of
    two or more bytes, of whatever length, is dispatched on its first
    byte: when that is 2 the current workload becomes the second byte and
    both accumulators are zeroed, otherwise the state stays as it is.  On
    the reporting core a buffer of 28 or more bytes is dispatched on its
    first byte in the same way: 1 replaces the last-known remote stats by
    the words at offsets 16, 20 and 24, 4 counts an audio frame, any other
    value changes nothing. *)
Theorem C2_recv_ignores_length :
  (forall (t w : byte) (rest : list byte) (m : flpr),
     ep_recv (t :: w :: rest) m =
     Ok (if Z_of_byte t =? IPC_MSG_SET_WORKLOAD
         then set_work_iterations 0
                (set_total_work_cycles 0 (set_current_workload (Z_of_byte w) m))
         else m)) /\
  (forall (data : list byte) (a : CpuApp.app),
     (28 <= length data)%nat ->
     exists ty mips workload cpu_pct energy,
       load data off_type 1 = Ok ty /\
       load data (off_stats "mips") 4 = Ok mips /\
       load data (off_stats "workload_type") 4 = Ok workload /\
       load data (off_stats "cpu_pct") 4 = Ok cpu_pct /\
       load data (off_data 2) 4 = Ok energy /\
       CpuApp.ep_recv data a =
         Ok (if ty =? IPC_MSG_STATS then
               CpuApp.App mips workload cpu_pct
                 (CpuApp.audio_frames_received a) (CpuApp.audio_voice_detected a)
             else if ty =? IPC_MSG_AUDIO_DATA then
               CpuApp.App (CpuApp.riscv_mips a) (CpuApp.riscv_workload a)
                 (CpuApp.riscv_cpu_pct a)
                 (u32 (CpuApp.audio_frames_received a + 1))
                 (if energy >? 1000 then u32 (CpuApp.audio_voice_detected a + 1)
                  else CpuApp.audio_voice_detected a)
             else a)).
Proof. split; [apply ep_recv_eq | apply cpuapp_ep_recv_long]. Qed.

Lemma C2_recv_ignores_length_witness :
  (28 <= length (x01 :: replicate 27 x05))%nat /\
  ep_recv (x02 :: x05 :: replicate 26 x00) boot = Ok (switched 5 boot) /\
  exists ty mips workload cpu_pct energy,
    load (x01 :: replicate 27 x05) off_type 1 = Ok ty /\
    load (x01 :: replicate 27 x05) (off_stats "mips") 4 = Ok mips /\
    load (x01 :: replicate 27 x05) (off_stats "workload_type") 4 = Ok workload /\
    load (x01 :: replicate 27 x05) (off_stats "cpu_pct") 4 = Ok cpu_pct /\
    load (x01 :: replicate 27 x05) (off_data 2) 4 = Ok energy /\
    CpuApp.ep_recv (x01 :: replicate 27 x05) (CpuApp.App 0 0 0 0 0) =
      Ok (if ty =? IPC_MSG_STATS then CpuApp.App mips workload cpu_pct 0 0
          else if ty =? IPC_MSG_AUDIO_DATA then
            CpuApp.App 0 0 0 (u32 (0 + 1)) (if energy >? 1000 then u32 (0 + 1) else 0)
          else CpuApp.App 0 0 0 0 0).
Proof.
  assert (H : (28 <= length (x01 :: replicate 27 x05))%nat) by (simpl; lia).
  split; [exact H|]. split.
  - apply (proj1 C2_recv_ignores_length x02 x05 (replicate 26 x00) boot).
  - apply (proj2 C2_recv_ignores_length (x01 :: replicate 27 x05) (CpuApp.App 0 0 0 0 0) H).
Defined.

(** C3, as stated, fails: after two matrix-multiply turns the accumulators
    hold 256000 cycles and 2 iterations; a SetWorkload envelope that names
    the workload already running zeroes them. *)
Lemma C3_same_kind_resets_accumulators :
  exists m m',
    run_matrix = Ok m /\
    ep_recv (set_workload_envelope x01) m = Ok m' /\
    current_workload m = WORKLOAD_MATRIX_MULT /\
    current_workload m' = current_workload m /\
    (total_work_cycles m, work_iterations m) = (256000, 2) /\
    (total_work_cycles m', work_iterations m') = (0, 0).
Proof.
  exists (state_of run_matrix), (switched 1 (state_of run_matrix)).
  split; [apply run_matrix_ok|]. split; [apply ep_recv_eq|].
  repeat split; vm_compute; reflexivity.
Qed.

(** C3, amended.  Every SetWorkload envelope zeroes both accumulators and
    stores its workload byte, whether or not that byte equals the current
    workload; nothing else changes. *)
Theorem C3_set_workload_always_resets (w : byte) (rest : list byte) (m : flpr) :
  exists m',
    ep_recv (x02 :: w :: rest) m = Ok m' /\
    current_workload m' = Z_of_byte w /\
    total_work_cycles m' = 0 /\
    work_iterations m' = 0 /\
    work_result m' = work_result m /\
    aec_filter m' = aec_filter m /\
    far_end_buffer m' = far_end_buffer m /\
    noise_filter m' = noise_filter m /\
    events m' = events m.
Proof.
  exists (switched (Z_of_byte w) m). split; [apply ep_recv_eq|].
  repeat split.
Qed.

(** C4, as stated, fails: after one AEC frame the first coefficient is
    -3286; a SetWorkload(Idle) envelope, a transition away from the active
    AEC workload, leaves the whole coefficient array as it was. *)
Lemma C4_filter_survives_switch :
  exists m m',
    run_aec = Ok m /\
    ep_recv (set_workload_envelope x00) m = Ok m' /\
    current_workload m = WORKLOAD_AUDIO_PIPELINE_AEC /\
    current_workload m' = WORKLOAD_IDLE /\
    aec_filter m' = aec_filter m /\
    aec_filter m' !! 0%nat = Some (-3286) /\
    aec_filter m' <> replicate AEC_FILTER_TAPS 0.
Proof.
  exists (state_of run_aec), (switched 0 (state_of run_aec)).
  split; [apply run_aec_ok|]. split; [apply ep_recv_eq|].
  split; [vm_compute; reflexivity|]. split; [vm_compute; reflexivity|].
  split; [exact (switched_aec_filter 0 (state_of run_aec))|].
  assert (H : aec_filter (switched 0 (state_of run_aec)) !! 0%nat = Some (-3286))
    by (vm_compute; reflexivity).
  split; [exact H|]. intros Heq. rewrite Heq in H. discriminate H.
Qed.

(** A turn of the workload thread with the AEC workload selected: the
    reference history is refilled in place and the coefficients are
    adapted from the stored ones. *)
Lemma workload_thread_step_aec e m :
  current_workload m = WORKLOAD_AUDIO_PIPELINE_AEC ->
  exists m',
    workload_thread_step e m = Ok m' /\
    current_workload m' = WORKLOAD_AUDIO_PIPELINE_AEC /\
    far_end_buffer m' = far_end_fill (work_result m) (far_end_buffer m) /\
    aec_filter m' =
      (aec_frame
         (fe_processed_output (audio_front_end e (clock_reads m) (work_result m)))
         (far_end_fill (work_result m) (far_end_buffer m))
         (aec_filter m,
          uninit wrap16 e (clock_reads m) "echo_estimate" FRAME_SIZE,
          uninit wrap16 e (clock_reads m) "error_signal" FRAME_SIZE)).1.1.
Proof.
  intros H. unfold workload_thread_step.
  rewrite (execute_workload_aec e m H), H.
  change (negb (WORKLOAD_AUDIO_PIPELINE_AEC =? WORKLOAD_IDLE)) with true. cbv iota.
  rewrite workload_audio_pipeline_aec_eq. cbv zeta.
  destruct (fe_voice_detected _); [destruct (ipc0 e)|];
    cbn [mbind result_bind]; cbv zeta;
    (eexists; split; [reflexivity|]);
    cbn [current_workload far_end_buffer aec_filter set_work_iterations
         set_total_work_cycles set_work_result emit tick set_aec_filter
         set_far_end_buffer];
    (split; [exact H|]); split; reflexivity.
Qed.

Lemma run_aec_again_ok :
  workload_thread_step env_quiet (state_of run_aec) = Ok (state_of run_aec_again).
Proof. vm_compute. reflexivity. Qed.

Lemma run_aec_fresh_ok :
  workload_thread_step env_quiet
    (set_aec_filter (replicate AEC_FILTER_TAPS 0) (state_of run_aec))
  = Ok (state_of run_aec_fresh).
Proof. vm_compute. reflexivity. Qed.

Lemma run_aec_reachable : reachable env_quiet (state_of run_aec).
Proof.
  unfold reachable.
  apply (rtc_l _ _ (switched 7 boot)).
  { exists (Recv (set_workload_envelope x07)). constructor. vm_compute. reflexivity. }
  apply (rtc_l _ _ (state_of run_aec)); [|apply rtc_refl].
  exists Work. constructor. vm_compute. reflexivity.
Qed.

(** C4, amended.  The coefficients and the reference history are zero at
    reset and are never reset afterwards, neither on a workload switch nor
    per frame.  Every receive callback, whatever the buffer (a switch away
    from the active AEC workload included), and every turn of the workload
    thread with another workload selected leave both arrays as they were.
    A turn with the AEC workload selected always returns, keeps the
    selection, rewrites the reference history in place and adapts the
    coefficients starting from the stored ones, so the state carries over
    from frame to frame.  The carry-over is real: in a state reached from
    reset with a non-zero filter, the next frame ends with coefficient 0 at
    -7418, where the same frame started from zeroed coefficients ends with
    -3286. *)
Theorem C4_filter_state_persists :
  (aec_filter boot = replicate AEC_FILTER_TAPS 0 /\
   far_end_buffer boot = replicate AEC_FILTER_TAPS 0) /\
  (forall data m m',
     ep_recv data m = Ok m' ->
     aec_filter m' = aec_filter m /\ far_end_buffer m' = far_end_buffer m) /\
  (forall e m m',
     workload_thread_step e m = Ok m' ->
     current_workload m <> WORKLOAD_AUDIO_PIPELINE_AEC ->
     aec_filter m' = aec_filter m /\ far_end_buffer m' = far_end_buffer m) /\
  (forall e m,
     current_workload m = WORKLOAD_AUDIO_PIPELINE_AEC ->
     exists m',
       workload_thread_step e m = Ok m' /\
       current_workload m' = WORKLOAD_AUDIO_PIPELINE_AEC /\
       far_end_buffer m' = far_end_fill (work_result m) (far_end_buffer m) /\
       aec_filter m' =
         (aec_frame
            (fe_processed_output (audio_front_end e (clock_reads m) (work_result m)))
            (far_end_fill (work_result m) (far_end_buffer m))
            (aec_filter m,
             uninit wrap16 e (clock_reads m) "echo_estimate" FRAME_SIZE,
             uninit wrap16 e (clock_reads m) "error_signal" FRAME_SIZE)).1.1) /\
  (exists m m1 m2,
     reachable env_quiet m /\
     current_workload m = WORKLOAD_AUDIO_PIPELINE_AEC /\
     aec_filter m <> replicate AEC_FILTER_TAPS 0 /\
     workload_thread_step env_quiet m = Ok m1 /\
     workload_thread_step env_quiet (set_aec_filter (replicate AEC_FILTER_TAPS 0) m)
       = Ok m2 /\
     aec_filter m1 !! 0%nat = Some (-7418) /\
     aec_filter m2 !! 0%nat = Some (-3286) /\
     aec_filter m1 <> aec_filter m2).
Proof.
  split; [split; reflexivity|].
  split.
  { intros data m m' H.
    apply (step_keeps_filter env_quiet (Recv data) m m');
      [constructor; exact H | intros Hl; discriminate Hl]. }
  split.
  { intros e m m' H Hne.
    apply (step_keeps_filter e Work m m'); [constructor; exact H | intros _; exact Hne]. }
  split; [exact workload_thread_step_aec|].
  exists (state_of run_aec), (state_of run_aec_again), (state_of run_aec_fresh).
  split; [exact run_aec_reachable|].
  split; [vm_compute; reflexivity|].
  assert (H0 : aec_filter (state_of run_aec) !! 0%nat = Some (-3286))
    by (vm_compute; reflexivity).
  split; [intros Heq; rewrite Heq in H0; discriminate H0|].
  split; [exact run_aec_again_ok|]. split; [exact run_aec_fresh_ok|].
  assert (H1 : aec_filter (state_of run_aec_again) !! 0%nat = Some (-7418))
    by (vm_compute; reflexivity).
  assert (H2 : aec_filter (state_of run_aec_fresh) !! 0%nat = Some (-3286))
    by (vm_compute; reflexivity).
  split; [exact H1|]. split; [exact H2|].
  intros Heq. rewrite Heq, H2 in H1. discriminate H1.
Qed.

Lemma C4_filter_state_persists_witness :
  (ep_recv (set_workload_envelope x00) (state_of run_aec)
     = Ok (switched 0 (state_of run_aec)) /\
   aec_filter (switched 0 (state_of run_aec)) = aec_filter (state_of run_aec) /\
   far_end_buffer (switched 0 (state_of run_aec)) = far_end_buffer (state_of run_aec)) /\
  (workload_thread_step env_quiet (state_of run_matrix)
     = Ok (state_of (workload_thread_step env_quiet (state_of run_matrix))) /\
   current_workload (state_of run_matrix) <> WORKLOAD_AUDIO_PIPELINE_AEC /\
   aec_filter (state_of (workload_thread_step env_quiet (state_of run_matrix)))
     = aec_filter (state_of run_matrix) /\
   far_end_buffer (state_of (workload_thread_step env_quiet (state_of run_matrix)))
     = far_end_buffer (state_of run_matrix)) /\
  (current_workload (state_of run_aec) = WORKLOAD_AUDIO_PIPELINE_AEC /\
   exists m',
     workload_thread_step env_quiet (state_of run_aec) = Ok m' /\
     current_workload m' = WORKLOAD_AUDIO_PIPELINE_AEC /\
     far_end_buffer m' =
       far_end_fill (work_result (state_of run_aec)) (far_end_buffer (state_of run_aec)) /\
     aec_filter m' =
       (aec_frame
          (fe_processed_output
             (audio_front_end env_quiet (clock_reads (state_of run_aec))
                (work_result (state_of run_aec))))
          (far_end_fill (work_result (state_of run_aec)) (far_end_buffer (state_of run_aec)))
          (aec_filter (state_of run_aec),
           uninit wrap16 env_quiet (clock_reads (state_of run_aec)) "echo_estimate" FRAME_SIZE,
           uninit wrap16 env_quiet (clock_reads (state_of run_aec)) "error_signal" FRAME_SIZE)
       ).1.1).
Proof.
  assert (Hr : ep_recv (set_workload_envelope x00) (state_of run_aec)
               = Ok (switched 0 (state_of run_aec))) by apply ep_recv_eq.
  assert (Hw : workload_thread_step env_quiet (state_of run_matrix)
               = Ok (state_of (workload_thread_step env_quiet (state_of run_matrix))))
    by (vm_compute; reflexivity).
  assert (Hn : current_workload (state_of run_matrix) <> WORKLOAD_AUDIO_PIPELINE_AEC)
    by (vm_compute; discriminate).
  assert (Ha : current_workload (state_of run_aec) = WORKLOAD_AUDIO_PIPELINE_AEC)
    by (vm_compute; reflexivity).
  split; [split; [exact Hr|]|].
  { exact (proj1 (proj2 C4_filter_state_persists)
             (set_workload_envelope x00) (state_of run_aec)
             (switched 0 (state_of run_aec)) Hr). }
  split; [split; [exact Hw|]; split; [exact Hn|]|].
  { exact (proj1 (proj2 (proj2 C4_filter_state_persists))
             env_quiet (state_of run_matrix)
             (state_of (workload_thread_step env_quiet (state_of run_matrix))) Hw Hn). }
  split; [exact Ha|].
  exact (proj1 (proj2 (proj2 (proj2 C4_filter_state_persists)))
           env_quiet (state_of run_aec) Ha).
Defined.

(** C5.  In every state that the compute core reaches from reset, by any
    interleaving of received buffers, workload turns and telemetry turns
    (hence after any sequence of AEC frames), every coefficient of the
    adaptive filter lies in [-8192, 8192].  The bound holds after each
    single coefficient update as well: see [filter_reachable_bounded]. *)
Theorem C5_aec_coefficients_bounded (e : env) (m : flpr) :
  reachable e m -> Forall (fun c => -8192 <= c <= 8192) (aec_filter m).
Proof.
  intros H. apply reachable_filter_reachable in H.
  apply filter_reachable_bounded in H. exact H.
Qed.

Lemma C5_aec_coefficients_witness :
  reachable env_quiet (state_of run_aec) /\
  Forall (fun c => -8192 <= c <= 8192) (aec_filter (state_of run_aec)).
Proof.
  assert (H : reachable env_quiet (state_of run_aec)).
  { unfold reachable.
    apply (rtc_l _ _ (switched 7 boot)).
    { exists (Recv (set_workload_envelope x07)). constructor. vm_compute. reflexivity. }
    apply (rtc_l _ _ (state_of run_aec)); [|apply rtc_refl].
    exists Work. constructor. vm_compute. reflexivity. }
  split; [exact H|].
  apply (C5_aec_coefficients_bounded env_quiet _ H).
Defined.

(** C6.  The VAD decision is a function of the frame energy and the
    zero-crossing count alone: it holds exactly when the energy exceeds
    1000 and the count lies strictly between 10 and 80; it holds at
    (1200, 20) and not at (1200, 5); and it is the decision both audio
    pipelines take on the metrics of their frame. *)
Theorem C6_vad_decision :
  (forall energy zc, vad_decision energy zc = true <-> 1000 < energy /\ 10 < zc < 80) /\
  vad_decision 1200 20 = true /\
  vad_decision 1200 5 = false /\
  (forall e id wr,
     fe_voice_detected (audio_front_end e id wr) =
     vad_decision (fe_frame_energy (audio_front_end e id wr))
                  (fe_zero_crossings (audio_front_end e id wr))).
Proof.
  split; [apply vad_decision_spec|].
  split; [reflexivity|]. split; [reflexivity|].
  apply audio_front_end_vad.
Qed.

(** C7.  For every frame of the audio front end whose mean square after
    the noise gate is strictly positive, the AGC gain, computed as
    (2000 * 256) / (rms + 1) and then limited, lies in [64, 512]. *)
Theorem C7_agc_gain_range (e : env) (id : nat) (wr : Z) :
  0 < fe_rms (audio_front_end e id wr) ->
  fe_gain (audio_front_end e id wr) = agc_gain (fe_rms (audio_front_end e id wr)) /\
  64 <= fe_gain (audio_front_end e id wr) <= 512.
Proof.
  intros H. split; [apply audio_front_end_gain|].
  rewrite audio_front_end_gain. by apply agc_gain_range.
Qed.

Lemma C7_agc_gain_witness :
  0 < fe_rms (audio_front_end env_quiet 0 0) /\
  64 <= fe_gain (audio_front_end env_quiet 0 0) <= 512.
Proof.
  assert (H : 0 < fe_rms (audio_front_end env_quiet 0 0)) by (vm_compute; reflexivity).
  split; [exact H|].
  apply (C7_agc_gain_range env_quiet 0%nat 0 H).
Defined.

(** C8 (the code departs from the claim).  The two worked values hold:
    15,000,000 cycles give 10 MIPS, and 10 MIPS give 7 percent.  The
    third part does not: [mips * 100] is a 32-bit product, so a MIPS
    figure above 42,949,672 wraps before the division.  For a cycle delta
    of 64,424,509,500,000 the code computes 42,949,673 MIPS and 0 percent;
    and after the accumulators were reset while the snapshot kept
    7,428,383,705,161 cycles, the delta wraps to a figure of
    1,417,339,335 MIPS and 99 percent. *)
Theorem C8_cpu_percent_wraps :
  estimate_mips 15000000 = 10 /\
  estimate_cpu_pct 10 = 7 /\
  estimate_mips 64424509500000 = 42949673 /\
  1280 < 42949673 /\
  estimate_cpu_pct 42949673 = 0 /\
  estimate_mips (u64 (0 - 7428383705161)) = 1417339335 /\
  estimate_cpu_pct 1417339335 = 99.
Proof. repeat split. Qed.

(** C9.  A SetWorkload envelope is accepted with any workload byte.  For a
    byte above 13 the dispatcher falls to the arm shared by
    [WORKLOAD_IDLE] and [default]: it sleeps 100 ms and returns 0 cycles,
    which is what it does when the current workload is Idle. *)
Theorem C9_unknown_workload_runs_as_idle
    (e : env) (w : byte) (rest : list byte) (m : flpr) :
  13 < Z_of_byte w ->
  exists m1,
    ep_recv (x02 :: w :: rest) m = Ok m1 /\
    current_workload m1 = Z_of_byte w /\
    execute_workload e m1 = Ok (0, emit (Sleep 100) m1) /\
    execute_workload e (set_current_workload WORKLOAD_IDLE m1) =
      Ok (0, emit (Sleep 100) (set_current_workload WORKLOAD_IDLE m1)).
Proof.
  intros H. exists (switched (Z_of_byte w) m).
  split; [apply ep_recv_eq|]. split; [reflexivity|].
  split; apply execute_workload_default; cbn [current_workload switched
    set_work_iterations set_total_work_cycles set_current_workload];
    unfold WORKLOAD_IDLE; lia.
Qed.

Lemma C9_unknown_workload_witness :
  13 < Z_of_byte x0e /\
  exists m1,
    ep_recv (x02 :: x0e :: replicate 22 x00) boot = Ok m1 /\
    current_workload m1 = Z_of_byte x0e /\
    execute_workload env_quiet m1 = Ok (0, emit (Sleep 100) m1) /\
    execute_workload env_quiet (set_current_workload WORKLOAD_IDLE m1) =
      Ok (0, emit (Sleep 100) (set_current_workload WORKLOAD_IDLE m1)).
Proof.
  assert (H : 13 < Z_of_byte x0e) by (vm_compute; reflexivity).
  split; [exact H|].
  apply (C9_unknown_workload_runs_as_idle env_quiet x0e (replicate 22 x00) boot H).
Defined.

(** C10.  [workload_audio_pipeline] always returns; what it adds to the
    effects of the core is at most one message, an AudioData envelope of
    24 bytes whose fifth payload word is zero.  The AEC variant sends the
    same kind of envelope with the fifth word 0 or 1 (the double-talk
    flag; [audio_pipeline_aec_sends] is a frame in which it is 1). *)
Theorem C10_audio_pipeline_leaves_word4_zero (e : env) (m : flpr) :
  (exists c m' sent,
     workload_audio_pipeline e m = Ok (c, m') /\
     events m' = events m ++ sent /\
     audio_sends (fun w4 => w4 = 0) sent) /\
  (exists c m' sent,
     workload_audio_pipeline_aec e m = Ok (c, m') /\
     events m' = events m ++ sent /\
     audio_sends (fun w4 => w4 = 0 \/ w4 = 1) sent).
Proof.
  split.
  - rewrite workload_audio_pipeline_eq. cbv zeta.
    destruct (fe_voice_detected _); [destruct (ipc0 e)|].
    + eexists _, _, [IpcSend _]. split; [reflexivity|]. split; [reflexivity|].
      constructor; [|constructor].
      split; [by apply audio_data_bytes_length|].
      split; [apply audio_data_bytes_type|].
      exists 0. split; [apply audio_data_bytes_word4_zero | reflexivity].
    + eexists _, _, []. split; [reflexivity|].
      split; [cbn [events set_work_result tick]; by rewrite app_nil_r | constructor].
    + eexists _, _, []. split; [reflexivity|].
      split; [cbn [events set_work_result tick]; by rewrite app_nil_r | constructor].
  - rewrite workload_audio_pipeline_aec_eq. cbv zeta.
    destruct (fe_voice_detected _); [destruct (ipc0 e)|].
    + eexists _, _, [IpcSend _]. split; [reflexivity|]. split; [reflexivity|].
      constructor; [|constructor].
      split; [apply audio_data_bytes_length, le_bytes_length|].
      split; [apply audio_data_bytes_type|].
      eexists. split; [apply audio_data_bytes_word4|].
      destruct (_ && _); [right | left]; reflexivity.
    + eexists _, _, []. split; [reflexivity|].
      split; [cbn [events set_work_result tick set_aec_filter set_far_end_buffer];
              by rewrite app_nil_r | constructor].
    + eexists _, _, []. split; [reflexivity|].
      split; [cbn [events set_work_result tick set_aec_filter set_far_end_buffer];
              by rewrite app_nil_r | constructor].
Qed.

(** * Further properties of the code *)

(** ** The workloads in closed form *)

Lemma workload_matrix_mult_eq e m :
  workload_matrix_mult e m = timed e m (matrix_mult_frame e (clock_reads m)).
Proof. reflexivity. Qed.

Lemma workload_sorting_eq e m :
  workload_sorting e m = timed e m (sorting_frame e (clock_reads m)).
Proof. reflexivity. Qed.

Lemma workload_fft_sim_eq e m :
  workload_fft_sim e m = timed e m (fft_sim_frame e (clock_reads m)).
Proof. reflexivity. Qed.

Lemma workload_crypto_sim_eq e m :
  workload_crypto_sim e m = timed e m (crypto_sim_frame e (clock_reads m)).
Proof. reflexivity. Qed.

Lemma workload_proximity_vad_eq e m :
  workload_proximity_vad e m =
  timed e m (proximity_vad_frame e (clock_reads m) (work_result m)).
Proof. reflexivity. Qed.

Lemma workload_chest_resonance_eq e m :
  workload_chest_resonance e m =
  timed e m (chest_resonance_frame e (clock_reads m) (work_result m)).
Proof. reflexivity. Qed.

Lemma workload_clothing_rustle_eq e m :
  workload_clothing_rustle e m =
  timed e m (clothing_rustle_frame e (clock_reads m) (work_result m)).
Proof. reflexivity. Qed.

Lemma workload_wind_noise_reduction_eq e m :
  workload_wind_noise_reduction e m =
  timed e m (wind_noise_reduction_frame e (clock_reads m) (work_result m)).
Proof. reflexivity. Qed.

Lemma workload_necklace_full_eq e m :
  workload_necklace_full e m =
  timed e m (necklace_full_frame e (clock_reads m) (work_result m)).
Proof. reflexivity. Qed.

Lemma workload_spatial_noise_cancel_eq e m :
  let f := spatial_noise_cancel_frame e (clock_reads m) (work_result m) (noise_filter m) in
  workload_spatial_noise_cancel e m =
  Ok (elapsed_cycles (u64 (uptime_us e (clock_reads m)))
                     (u64 (uptime_us e (S (clock_reads m)))),
      set_work_result f.1 (tick (set_noise_filter f.2 (tick m)))).
Proof.
  intros f. unfold workload_spatial_noise_cancel, get_timestamp_us.
  cbv beta iota zeta. cbn [clock_reads work_result noise_filter tick].
  fold f. destruct f as [r nf]. reflexivity.
Qed.

Lemma timed_bind {B} e m r (k : Z * flpr -> result B) :
  (timed e m r ≫= k) =
  k (elapsed_cycles (u64 (uptime_us e (clock_reads m)))
                    (u64 (uptime_us e (S (clock_reads m)))),
     set_work_result r (tick (tick m))).
Proof. reflexivity. Qed.

Lemma clock_reads_timed r m :
  clock_reads (set_work_result r (tick (tick m))) = S (S (clock_reads m)).
Proof. reflexivity. Qed.

Lemma u64_range z : 0 <= u64 z < 2^64.
Proof. unfold u64. apply Z.mod_pos_bound. lia. Qed.

Lemma u32_range z : 0 <= u32 z < 2^32.
Proof. unfold u32. apply Z.mod_pos_bound. lia. Qed.

Lemma elapsed_cycles_range a b : 0 <= elapsed_cycles a b < 2^64.
Proof. unfold elapsed_cycles. apply u64_range. Qed.

Lemma timed_single e m r :
  exists c m', timed e m r = Ok (c, m') /\ single_post e m c m'.
Proof.
  eexists _, _. split; [reflexivity|].
  split; [reflexivity|]. split; [reflexivity|]. split; [reflexivity|].
  split; reflexivity.
Qed.

Ltac single_tac :=
  eexists _, _; (split; [reflexivity|]);
  cbn [clock_reads current_workload total_work_cycles work_iterations
       set_work_result set_noise_filter set_aec_filter set_far_end_buffer emit tick];
  (split; [reflexivity|]); (split; [reflexivity|]); (split; [reflexivity|]);
  split; reflexivity.

Lemma workload_spatial_noise_cancel_single e m :
  exists c m', workload_spatial_noise_cancel e m = Ok (c, m') /\ single_post e m c m'.
Proof. rewrite workload_spatial_noise_cancel_eq. cbv zeta. single_tac. Qed.

Lemma workload_audio_pipeline_single e m :
  exists c m', workload_audio_pipeline e m = Ok (c, m') /\ single_post e m c m'.
Proof.
  rewrite workload_audio_pipeline_eq. cbv zeta.
  destruct (fe_voice_detected _); [destruct (ipc0 e)|]; single_tac.
Qed.

Lemma workload_audio_pipeline_aec_single e m :
  exists c m', workload_audio_pipeline_aec e m = Ok (c, m') /\ single_post e m c m'.
Proof.
  rewrite workload_audio_pipeline_aec_eq. cbv zeta.
  destruct (fe_voice_detected _); [destruct (ipc0 e)|]; single_tac.
Qed.

(** Mixed runs four kernels in a row: eight timer readings, the sum of
    the four differences. *)
Lemma workload_mixed_eq e m :
  let k := clock_reads m in
  let el i := elapsed_cycles (u64 (uptime_us e i)) (u64 (uptime_us e (S i))) in
  exists m',
    workload_mixed e m =
      Ok (u64 (u64 (u64 (u64 (0 + el k) + el (2 + k)%nat) + el (4 + k)%nat)
               + el (6 + k)%nat), m') /\
    clock_reads m' = (8 + k)%nat /\
    current_workload m' = current_workload m /\
    total_work_cycles m' = total_work_cycles m /\
    work_iterations m' = work_iterations m /\
    work_result m' = crypto_sim_frame e (6 + k)%nat /\
    events m' = events m /\
    noise_filter m' = noise_filter m.
Proof.
  intros k el. unfold workload_mixed. cbv zeta.
  rewrite workload_matrix_mult_eq, timed_bind.
  rewrite workload_sorting_eq, timed_bind.
  rewrite workload_fft_sim_eq, timed_bind.
  rewrite workload_crypto_sim_eq, timed_bind.
  rewrite !clock_reads_timed.
  eexists. split; [unfold mret, result_ret; reflexivity|].
  rewrite !clock_reads_timed.
  split; [reflexivity|]. split; [reflexivity|]. split; [reflexivity|].
  split; [reflexivity|]. split; [reflexivity|]. split; reflexivity.
Qed.

(** Every workload but Mixed is one timed frame. *)
Lemma execute_workload_single e m :
  1 <= current_workload m <= 13 -> current_workload m <> WORKLOAD_MIXED ->
  exists c m', execute_workload e m = Ok (c, m') /\ single_post e m c m'.
Proof.
  intros Hr Hm. unfold execute_workload. cbv zeta.
  destruct (Z.eqb_spec (current_workload m) WORKLOAD_MATRIX_MULT);
    [rewrite workload_matrix_mult_eq; apply timed_single|].
  destruct (Z.eqb_spec (current_workload m) WORKLOAD_SORTING);
    [rewrite workload_sorting_eq; apply timed_single|].
  destruct (Z.eqb_spec (current_workload m) WORKLOAD_FFT_SIM);
    [rewrite workload_fft_sim_eq; apply timed_single|].
  destruct (Z.eqb_spec (current_workload m) WORKLOAD_CRYPTO_SIM);
    [rewrite workload_crypto_sim_eq; apply timed_single|].
  destruct (Z.eqb_spec (current_workload m) WORKLOAD_MIXED);
    [exfalso; apply Hm; assumption|].
  destruct (Z.eqb_spec (current_workload m) WORKLOAD_AUDIO_PIPELINE);
    [apply workload_audio_pipeline_single|].
  destruct (Z.eqb_spec (current_workload m) WORKLOAD_AUDIO_PIPELINE_AEC);
    [apply workload_audio_pipeline_aec_single|].
  destruct (Z.eqb_spec (current_workload m) WORKLOAD_PROXIMITY_VAD);
    [rewrite workload_proximity_vad_eq; apply timed_single|].
  destruct (Z.eqb_spec (current_workload m) WORKLOAD_CHEST_RESONANCE);
    [rewrite workload_chest_resonance_eq; apply timed_single|].
  destruct (Z.eqb_spec (current_workload m) WORKLOAD_CLOTHING_RUSTLE);
    [rewrite workload_clothing_rustle_eq; apply timed_single|].
  destruct (Z.eqb_spec (current_workload m) WORKLOAD_SPATIAL_NOISE_CANCEL);
    [apply workload_spatial_noise_cancel_single|].
  destruct (Z.eqb_spec (current_workload m) WORKLOAD_WIND_NOISE_REDUCTION);
    [rewrite workload_wind_noise_reduction_eq; apply timed_single|].
  destruct (Z.eqb_spec (current_workload m) WORKLOAD_NECKLACE_FULL);
    [rewrite workload_necklace_full_eq; apply timed_single|].
  exfalso. unfold_workloads. lia.
Qed.

Lemma execute_workload_total e m :
  exists c m',
    execute_workload e m = Ok (c, m') /\
    0 <= c < 2^64 /\
    current_workload m' = current_workload m /\
    total_work_cycles m' = total_work_cycles m /\
    work_iterations m' = work_iterations m.
Proof.
  destruct (decide (1 <= current_workload m <= 13)) as [Hr|Hr].
  - destruct (decide (current_workload m = WORKLOAD_MIXED)) as [H5|H5].
    + pose proof (workload_mixed_eq e m) as Hx. cbv zeta in Hx.
      destruct Hx as (m' & E & _ & Hw & Ht & Hi & _).
      eexists _, m'. split.
      * unfold execute_workload. cbv zeta. rewrite H5.
        unfold_workloads. decide_cases. exact E.
      * split; [apply u64_range|]. split; [exact Hw|]. split; assumption.
    + destruct (execute_workload_single e m Hr H5) as (c & m' & E & -> & _ & Hw & Ht & Hi).
      eexists _, m'. split; [exact E|].
      split; [apply elapsed_cycles_range|]. split; [exact Hw|]. split; assumption.
  - rewrite execute_workload_default by exact Hr.
    eexists _, _. split; [reflexivity|].
    split; [lia|]. split; [reflexivity|]. split; reflexivity.
Qed.


(** ** The workload thread *)

(** A turn with a workload selected: the dispatch, then the two
    accumulators. *)
Lemma workload_thread_step_busy e m :
  current_workload m <> WORKLOAD_IDLE ->
  exists c m1,
    execute_workload e m = Ok (c, m1) /\
    workload_thread_step e m =
      Ok (set_work_iterations (u32 (work_iterations m + 1))
            (set_total_work_cycles (u64 (total_work_cycles m + c)) m1)) /\
    current_workload m1 = current_workload m.
Proof.
  intros Hne.
  destruct (execute_workload_total e m) as (c & m1 & E & _ & Hw & Ht & Hi).
  exists c, m1. split; [exact E|]. split; [|exact Hw].
  unfold workload_thread_step.
  destruct (Z.eqb_spec (current_workload m) WORKLOAD_IDLE) as [Heq|_];
    [exfalso; apply Hne; assumption|].
  cbn [negb]. rewrite E. cbn [mbind result_bind]. cbv zeta.
  cbn [work_iterations set_total_work_cycles]. rewrite Ht, Hi. reflexivity.
Qed.

Lemma u32_add_idemp a b : u32 (u32 a + b) = u32 (a + b).
Proof. unfold u32. apply Zplus_mod_idemp_l. Qed.

Lemma u64_add_idemp a b : u64 (u64 a + b) = u64 (a + b).
Proof. unfold u64. apply Zplus_mod_idemp_l. Qed.

Lemma u32_small z : 0 <= z < 2^32 -> u32 z = z.
Proof. intros H. unfold u32. apply Z.mod_small. exact H. Qed.

Lemma u64_small z : 0 <= z < 2^64 -> u64 z = z.
Proof. intros H. unfold u64. apply Z.mod_small. exact H. Qed.

(** X2. Once a workload other than Idle is selected, every turn of the
    workload thread returns and counts one iteration, whatever the
    selected byte is (the thirteen kernels, Mixed, or a value that no
    kernel answers to): after [n] turns the counter has advanced by [n]
    modulo 2^32 and the selection is what it was. *)
Theorem workload_turns_count e n m :
  current_workload m <> WORKLOAD_IDLE ->
  0 <= work_iterations m < 2^32 ->
  exists m',
    workload_turns e n m = Ok m' /\
    work_iterations m' = u32 (work_iterations m + Z.of_nat n) /\
    current_workload m' = current_workload m.
Proof.
  revert m. induction n as [|n IH]; intros m Hne Hr.
  - exists m. split; [reflexivity|]. split; [|reflexivity].
    rewrite Z.add_0_r. symmetry. apply u32_small. exact Hr.
  - destruct (workload_thread_step_busy e m Hne) as (c & m1 & _ & E & Hw).
    cbn [workload_turns]. rewrite E. cbn [mbind result_bind].
    match goal with |- context [workload_turns e n ?s] => set (m2 := s) end.
    assert (Hw2 : current_workload m2 = current_workload m) by exact Hw.
    assert (Hi2 : work_iterations m2 = u32 (work_iterations m + 1)) by reflexivity.
    destruct (IH m2) as (m' & E' & Hi' & Hw').
    + rewrite Hw2. exact Hne.
    + rewrite Hi2. apply u32_range.
    + exists m'. split; [exact E'|]. split.
      * rewrite Hi', Hi2, u32_add_idemp. f_equal. lia.
      * rewrite Hw'. exact Hw2.
Qed.

Lemma workload_turns_count_witness :
  exists m',
    workload_turns env_quiet 3 (switched 200 boot) = Ok m' /\
    work_iterations m' = u32 (work_iterations (switched 200 boot) + Z.of_nat 3) /\
    current_workload m' = current_workload (switched 200 boot).
Proof.
  apply (workload_turns_count env_quiet 3 (switched 200 boot)).
  - vm_compute. discriminate.
  - vm_compute. split; [discriminate | reflexivity].
Defined.

(** A turn of a single-frame workload *)
Lemma workload_thread_step_single e m :
  1 <= current_workload m <= 13 -> current_workload m <> WORKLOAD_MIXED ->
  exists m',
    workload_thread_step e m = Ok m' /\
    total_work_cycles m' =
      u64 (total_work_cycles m +
           elapsed_cycles (u64 (uptime_us e (clock_reads m)))
                          (u64 (uptime_us e (S (clock_reads m))))) /\
    clock_reads m' = S (S (clock_reads m)) /\
    current_workload m' = current_workload m.
Proof.
  intros Hr H5.
  destruct (execute_workload_single e m Hr H5) as (c & m1 & E & -> & Hk & Hw & Ht & Hi).
  assert (Hne : current_workload m <> WORKLOAD_IDLE) by (unfold WORKLOAD_IDLE; lia).
  destruct (workload_thread_step_busy e m Hne) as (c' & m1' & E1 & E2 & _).
  rewrite E in E1. apply Ok_pair_inj in E1 as [<- <-].
  eexists. split; [exact E2|].
  cbn [total_work_cycles clock_reads current_workload set_work_iterations
       set_total_work_cycles].
  split; [reflexivity|]. split; assumption.
Qed.

(** X3. For each of the twelve single-frame workloads the thread reads
    the timer twice per turn and adds the scaled difference of the two
    readings: after [n] turns the cycle accumulator holds, modulo 2^64,
    its old value plus the [n] differences of consecutive pairs of
    readings, and [2 n] readings have been consumed. *)
Theorem workload_turns_cycles e n m :
  1 <= current_workload m <= 13 -> current_workload m <> WORKLOAD_MIXED ->
  0 <= total_work_cycles m < 2^64 ->
  exists m',
    workload_turns e n m = Ok m' /\
    total_work_cycles m' =
      u64 (total_work_cycles m + elapsed_sum e (clock_reads m) n) /\
    clock_reads m' = (clock_reads m + 2 * n)%nat.
Proof.
  revert m. induction n as [|n IH]; intros m Hr H5 Ht.
  - exists m. split; [reflexivity|]. split; [|lia].
    cbn [elapsed_sum]. rewrite Z.add_0_r. symmetry. apply u64_small. exact Ht.
  - destruct (workload_thread_step_single e m Hr H5) as (m2 & E & Ht2 & Hk2 & Hw2).
    cbn [workload_turns]. rewrite E. cbn [mbind result_bind].
    destruct (IH m2) as (m' & E' & Ht' & Hk').
    + rewrite Hw2. exact Hr.
    + rewrite Hw2. exact H5.
    + rewrite Ht2. apply u64_range.
    + exists m'. split; [exact E'|]. split.
      * rewrite Ht', Ht2, Hk2, u64_add_idemp. cbn [elapsed_sum]. f_equal. lia.
      * rewrite Hk', Hk2. lia.
Qed.

Lemma workload_turns_cycles_witness :
  exists m',
    workload_turns env_quiet 2 (switched 1 boot) = Ok m' /\
    total_work_cycles m' =
      u64 (total_work_cycles (switched 1 boot)
           + elapsed_sum env_quiet (clock_reads (switched 1 boot)) 2) /\
    clock_reads m' = (clock_reads (switched 1 boot) + 2 * 2)%nat.
Proof.
  apply (workload_turns_cycles env_quiet 2 (switched 1 boot)).
  - vm_compute. split; discriminate.
  - vm_compute. discriminate.
  - vm_compute. split; [discriminate | reflexivity].
Defined.

(** X4. The cycle count of a frame is exact, 128 cycles per microsecond
    of the difference, whenever the timer did not run backwards and is
    below 2^57 us; no wrap-around of the [uint64_t] product occurs
    then. *)
Theorem elapsed_cycles_exact start_us end_us :
  0 <= start_us <= end_us -> end_us < 2^57 ->
  elapsed_cycles (u64 start_us) (u64 end_us) = 128 * (end_us - start_us).
Proof.
  intros H1 H2. unfold elapsed_cycles, RISCV_FREQ_MHZ.
  rewrite (u64_small start_us), (u64_small end_us) by lia.
  rewrite (u64_small (end_us - start_us)) by lia.
  rewrite u64_small by lia. lia.
Qed.

Lemma elapsed_cycles_exact_witness :
  elapsed_cycles (u64 1000) (u64 3500) = 128 * (3500 - 1000).
Proof. apply (elapsed_cycles_exact 1000 3500); lia. Defined.

(** ** Audio frames and the reporting core *)

Lemma wrap32_range z : - 2^31 <= wrap32 z < 2^31.
Proof.
  unfold wrap32. pose proof (Z.mod_pos_bound (z + 2^31) (2^32) ltac:(lia)). lia.
Qed.

Lemma vad_metrics_energy_range po : (vad_metrics po).1 <= 2^24.
Proof.
  unfold vad_metrics.
  match goal with |- context [for_ ?lo ?hi ?b ?s0] =>
    assert (H : (for_ lo hi b s0).1 < 2^31);
    [apply (for_ind (fun x => x.1 < 2^31)) | destruct (for_ lo hi b s0) as [fe zc]]
  end.
  - simpl. lia.
  - intros i [fe zc] _ _. cbn [fst]. unfold add32. apply wrap32_range.
  - cbn [fst] in *. apply Z.quot_le_upper_bound; [reflexivity|].
    change (Z.of_nat FRAME_SIZE) with 128. lia.
Qed.

Lemma audio_front_end_energy_range e id wr :
  fe_frame_energy (audio_front_end e id wr) <= 2^24.
Proof.
  unfold audio_front_end. cbv zeta.
  match goal with |- context [noise_gate ?a ?b] => destruct (noise_gate a b) as [po se] end.
  match goal with |- context [vad_metrics ?a] =>
    pose proof (vad_metrics_energy_range a) as H; destruct (vad_metrics a) as [fe zc] end.
  exact H.
Qed.

(** With voice detected both metrics are small positive numbers, which
    the 32-bit payload words carry unchanged. *)
Lemma audio_front_end_voice e id wr :
  fe_voice_detected (audio_front_end e id wr) = true ->
  1000 < fe_frame_energy (audio_front_end e id wr) <= 2^24 /\
  10 < fe_zero_crossings (audio_front_end e id wr) < 80.
Proof.
  rewrite audio_front_end_vad. intros H. apply vad_decision_spec in H as [H1 H2].
  split; [|exact H2]. split; [exact H1|]. apply audio_front_end_energy_range.
Qed.

Lemma audio_data_bytes_workload workload w0 w1 w2 w3 word4 :
  load (audio_data_bytes workload w0 w1 w2 w3 word4) off_workload 1
  = Ok (workload `mod` 256).
Proof.
  change (load _ _ _) with (Ok (Z_of_byte (byte_of_Z workload) + 256 * 0)).
  f_equal. rewrite Z_of_byte_of_Z. lia.
Qed.

Lemma audio_data_bytes_word0 workload w0 w1 w2 w3 word4 :
  load (audio_data_bytes workload w0 w1 w2 w3 word4) (off_data 0) 4
  = Ok (w0 `mod` 2 ^ 32).
Proof.
  change (load _ _ _) with (Ok (le_value (le_bytes 4 w0))).
  f_equal. apply le_value_le_bytes.
Qed.

Lemma audio_data_bytes_word1 workload w0 w1 w2 w3 word4 :
  load (audio_data_bytes workload w0 w1 w2 w3 word4) (off_data 1) 4
  = Ok (w1 `mod` 2 ^ 32).
Proof.
  change (load _ _ _) with (Ok (le_value (le_bytes 4 w1))).
  f_equal. apply le_value_le_bytes.
Qed.

Lemma audio_data_bytes_word2 workload w0 w1 w2 w3 word4 :
  load (audio_data_bytes workload w0 w1 w2 w3 word4) (off_data 2) 4
  = Ok (w2 `mod` 2 ^ 32).
Proof.
  change (load _ _ _) with (Ok (le_value (le_bytes 4 w2))).
  f_equal. apply le_value_le_bytes.
Qed.

Lemma audio_data_bytes_word3 workload w0 w1 w2 w3 word4 :
  load (audio_data_bytes workload w0 w1 w2 w3 word4) (off_data 3) 4
  = Ok (w3 `mod` 2 ^ 32).
Proof.
  change (load _ _ _) with (Ok (le_value (le_bytes 4 w3))).
  f_equal. apply le_value_le_bytes.
Qed.

(** The reporting core on an AudioData envelope of the compute core *)
Lemma cpuapp_ep_recv_audio workload w0 w1 w2 w3 word4 a :
  CpuApp.ep_recv (audio_data_bytes workload w0 w1 w2 w3 word4) a =
  Ok (CpuApp.App (CpuApp.riscv_mips a) (CpuApp.riscv_workload a) (CpuApp.riscv_cpu_pct a)
        (u32 (CpuApp.audio_frames_received a + 1))
        (if w2 `mod` 2 ^ 32 >? 1000 then u32 (CpuApp.audio_voice_detected a + 1)
         else CpuApp.audio_voice_detected a)).
Proof.
  unfold CpuApp.ep_recv.
  rewrite audio_data_bytes_type. cbn [mbind result_bind].
  change (IPC_MSG_AUDIO_DATA =? IPC_MSG_STATS) with false.
  change (IPC_MSG_AUDIO_DATA =? IPC_MSG_AUDIO_DATA) with true. cbv iota zeta.
  rewrite audio_data_bytes_word0. cbn [mbind result_bind].
  rewrite audio_data_bytes_word1. cbn [mbind result_bind].
  rewrite audio_data_bytes_word2. cbn [mbind result_bind].
  rewrite audio_data_bytes_word3. cbn [mbind result_bind].
  reflexivity.
Qed.

(** What a frame of either audio pipeline does to the event trace and
    to [work_result] *)
Lemma audio_frame_cases e m c m' :
  current_workload m = WORKLOAD_AUDIO_PIPELINE \/
  current_workload m = WORKLOAD_AUDIO_PIPELINE_AEC ->
  execute_workload e m = Ok (c, m') ->
  let fe := audio_front_end e (clock_reads m) (work_result m) in
  if fe_voice_detected fe && ipc0 e then
    exists w0 w1 word4,
      events m' =
        events m ++ [IpcSend (audio_data_bytes (current_workload m) w0 w1
                                (fe_frame_energy fe) (fe_zero_crossings fe) word4)]
      /\ length word4 = 4%nat
  else
    events m' = events m /\ (fe_voice_detected fe = false -> work_result m' = 0).
Proof.
  intros Hw H fe. destruct Hw as [Hw|Hw].
  - rewrite (execute_workload_audio e m Hw) in H.
    rewrite workload_audio_pipeline_eq in H. cbv zeta in H.
    apply Ok_pair_inj in H as [_ <-]. fold fe. rewrite Hw.
    destruct (fe_voice_detected fe); [destruct (ipc0 e)|]; cbn [andb].
    + eexists _, _, _. split; [reflexivity|]. reflexivity.
    + split; [reflexivity|]. intros ?. discriminate.
    + split; [reflexivity|]. intros _. reflexivity.
  - rewrite (execute_workload_aec e m Hw) in H.
    rewrite workload_audio_pipeline_aec_eq in H. cbv zeta in H.
    apply Ok_pair_inj in H as [_ <-]. fold fe. rewrite Hw.
    destruct (fe_voice_detected fe); [destruct (ipc0 e)|]; cbn [andb].
    + eexists _, _, _. split; [reflexivity|]. apply le_bytes_length.
    + split; [reflexivity|]. intros ?. discriminate.
    + split; [reflexivity|]. intros _. reflexivity.
Qed.

(** X5. A frame of either audio pipeline always returns, and its output
    is decided by the voice flag alone: with voice detected and the IPC
    instance present it sends exactly one message, a 24-byte AudioData
    envelope that names the running workload and carries the frame
    energy and the zero-crossing count of this frame in payload words 2
    and 3; otherwise it sends nothing, and without voice it leaves 0 in
    [work_result]. *)
Theorem audio_frame_output e m :
  current_workload m = WORKLOAD_AUDIO_PIPELINE \/
  current_workload m = WORKLOAD_AUDIO_PIPELINE_AEC ->
  let fe := audio_front_end e (clock_reads m) (work_result m) in
  exists c m',
    execute_workload e m = Ok (c, m') /\
    (fe_voice_detected fe && ipc0 e = true ->
       exists msg,
         events m' = events m ++ [IpcSend msg] /\
         length msg = sizeof_ipc_message /\
         load msg off_type 1 = Ok IPC_MSG_AUDIO_DATA /\
         load msg off_workload 1 = Ok (current_workload m) /\
         load msg (off_data 2) 4 = Ok (fe_frame_energy fe) /\
         load msg (off_data 3) 4 = Ok (fe_zero_crossings fe)) /\
    (fe_voice_detected fe && ipc0 e = false -> events m' = events m) /\
    (fe_voice_detected fe = false -> work_result m' = 0).
Proof.
  intros Hw fe.
  destruct (execute_workload_total e m) as (c & m' & E & _).
  exists c, m'. split; [exact E|].
  pose proof (audio_frame_cases e m c m' Hw E) as Hc. cbv zeta in Hc. fold fe in Hc.
  destruct (fe_voice_detected fe && ipc0 e) eqn:Hb.
  - destruct Hc as (w0 & w1 & word4 & Hev & Hlen).
    split; [|split; intros Hf; [discriminate Hf|]].
    + intros _. eexists. split; [exact Hev|].
      apply andb_prop in Hb as [Hv _].
      apply audio_front_end_voice in Hv as [[He1 He2] [Hz1 Hz2]]. fold fe in He1, He2, Hz1, Hz2.
      split; [apply audio_data_bytes_length; exact Hlen|].
      split; [apply audio_data_bytes_type|].
      split; [|split].
      * rewrite audio_data_bytes_workload. f_equal. apply Z.mod_small.
        destruct Hw as [-> | ->]; unfold_workloads; lia.
      * rewrite audio_data_bytes_word2. f_equal. apply Z.mod_small. lia.
      * rewrite audio_data_bytes_word3. f_equal. apply Z.mod_small. lia.
    + rewrite Hf in Hb. discriminate Hb.
  - destruct Hc as [Hev Hwr].
    split; [intros Hf; discriminate Hf|]. split; [intros _; exact Hev|exact Hwr].
Qed.

Lemma audio_frame_output_witness :
  exists c m',
    execute_workload env_quiet (switched 6 boot) = Ok (c, m') /\
    (fe_voice_detected (audio_front_end env_quiet (clock_reads (switched 6 boot))
                          (work_result (switched 6 boot))) && ipc0 env_quiet = true ->
       exists msg,
         events m' = events (switched 6 boot) ++ [IpcSend msg] /\
         length msg = sizeof_ipc_message /\
         load msg off_type 1 = Ok IPC_MSG_AUDIO_DATA /\
         load msg off_workload 1 = Ok (current_workload (switched 6 boot)) /\
         load msg (off_data 2) 4 =
           Ok (fe_frame_energy (audio_front_end env_quiet (clock_reads (switched 6 boot))
                                  (work_result (switched 6 boot)))) /\
         load msg (off_data 3) 4 =
           Ok (fe_zero_crossings (audio_front_end env_quiet (clock_reads (switched 6 boot))
                                    (work_result (switched 6 boot))))) /\
    (fe_voice_detected (audio_front_end env_quiet (clock_reads (switched 6 boot))
                          (work_result (switched 6 boot))) && ipc0 env_quiet = false ->
       events m' = events (switched 6 boot)) /\
    (fe_voice_detected (audio_front_end env_quiet (clock_reads (switched 6 boot))
                          (work_result (switched 6 boot))) = false ->
       work_result m' = 0).
Proof.
  apply (audio_frame_output env_quiet (switched 6 boot)).
  left. reflexivity.
Defined.

(** X6. The two cores agree on voice frames: whenever a frame of either
    audio pipeline detects voice (and the IPC instance is present), the
    message it sends is accepted by the reporting core's receive
    callback, which counts it as a frame and, re-testing the energy
    word against 1000, also as a voice frame. *)
Theorem audio_message_counted_as_voice e m :
  current_workload m = WORKLOAD_AUDIO_PIPELINE \/
  current_workload m = WORKLOAD_AUDIO_PIPELINE_AEC ->
  fe_voice_detected (audio_front_end e (clock_reads m) (work_result m)) = true ->
  ipc0 e = true ->
  exists c m' msg,
    execute_workload e m = Ok (c, m') /\
    events m' = events m ++ [IpcSend msg] /\
    forall a,
      CpuApp.ep_recv msg a =
      Ok (CpuApp.App (CpuApp.riscv_mips a) (CpuApp.riscv_workload a)
            (CpuApp.riscv_cpu_pct a)
            (u32 (CpuApp.audio_frames_received a + 1))
            (u32 (CpuApp.audio_voice_detected a + 1))).
Proof.
  intros Hw Hv Hipc.
  destruct (execute_workload_total e m) as (c & m' & E & _).
  pose proof (audio_frame_cases e m c m' Hw E) as Hc. cbv zeta in Hc.
  rewrite Hv, Hipc in Hc. cbn [andb] in Hc.
  destruct Hc as (w0 & w1 & word4 & Hev & _).
  eexists c, m', _. split; [exact E|]. split; [exact Hev|].
  intros a. rewrite cpuapp_ep_recv_audio.
  apply audio_front_end_voice in Hv as [[He1 He2] _].
  rewrite Z.mod_small by lia.
  destruct (Z.gtb_spec (fe_frame_energy (audio_front_end e (clock_reads m) (work_result m)))
              1000) as [_|Hle]; [reflexivity|].
  exfalso. lia.
Qed.

Lemma audio_message_counted_as_voice_witness :
  exists c m' msg,
    execute_workload env_stale (state_of (run_chest_then x06)) = Ok (c, m') /\
    events m' = events (state_of (run_chest_then x06)) ++ [IpcSend msg] /\
    forall a,
      CpuApp.ep_recv msg a =
      Ok (CpuApp.App (CpuApp.riscv_mips a) (CpuApp.riscv_workload a)
            (CpuApp.riscv_cpu_pct a)
            (u32 (CpuApp.audio_frames_received a + 1))
            (u32 (CpuApp.audio_voice_detected a + 1))).
Proof.
  apply (audio_message_counted_as_voice env_stale (state_of (run_chest_then x06))).
  - left. vm_compute. reflexivity.
  - vm_compute. reflexivity.
  - reflexivity.
Defined.

(** ** Sample packing *)

Lemma wrap16_mod a : - 2^15 <= a < 2^15 -> wrap16 (a `mod` 2^16) = a.
Proof.
  intros H. unfold wrap16.
  rewrite Zplus_mod_idemp_l. apply Z.sub_move_r. apply Z.mod_small. lia.
Qed.

Lemma pack16_eq a b : pack16 a b = a `mod` 2^16 + (b `mod` 2^16) * 2^16.
Proof.
  unfold pack16. change 0xFFFF with (Z.ones 16).
  rewrite !Z.land_ones by lia. rewrite Z.shiftl_mul_pow2 by lia.
  rewrite <- Z.add_lor_land.
  replace (Z.land (a `mod` 2 ^ 16) (b `mod` 2 ^ 16 * 2 ^ 16)) with 0; [lia|].
  symmetry. apply Z.bits_inj'. intros n Hn.
  rewrite Z.land_spec, Z.bits_0.
  destruct (Z.lt_ge_cases n 16) as [Hlt|Hge].
  - rewrite Z.mul_pow2_bits_low by lia. apply andb_false_r.
  - rewrite Z.mod_pow2_bits_high by lia. reflexivity.
Qed.

Lemma pack16_range a b : 0 <= pack16 a b < 2^32.
Proof.
  rewrite pack16_eq.
  pose proof (Z.mod_pos_bound a (2^16) ltac:(lia)).
  pose proof (Z.mod_pos_bound b (2^16) ltac:(lia)). lia.
Qed.

Lemma sample_lo_pack16 a b :
  - 2^15 <= a < 2^15 -> CpuAppCtl.sample_lo (pack16 a b) = a.
Proof.
  intros Ha. unfold CpuAppCtl.sample_lo. change 0xFFFF with (Z.ones 16).
  rewrite Z.land_ones by lia. rewrite pack16_eq.
  rewrite Z.mod_add by lia. rewrite Z.mod_mod by lia. apply wrap16_mod. exact Ha.
Qed.

Lemma sample_hi_pack16 a b :
  - 2^15 <= b < 2^15 -> CpuAppCtl.sample_hi (pack16 a b) = b.
Proof.
  intros Hb. unfold CpuAppCtl.sample_hi. change 0xFFFF with (Z.ones 16).
  rewrite Z.land_ones by lia. rewrite Z.shiftr_div_pow2 by lia. rewrite pack16_eq.
  rewrite Z.div_add by lia.
  rewrite (Z.div_small (a `mod` 2^16)) by (apply Z.mod_pos_bound; lia).
  rewrite Z.add_0_l, Z.mod_mod by lia. apply wrap16_mod. exact Hb.
Qed.

(** X7. Sample packing round trip: for [int16_t] samples [a], [b], [c],
    [d] packed two per word by the compute core, the reporting core
    reads payload words 0 and 1 back from the envelope and its
    mask-and-shift extraction recovers the four samples, sign
    included. *)
Theorem audio_samples_round_trip workload a b c d w2 w3 word4 :
  - 2^15 <= a < 2^15 -> - 2^15 <= b < 2^15 ->
  - 2^15 <= c < 2^15 -> - 2^15 <= d < 2^15 ->
  exists d0 d1,
    load (audio_data_bytes workload (pack16 a b) (pack16 c d) w2 w3 word4) (off_data 0) 4
      = Ok d0 /\
    load (audio_data_bytes workload (pack16 a b) (pack16 c d) w2 w3 word4) (off_data 1) 4
      = Ok d1 /\
    CpuAppCtl.sample_lo d0 = a /\ CpuAppCtl.sample_hi d0 = b /\
    CpuAppCtl.sample_lo d1 = c /\ CpuAppCtl.sample_hi d1 = d.
Proof.
  intros Ha Hb Hc Hd. exists (pack16 a b), (pack16 c d).
  split; [rewrite audio_data_bytes_word0; f_equal; apply Z.mod_small, pack16_range|].
  split; [rewrite audio_data_bytes_word1; f_equal; apply Z.mod_small, pack16_range|].
  split; [apply sample_lo_pack16; exact Ha|].
  split; [apply sample_hi_pack16; exact Hb|].
  split; [apply sample_lo_pack16; exact Hc|apply sample_hi_pack16; exact Hd].
Qed.

Lemma audio_samples_round_trip_witness :
  exists d0 d1,
    load (audio_data_bytes 6 (pack16 (-3) 1200) (pack16 32767 (-32768)) 5000 20
            [x00; x00; x00; x00]) (off_data 0) 4 = Ok d0 /\
    load (audio_data_bytes 6 (pack16 (-3) 1200) (pack16 32767 (-32768)) 5000 20
            [x00; x00; x00; x00]) (off_data 1) 4 = Ok d1 /\
    CpuAppCtl.sample_lo d0 = -3 /\ CpuAppCtl.sample_hi d0 = 1200 /\
    CpuAppCtl.sample_lo d1 = 32767 /\ CpuAppCtl.sample_hi d1 = -32768.
Proof.
  apply (audio_samples_round_trip 6 (-3) 1200 32767 (-32768) 5000 20 [x00; x00; x00; x00]);
    lia.
Defined.

(** ** Reporting core: rate control and pacing *)

Lemma u32_1000_mul t : u32 (t * 1000) = 8 * ((t * 125) `mod` 2^29).
Proof.
  unfold u32. replace (t * 1000) with (8 * (t * 125)) by lia.
  change (2^32) with (8 * 2^29). apply Z.mul_mod_distr_l; lia.
Qed.

Lemma bytes_per_sec_eq t : u32 (t * 1000) ÷ 8 = (t * 125) `mod` 2^29.
Proof.
  rewrite u32_1000_mul. rewrite Z.mul_comm. apply Z.quot_mul. lia.
Qed.

Lemma mod_2_29_mul_125 t : (t * 125) `mod` 2^29 = 0 <-> t `mod` 2^29 = 0.
Proof.
  rewrite !Z.mod_divide by lia. split.
  - intros H. apply (Z.gauss _ 125); [rewrite Z.mul_comm; exact H|].
    reflexivity.
  - intros H. apply Z.divide_mul_l. exact H.
Qed.

(** X8. The pacing computation of [stream_thread] divides by zero for
    exactly those target rates, other than 0, that are multiples of
    2^29 kbps (the product [target_tx_kbps * 1000] wraps to 0 in
    [uint32_t]); for every other rate it yields a delay between 5 and
    495000 ms. *)
Theorem tx_delay_ms_defined t :
  0 <= t < 2^32 ->
  (CpuAppCtl.tx_delay_ms t = None <-> t <> 0 /\ t `mod` 2^29 = 0) /\
  (forall d, CpuAppCtl.tx_delay_ms t = Some d -> 5 <= d <= 495000).
Proof.
  intros Ht. unfold CpuAppCtl.tx_delay_ms. cbv zeta. rewrite bytes_per_sec_eq.
  destruct (Z.eqb_spec t 0) as [->|Hne].
  - split.
    + split; [intros H; discriminate H | intros [H _]; exfalso; apply H; reflexivity].
    + intros d [= <-]. lia.
  - pose proof (Z.mod_pos_bound (t * 125) (2^29) ltac:(lia)) as Hb.
    destruct (Z.eqb_spec ((t * 125) `mod` 2^29) 0) as [Hz|Hnz].
    + split.
      * split; [intros _; split; [exact Hne | apply mod_2_29_mul_125; exact Hz]
               | intros _; reflexivity].
      * intros d H. discriminate H.
    + split.
      * split; [intros H; discriminate H|].
        intros [_ H]. exfalso. apply Hnz. apply mod_2_29_mul_125. exact H.
      * intros d [= <-].
        change (u32 (CpuAppCtl.TEST_DATA_SIZE * 1000)) with 495000.
        destruct (Z.ltb_spec (495000 ÷ (t * 125) `mod` 2^29) 5) as [Hlt|Hge]; [lia|].
        split; [exact Hge|].
        apply Z.quot_le_upper_bound; nia.
Qed.

Lemma tx_delay_ms_defined_witness :
  (CpuAppCtl.tx_delay_ms 0x20000000 = None <-> 0x20000000 <> 0 /\ 0x20000000 `mod` 2^29 = 0) /\
  (forall d, CpuAppCtl.tx_delay_ms 0x20000000 = Some d -> 5 <= d <= 495000).
Proof. apply (tx_delay_ms_defined 0x20000000). lia. Defined.

Lemma tx_delay_ms_paced t :
  1 <= t <= 4294967 ->
  CpuAppCtl.tx_delay_ms t = Some (Z.max 5 (3960 ÷ t)).
Proof.
  intros Ht. unfold CpuAppCtl.tx_delay_ms. cbv zeta. rewrite bytes_per_sec_eq.
  destruct (Z.eqb_spec t 0) as [->|_]; [lia|].
  rewrite (Z.mod_small (t * 125)) by lia.
  destruct (Z.eqb_spec (t * 125) 0) as [H0|_]; [lia|].
  change (u32 (CpuAppCtl.TEST_DATA_SIZE * 1000)) with (3960 * 125).
  rewrite Z.quot_mul_cancel_r by lia.
  f_equal. destruct (Z.ltb_spec (3960 ÷ t) 5); lia.
Qed.

Lemma on_control_write_le_bytes v c :
  0 <= v < 2^32 ->
  CpuAppCtl.on_control_write (le_bytes 4 v) c =
  (4, CpuAppCtl.Ctl (CpuAppCtl.current_conn c) (CpuAppCtl.bytes_sent c)
        (CpuAppCtl.bytes_received c) (CpuAppCtl.total_cycles c) (CpuAppCtl.iterations c)
        (CpuAppCtl.notify_enabled c) v (CpuAppCtl.ipc_ready c) (CpuAppCtl.ctl_events c)).
Proof.
  intros Hv. unfold CpuAppCtl.on_control_write. rewrite le_bytes_length.
  cbv zeta. change (Z.of_nat 4 =? 4) with true. cbv iota.
  rewrite le_value_le_bytes. change (2 ^ (8 * Z.of_nat 4)) with (2^32).
  rewrite Z.mod_small by exact Hv. reflexivity.
Qed.

(** X9. Rate control end to end: after a 4-byte little-endian write of
    a rate [v] between 1 and 4294967 kbps to the control
    characteristic, each turn of the streaming thread on an open,
    subscribed connection sleeps [max 5 (3960 / v)] ms (so the 5 ms
    floor applies from 793 kbps on), and counts 495 bytes sent exactly
    when the notification succeeded. *)
Theorem control_write_paces_stream v err cycles c :
  1 <= v <= 4294967 ->
  CpuAppCtl.current_conn c = true -> CpuAppCtl.notify_enabled c = true ->
  exists c',
    CpuAppCtl.stream_thread_step err cycles (CpuAppCtl.on_control_write (le_bytes 4 v) c).2
      = Some c' /\
    CpuAppCtl.ctl_events c' = CpuAppCtl.ctl_events c ++ [Sleep (Z.max 5 (3960 ÷ v))] /\
    CpuAppCtl.target_tx_kbps c' = v /\
    CpuAppCtl.bytes_sent c' =
      (if err =? 0 then u32 (CpuAppCtl.bytes_sent c + 495) else CpuAppCtl.bytes_sent c).
Proof.
  intros Hv Hc Hn. rewrite on_control_write_le_bytes by lia. cbn [snd].
  unfold CpuAppCtl.stream_thread_step.
  cbn [CpuAppCtl.current_conn CpuAppCtl.notify_enabled]. rewrite Hc, Hn. cbn [andb].
  cbv zeta.
  destruct (err =? 0); cbn [CpuAppCtl.target_tx_kbps];
    rewrite (tx_delay_ms_paced v Hv); cbn [mbind option_bind];
    eexists; (split; [reflexivity|]);
    cbn [CpuAppCtl.ctl_events CpuAppCtl.ctl_emit CpuAppCtl.target_tx_kbps
         CpuAppCtl.bytes_sent];
    (split; [reflexivity|]); split; reflexivity.
Qed.

Lemma control_write_paces_stream_witness :
  exists c',
    CpuAppCtl.stream_thread_step 0 77
      (CpuAppCtl.on_control_write (le_bytes 4 1000)
         (CpuAppCtl.Ctl true 0 0 0 0 true 0 true [])).2 = Some c' /\
    CpuAppCtl.ctl_events c' =
      CpuAppCtl.ctl_events (CpuAppCtl.Ctl true 0 0 0 0 true 0 true [])
      ++ [Sleep (Z.max 5 (3960 ÷ 1000))] /\
    CpuAppCtl.target_tx_kbps c' = 1000 /\
    CpuAppCtl.bytes_sent c' =
      (if 0 =? 0 then u32 (CpuAppCtl.bytes_sent (CpuAppCtl.Ctl true 0 0 0 0 true 0 true []) + 495)
       else CpuAppCtl.bytes_sent (CpuAppCtl.Ctl true 0 0 0 0 true 0 true [])).
Proof.
  apply (control_write_paces_stream 1000 0 77 (CpuAppCtl.Ctl true 0 0 0 0 true 0 true []));
    [lia | reflexivity | reflexivity].
Defined.

(** X10. The BLE load estimate of [stats_thread] in closed form: as
    long as the two byte deltas do not wrap when added, it is 10 plus
    one point per 2000 bytes per second, capped at 100 (reached at
    180000 bytes per second). *)
Theorem arm_cpu_pct_closed_form sent_delta recv_delta :
  0 <= sent_delta + recv_delta < 2^32 ->
  CpuAppCtl.arm_cpu_pct sent_delta recv_delta
    = Z.min 100 (10 + (sent_delta + recv_delta) ÷ 2000).
Proof.
  intros H. unfold CpuAppCtl.arm_cpu_pct. cbv zeta.
  rewrite (u32_small (sent_delta + recv_delta)) by exact H.
  set (x := sent_delta + recv_delta) in *.
  rewrite (Z.quot_div_nonneg x 1000), (Z.quot_div_nonneg x 2000) by lia.
  assert (Hk : 0 <= x / 1000 < 4294968).
  { split; [apply Z.div_pos; lia|]. apply Z.div_lt_upper_bound; lia. }
  rewrite (u32_small (x / 1000 * 5)) by lia.
  rewrite (Z.quot_div_nonneg (x / 1000 * 5) 10) by lia.
  assert (Hq : x / 1000 * 5 / 10 = x / 2000).
  { replace (x / 1000 * 5) with (5 * (x / 1000)) by lia.
    change 10 with (5 * 2).
    rewrite Z.div_mul_cancel_l by lia.
    rewrite Z.div_div by lia. reflexivity. }
  rewrite Hq.
  assert (Hr : 0 <= x / 2000 < 2147484).
  { split; [apply Z.div_pos; lia|]. apply Z.div_lt_upper_bound; lia. }
  rewrite u32_small by lia.
  destruct (Z.gtb_spec (10 + x / 2000) 100); lia.
Qed.

Lemma arm_cpu_pct_closed_form_witness :
  CpuAppCtl.arm_cpu_pct 61875 0 = Z.min 100 (10 + (61875 + 0) ÷ 2000).
Proof. apply (arm_cpu_pct_closed_form 61875 0). lia. Defined.

(** ** Reporting core: workload commands *)

(** The command that [on_riscv_workload_write] builds for byte [b] *)
Lemma set_workload_stores b :
  (msg ← store (zeroed sizeof_ipc_message) off_type 1 IPC_MSG_SET_WORKLOAD;
   store msg off_workload 1 (Z_of_byte b))
  = Ok ([x02; byte_of_Z (Z_of_byte b); x00; x00] ++ replicate 20 x00).
Proof. reflexivity. Qed.

Lemma byte_of_Z_of_byte b : byte_of_Z (Z_of_byte b) = b.
Proof. destruct b; reflexivity. Qed.

Lemma on_riscv_workload_write_ready bound_in b c :
  CpuAppCtl.ipc_ready c = true ->
  CpuAppCtl.on_riscv_workload_write true bound_in [b] c =
  Ok (1, CpuAppCtl.ctl_emit (IpcSend (set_workload_envelope b)) c).
Proof.
  intros Hr. unfold CpuAppCtl.on_riscv_workload_write. cbv zeta.
  change (Z.of_nat (length [b]) =? 1) with true. cbv iota.
  rewrite load_byte0. cbn [mbind result_bind].
  rewrite Hr. cbn [negb]. rewrite Hr. cbn [negb].
  pose proof (set_workload_stores b) as Hs.
  destruct (store (zeroed sizeof_ipc_message) off_type 1 IPC_MSG_SET_WORKLOAD) as [msg|];
    cbn [mbind result_bind] in *; [|discriminate Hs].
  rewrite Hs. cbn [mbind result_bind]. rewrite byte_of_Z_of_byte. reflexivity.
Qed.

(** X11. A workload command crosses the cores intact: with the endpoint
    bound, a 1-byte write [b] to the workload characteristic sends
    exactly one 24-byte SetWorkload envelope, reports 1 byte written,
    and the compute core's receive callback on that envelope selects
    workload [b] and zeroes both accumulators - for every byte, also
    one that names no workload. *)
Theorem workload_write_reaches_compute_core bound_in b c m :
  CpuAppCtl.ipc_ready c = true ->
  exists msg,
    CpuAppCtl.on_riscv_workload_write true bound_in [b] c =
      Ok (1, CpuAppCtl.ctl_emit (IpcSend msg) c) /\
    length msg = sizeof_ipc_message /\
    ep_recv msg m =
      Ok (set_work_iterations 0 (set_total_work_cycles 0
            (set_current_workload (Z_of_byte b) m))).
Proof.
  intros Hr. exists (set_workload_envelope b).
  split; [apply on_riscv_workload_write_ready; exact Hr|].
  split; [reflexivity|].
  unfold set_workload_envelope. cbn [app]. rewrite ep_recv_eq.
  change (Z_of_byte x02 =? IPC_MSG_SET_WORKLOAD) with true. reflexivity.
Qed.

Lemma workload_write_reaches_compute_core_witness :
  exists msg,
    CpuAppCtl.on_riscv_workload_write true (fun _ => false) [x07]
        (CpuAppCtl.Ctl true 0 0 0 0 false 0 true []) =
      Ok (1, CpuAppCtl.ctl_emit (IpcSend msg) (CpuAppCtl.Ctl true 0 0 0 0 false 0 true [])) /\
    length msg = sizeof_ipc_message /\
    ep_recv msg boot =
      Ok (set_work_iterations 0 (set_total_work_cycles 0
            (set_current_workload (Z_of_byte x07) boot))).
Proof.
  apply (workload_write_reaches_compute_core (fun _ => false) x07
           (CpuAppCtl.Ctl true 0 0 0 0 false 0 true []) boot).
  reflexivity.
Defined.

(** The polling loop while the endpoint stays unbound *)
Lemma wait_ipc_ready_unbound bound_in fuel i c :
  CpuAppCtl.ipc_ready c = false ->
  (forall k, (i <= k < i + fuel)%nat -> bound_in k = false) ->
  CpuAppCtl.wait_ipc_ready bound_in i fuel c =
  CpuAppCtl.Ctl (CpuAppCtl.current_conn c) (CpuAppCtl.bytes_sent c)
    (CpuAppCtl.bytes_received c) (CpuAppCtl.total_cycles c) (CpuAppCtl.iterations c)
    (CpuAppCtl.notify_enabled c) (CpuAppCtl.target_tx_kbps c) false
    (CpuAppCtl.ctl_events c ++ replicate fuel (Sleep 100)).
Proof.
  revert i c. induction fuel as [|fuel IH]; intros i c Hr Hb.
  - cbn [CpuAppCtl.wait_ipc_ready replicate]. rewrite app_nil_r.
    destruct c; cbn in *; subst; reflexivity.
  - cbn [CpuAppCtl.wait_ipc_ready]. rewrite Hr. cbv zeta.
    rewrite (Hb i) by lia.
    rewrite IH; [| exact Hr | intros k Hk; apply Hb; lia].
    cbn [CpuAppCtl.ctl_emit CpuAppCtl.current_conn CpuAppCtl.bytes_sent
         CpuAppCtl.bytes_received CpuAppCtl.total_cycles CpuAppCtl.iterations
         CpuAppCtl.notify_enabled CpuAppCtl.target_tx_kbps CpuAppCtl.ctl_events].
    rewrite <- app_assoc. reflexivity.
Qed.

(** X12. A workload command written while the IPC endpoint is unbound
    is dropped after a bounded wait: if the endpoint is not bound
    during any of the 20 polls, the handler sleeps 20 times 100 ms,
    sends nothing, changes no variable, and still reports the byte as
    written. *)
Theorem workload_write_gives_up bound_in b c :
  CpuAppCtl.ipc_ready c = false ->
  (forall k, (k < 20)%nat -> bound_in k = false) ->
  CpuAppCtl.on_riscv_workload_write true bound_in [b] c =
  Ok (1, CpuAppCtl.Ctl (CpuAppCtl.current_conn c) (CpuAppCtl.bytes_sent c)
           (CpuAppCtl.bytes_received c) (CpuAppCtl.total_cycles c) (CpuAppCtl.iterations c)
           (CpuAppCtl.notify_enabled c) (CpuAppCtl.target_tx_kbps c) false
           (CpuAppCtl.ctl_events c ++ replicate 20 (Sleep 100))).
Proof.
  intros Hr Hb. unfold CpuAppCtl.on_riscv_workload_write. cbv zeta.
  change (Z.of_nat (length [b]) =? 1) with true. cbv iota.
  rewrite load_byte0. cbn [mbind result_bind].
  rewrite Hr. cbn [negb].
  rewrite (wait_ipc_ready_unbound bound_in 20 0 c Hr) by (intros k Hk; apply Hb; lia).
  reflexivity.
Qed.

Lemma workload_write_gives_up_witness :
  CpuAppCtl.on_riscv_workload_write true (fun _ => false) [x03]
    (CpuAppCtl.Ctl true 5 6 7 8 true 9 false []) =
  Ok (1, CpuAppCtl.Ctl true 5 6 7 8 true 9 false ([] ++ replicate 20 (Sleep 100))).
Proof.
  apply (workload_write_gives_up (fun _ => false) x03
           (CpuAppCtl.Ctl true 5 6 7 8 true 9 false [])).
  - reflexivity.
  - intros k _. reflexivity.
Defined.

(** The polling loop when the endpoint is bound during poll [j] *)
Lemma wait_ipc_ready_bound bound_in fuel i j c :
  CpuAppCtl.ipc_ready c = false ->
  (j < fuel)%nat ->
  (forall k, (i <= k < i + j)%nat -> bound_in k = false) ->
  bound_in (i + j)%nat = true ->
  CpuAppCtl.wait_ipc_ready bound_in i fuel c =
  CpuAppCtl.Ctl (CpuAppCtl.current_conn c) (CpuAppCtl.bytes_sent c)
    (CpuAppCtl.bytes_received c) (CpuAppCtl.total_cycles c) (CpuAppCtl.iterations c)
    (CpuAppCtl.notify_enabled c) (CpuAppCtl.target_tx_kbps c) true
    (CpuAppCtl.ctl_events c ++ replicate (S j) (Sleep 100)).
Proof.
  revert fuel i c. induction j as [|j IH]; intros fuel i c Hr Hj Hb Ht.
  - destruct fuel as [|fuel]; [lia|].
    cbn [CpuAppCtl.wait_ipc_ready]. rewrite Hr. cbv zeta.
    rewrite Nat.add_0_r in Ht. rewrite Ht.
    destruct fuel; reflexivity.
  - destruct fuel as [|fuel]; [lia|].
    cbn [CpuAppCtl.wait_ipc_ready]. rewrite Hr. cbv zeta.
    rewrite (Hb i) by lia.
    rewrite (IH fuel (S i)).
    + cbn [CpuAppCtl.ctl_emit CpuAppCtl.current_conn CpuAppCtl.bytes_sent
           CpuAppCtl.bytes_received CpuAppCtl.total_cycles CpuAppCtl.iterations
           CpuAppCtl.notify_enabled CpuAppCtl.target_tx_kbps CpuAppCtl.ctl_events].
      rewrite <- app_assoc. reflexivity.
    + exact Hr.
    + lia.
    + intros k Hk. apply Hb. lia.
    + replace (S i + j)%nat with (i + S j)%nat by lia. exact Ht.
Qed.

(** X13. A workload command written while the endpoint is unbound is
    delivered late but intact if the endpoint is bound during one of
    the 20 polls: bound during poll [j], the handler has slept [j + 1]
    times 100 ms and then sends the one SetWorkload envelope for the
    written byte. *)
Theorem workload_write_after_late_bind bound_in j b c :
  CpuAppCtl.ipc_ready c = false ->
  (j < 20)%nat ->
  (forall k, (k < j)%nat -> bound_in k = false) ->
  bound_in j = true ->
  CpuAppCtl.on_riscv_workload_write true bound_in [b] c =
  Ok (1, CpuAppCtl.Ctl (CpuAppCtl.current_conn c) (CpuAppCtl.bytes_sent c)
           (CpuAppCtl.bytes_received c) (CpuAppCtl.total_cycles c) (CpuAppCtl.iterations c)
           (CpuAppCtl.notify_enabled c) (CpuAppCtl.target_tx_kbps c) true
           (CpuAppCtl.ctl_events c ++ replicate (S j) (Sleep 100)
              ++ [IpcSend (set_workload_envelope b)])).
Proof.
  intros Hr Hj Hb Ht. unfold CpuAppCtl.on_riscv_workload_write. cbv zeta.
  change (Z.of_nat (length [b]) =? 1) with true. cbv iota.
  rewrite load_byte0. cbn [mbind result_bind].
  rewrite Hr. cbn [negb].
  rewrite (wait_ipc_ready_bound bound_in 20 0 j c Hr Hj)
    by first [exact Ht | intros k Hk; apply Hb; lia].
  cbn [CpuAppCtl.ipc_ready negb].
  pose proof (set_workload_stores b) as Hs.
  destruct (store (zeroed sizeof_ipc_message) off_type 1 IPC_MSG_SET_WORKLOAD) as [msg|];
    cbn [mbind result_bind] in *; [|discriminate Hs].
  rewrite Hs. cbn [mbind result_bind]. rewrite byte_of_Z_of_byte.
  unfold CpuAppCtl.ctl_emit.
  cbn [CpuAppCtl.current_conn CpuAppCtl.bytes_sent
       CpuAppCtl.bytes_received CpuAppCtl.total_cycles CpuAppCtl.iterations
       CpuAppCtl.notify_enabled CpuAppCtl.target_tx_kbps CpuAppCtl.ctl_events
       CpuAppCtl.ipc_ready].
  rewrite <- app_assoc. reflexivity.
Qed.

Lemma workload_write_after_late_bind_witness :
  CpuAppCtl.on_riscv_workload_write true (fun k => Nat.eqb k 2) [x06]
    (CpuAppCtl.Ctl true 0 0 0 0 false 0 false []) =
  Ok (1, CpuAppCtl.Ctl true 0 0 0 0 false 0 true
           ([] ++ replicate 3 (Sleep 100) ++ [IpcSend (set_workload_envelope x06)])).
Proof.
  apply (workload_write_after_late_bind (fun k => Nat.eqb k 2) 2 x06
           (CpuAppCtl.Ctl true 0 0 0 0 false 0 false [])).
  - reflexivity.
  - lia.
  - intros k Hk. destruct k as [|[|k]]; [reflexivity | reflexivity | lia].
  - reflexivity.
Defined.

(** ** The echo canceller's arrays *)

Lemma for_ind_idx {A : Type} (P : nat -> A -> Prop) lo hi (body : nat -> A -> A) s :
  (lo <= hi)%nat ->
  P lo s ->
  (forall i s, (lo <= i < hi)%nat -> P i s -> P (S i) (body i s)) ->
  P hi (for_ lo hi body s).
Proof.
  intros Hle Hs Hbody. unfold for_.
  replace hi with (lo + (hi - lo))%nat at 1 by lia.
  assert (Hb : forall i s, (lo <= i < lo + (hi - lo))%nat -> P i s -> P (S i) (body i s)).
  { intros i s' Hi. apply Hbody. lia. }
  clear Hbody Hle. revert Hs Hb. generalize (hi - lo)%nat as n.
  intros n. revert lo s. induction n as [|n IH]; intros lo s Hs Hb.
  - rewrite Nat.add_0_r. exact Hs.
  - cbn [seq foldl]. replace (lo + S n)%nat with (S lo + n)%nat by lia.
    apply IH.
    + apply Hb; [lia | exact Hs].
    + intros i s' Hi. apply Hb. lia.
Qed.

Lemma far_end_sample_range i wr :
  0 <= wrap16 (Z.land (u32 (Z.of_nat i * 29 + wr)) 0x7FF) <= 2047.
Proof.
  change (Z.land (u32 (Z.of_nat i * 29 + wr)) 0x7FF)
    with (Z.land (u32 (Z.of_nat i * 29 + wr)) (Z.ones 11)).
  rewrite Z.land_ones by lia.
  pose proof (Z.mod_pos_bound (u32 (Z.of_nat i * 29 + wr)) (2^11) ltac:(lia)) as H.
  unfold wrap16. rewrite Z.mod_small by lia. lia.
Qed.

Lemma far_end_fill_shape wr far :
  length far = AEC_FILTER_TAPS ->
  (forall k, (128 <= k < 256)%nat -> far !!! k = 0) ->
  Forall (fun x => 0 <= x <= 2047) far ->
  length (far_end_fill wr far) = AEC_FILTER_TAPS /\
  (forall k, (128 <= k < 256)%nat -> far_end_fill wr far !!! k = 0) /\
  Forall (fun x => 0 <= x <= 2047) (far_end_fill wr far).
Proof.
  intros Hl Hz Hf. unfold far_end_fill.
  apply (for_ind (fun far =>
    length far = AEC_FILTER_TAPS /\
    (forall k, (128 <= k < 256)%nat -> far !!! k = 0) /\
    Forall (fun x => 0 <= x <= 2047) far)).
  - split; [exact Hl|]. split; [exact Hz|exact Hf].
  - intros i s Hi (Hl' & Hz' & Hf').
    change (Nat.min FRAME_SIZE AEC_FILTER_TAPS) with 128%nat in Hi.
    split; [rewrite length_insert; exact Hl'|]. split.
    + intros k Hk. rewrite list_lookup_total_insert_ne by lia. apply Hz'. exact Hk.
    + apply Forall_insert; [exact Hf' | apply far_end_sample_range].
Qed.

Lemma aec_update_tap_upper far n uf k w :
  (k < 127)%nat ->
  (forall j, (127 <= j < 256)%nat -> w !!! j = 0) ->
  forall j, (127 <= j < 256)%nat -> aec_update_tap far n uf k w !!! j = 0.
Proof.
  intros Hk Hz j Hj. rewrite aec_update_tap_eq.
  rewrite list_lookup_total_insert_ne by lia. apply Hz. exact Hj.
Qed.

Lemma even_below_128 n : (n < 128)%nat -> (Z.of_nat n `rem` 2 =? 0) = true -> (n < 127)%nat.
Proof.
  intros Hn He. destruct (decide (n = 127%nat)) as [->|Hne]; [|lia].
  vm_compute in He. discriminate He.
Qed.

Lemma aec_frame_upper po far s :
  length s.1.1 = AEC_FILTER_TAPS ->
  (forall j, (127 <= j < 256)%nat -> s.1.1 !!! j = 0) ->
  length (aec_frame po far s).1.1 = AEC_FILTER_TAPS /\
  (forall j, (127 <= j < 256)%nat -> (aec_frame po far s).1.1 !!! j = 0).
Proof.
  intros Hl Hz. unfold aec_frame.
  apply (for_ind (fun s => length s.1.1 = AEC_FILTER_TAPS /\
                           (forall j, (127 <= j < 256)%nat -> s.1.1 !!! j = 0))).
  - split; assumption.
  - intros n [[w ee] es] Hn [Hl' Hz']. cbn [fst] in Hl', Hz'.
    change FRAME_SIZE with 128%nat in Hn.
    unfold aec_sample.
    destruct (Z.of_nat n `rem` 2 =? 0) eqn:He; cbn [fst]; [|split; assumption].
    apply even_below_128 in He; [|lia].
    unfold aec_adapt.
    apply (for_ind (fun w => length w = AEC_FILTER_TAPS /\
                             (forall j, (127 <= j < 256)%nat -> w !!! j = 0))).
    + split; assumption.
    + intros k w' Hk [Hl'' Hz'']. unfold aec_taps in Hk.
      split; [rewrite aec_update_tap_length; exact Hl''|].
      apply aec_update_tap_upper; [lia | exact Hz''].
Qed.

Lemma workload_audio_pipeline_aec_shape e m c m' :
  workload_audio_pipeline_aec e m = Ok (c, m') ->
  aec_shape (aec_filter m) (far_end_buffer m) ->
  aec_shape (aec_filter m') (far_end_buffer m').
Proof.
  rewrite workload_audio_pipeline_aec_eq. cbv zeta. intros Heq (Hlw & Hlf & Hzw & Hzf & Hf).
  apply Ok_pair_inj in Heq as [_ <-].
  destruct (far_end_fill_shape (work_result m) (far_end_buffer m) Hlf Hzf Hf)
    as (Hlf' & Hzf' & Hf').
  match goal with |- context [aec_frame ?po ?far ?s] =>
    destruct (aec_frame_upper po far s Hlw Hzw) as [Hlw' Hzw']
  end.
  destruct (fe_voice_detected _); [destruct (ipc0 e)|];
    cbn [aec_filter far_end_buffer set_work_result emit tick set_aec_filter
         set_far_end_buffer];
    (split; [exact Hlw'|]); (split; [exact Hlf'|]); (split; [exact Hzw'|]);
    split; [exact Hzf' | exact Hf' | exact Hzf' | exact Hf' | exact Hzf' | exact Hf'].
Qed.

Lemma step_aec_shape e l m m' :
  step e l m m' ->
  aec_shape (aec_filter m) (far_end_buffer m) ->
  aec_shape (aec_filter m') (far_end_buffer m').
Proof.
  intros Hstep Hs.
  destruct (decide (current_workload m = WORKLOAD_AUDIO_PIPELINE_AEC)) as [Heq|Hne].
  - destruct Hstep as [data m m' H | m m' H | l l' m m' H].
    + apply ep_recv_cases in H as [-> | [w ->]]; exact Hs.
    + apply workload_thread_step_inv in H as [[Hi _] | (_ & c & m1 & Hex & ->)].
      * exfalso. rewrite Heq in Hi. discriminate Hi.
      * cbn [aec_filter far_end_buffer set_work_iterations set_total_work_cycles].
        rewrite (execute_workload_aec _ _ Heq) in Hex.
        eapply workload_audio_pipeline_aec_shape; [exact Hex | exact Hs].
    + rewrite stats_thread_step_fault in H. discriminate H.
  - destruct (step_keeps_filter e l m m' Hstep) as [-> ->]; [|exact Hs].
    intros _. exact Hne.
Qed.

Lemma boot_aec_shape : aec_shape (aec_filter boot) (far_end_buffer boot).
Proof.
  cbn [aec_filter far_end_buffer boot].
  split; [apply length_replicate|]. split; [apply length_replicate|].
  split; [intros k Hk; apply lookup_total_replicate_2; unfold AEC_FILTER_TAPS; lia|].
  split; [intros k Hk; apply lookup_total_replicate_2; unfold AEC_FILTER_TAPS; lia|].
  apply Forall_replicate. lia.
Qed.

Lemma reachable_aec_shape e m :
  reachable e m -> aec_shape (aec_filter m) (far_end_buffer m).
Proof.
  unfold reachable. intros H.
  refine (rtc_ind_r (fun m => aec_shape (aec_filter m) (far_end_buffer m)) boot _ _ m H).
  - apply boot_aec_shape.
  - intros y z _ [l Hstep] IH. eapply step_aec_shape; [exact Hstep | exact IH].
Qed.

(** X15. Only part of the 256-tap filter is ever used: in every state
    the compute core reaches from reset both static arrays keep their
    256 cells, coefficients 127 to 255 are still 0 (adaptation runs on
    even samples of a 128-sample frame and visits taps [k <= n] only),
    reference cells 128 to 255 are still 0, and every reference sample
    is an 11-bit value. *)
Theorem aec_upper_taps_stay_zero e m :
  reachable e m ->
  length (aec_filter m) = 256%nat /\ length (far_end_buffer m) = 256%nat /\
  (forall k, (127 <= k < 256)%nat -> aec_filter m !!! k = 0) /\
  (forall k, (128 <= k < 256)%nat -> far_end_buffer m !!! k = 0) /\
  Forall (fun x => 0 <= x <= 2047) (far_end_buffer m).
Proof. intros H. exact (reachable_aec_shape e m H). Qed.

Lemma aec_upper_taps_stay_zero_witness :
  reachable env_quiet (state_of run_aec) /\
  length (aec_filter (state_of run_aec)) = 256%nat /\
  length (far_end_buffer (state_of run_aec)) = 256%nat /\
  (forall k, (127 <= k < 256)%nat -> aec_filter (state_of run_aec) !!! k = 0) /\
  (forall k, (128 <= k < 256)%nat -> far_end_buffer (state_of run_aec) !!! k = 0) /\
  Forall (fun x => 0 <= x <= 2047) (far_end_buffer (state_of run_aec)).
Proof.
  assert (H : reachable env_quiet (state_of run_aec)).
  { unfold reachable.
    apply (rtc_l _ _ (switched 7 boot)).
    { exists (Recv (set_workload_envelope x07)). constructor. vm_compute. reflexivity. }
    apply (rtc_l _ _ (state_of run_aec)); [|apply rtc_refl].
    exists Work. constructor. vm_compute. reflexivity. }
  split; [exact H|].
  apply (aec_upper_taps_stay_zero env_quiet _ H).
Defined.

Lemma lookup_total_range (l : list Z) i :
  Forall (fun x => 0 <= x <= 2047) l -> 0 <= l !!! i <= 2047.
Proof.
  intros H. destruct (decide (i < length l)%nat) as [Hi|Hi].
  - apply (Forall_lookup_total_1 _ _ _ H Hi).
  - rewrite list_lookup_total_alt, lookup_ge_None_2 by lia. cbn. lia.
Qed.

Lemma aec_power_range far n :
  Forall (fun x => 0 <= x <= 2047) far -> 1 <= aec_power far n <= 16369.
Proof.
  intros Hf. unfold aec_power. cbv zeta.
  match goal with |- context [for_ ?lo ?hi ?b ?s0] =>
    assert (H : 0 <= for_ lo hi b s0 <= 16368 * Z.of_nat hi)
  end.
  { apply (for_ind_idx (fun i p => 0 <= p <= 16368 * Z.of_nat i)); [lia | lia |].
    intros k p Hk Hp. unfold aec_taps, AEC_FILTER_TAPS in Hk.
    pose proof (lookup_total_range far (n - k) Hf) as Hv.
    set (val := far !!! (n - k)%nat) in *.
    assert (Hq : 0 <= (val * val) ÷ 256 <= 16368).
    { split; [apply Z.quot_pos; nia|].
      apply Z.lt_succ_r. apply Z.quot_lt_upper_bound; nia. }
    unfold add32, wrap32. rewrite Z.mod_small by lia. lia. }
  assert (Ht : (aec_taps n <= 256)%nat) by (unfold aec_taps, AEC_FILTER_TAPS; lia).
  match goal with |- context [for_ ?lo ?hi ?b ?s0] => set (power := for_ lo hi b s0) in * end.
  change (Z.of_nat AEC_FILTER_TAPS) with 256.
  assert (Hq : 0 <= power ÷ 256 <= 16368).
  { split; [apply Z.quot_pos; lia|]. apply Z.quot_le_upper_bound; lia. }
  unfold add32, wrap32. rewrite Z.mod_small by lia. lia.
Qed.

(** X16. The NLMS normaliser is never zero and never wraps: in every
    state the compute core reaches from reset, for the reference signal
    of the next AEC frame and every sample index, the value that
    [update_factor] is divided by lies between 1 and 16369. *)
Theorem aec_power_positive e m n :
  reachable e m ->
  1 <= aec_power (far_end_fill (work_result m) (far_end_buffer m)) n <= 16369.
Proof.
  intros H. destruct (reachable_aec_shape e m H) as (_ & Hl & _ & Hz & Hf).
  apply aec_power_range.
  apply (far_end_fill_shape (work_result m) (far_end_buffer m) Hl Hz Hf).
Qed.

Lemma aec_power_positive_witness :
  reachable env_quiet (state_of run_aec) /\
  1 <= aec_power (far_end_fill (work_result (state_of run_aec))
                    (far_end_buffer (state_of run_aec))) 126 <= 16369.
Proof.
  assert (H : reachable env_quiet (state_of run_aec)).
  { unfold reachable.
    apply (rtc_l _ _ (switched 7 boot)).
    { exists (Recv (set_workload_envelope x07)). constructor. vm_compute. reflexivity. }
    apply (rtc_l _ _ (state_of run_aec)); [|apply rtc_refl].
    exists Work. constructor. vm_compute. reflexivity. }
  split; [exact H|].
  apply (aec_power_positive env_quiet _ 126%nat H).
Defined.

(** ** Counters of the reporting core *)

Lemma cpuapp_ep_recv_counters data a a' :
  CpuApp.ep_recv data a = Ok a' ->
  0 <= CpuApp.audio_voice_detected a <= CpuApp.audio_frames_received a ->
  CpuApp.audio_frames_received a + 1 < 2^32 ->
  0 <= CpuApp.audio_voice_detected a' <= CpuApp.audio_frames_received a' /\
  CpuApp.audio_frames_received a' <= CpuApp.audio_frames_received a + 1.
Proof.
  intros H Hv Hf. unfold CpuApp.ep_recv in H.
  destruct (load data off_type 1) as [ty|]; [|discriminate H].
  cbn [mbind result_bind] in H.
  destruct (ty =? IPC_MSG_STATS).
  - destruct (load data (off_stats "mips") 4) as [x1|]; [|discriminate H].
    destruct (load data (off_stats "workload_type") 4) as [x2|]; [|discriminate H].
    destruct (load data (off_stats "cpu_pct") 4) as [x3|]; [|discriminate H].
    cbn [mbind result_bind] in H. injection H as <-.
    cbn [CpuApp.audio_voice_detected CpuApp.audio_frames_received]. lia.
  - destruct (ty =? IPC_MSG_AUDIO_DATA).
    + cbv zeta in H.
      destruct (load data (off_data 0) 4) as [d0|]; [|discriminate H].
      destruct (load data (off_data 1) 4) as [d1|]; [|discriminate H].
      destruct (load data (off_data 2) 4) as [en|]; [|discriminate H].
      destruct (load data (off_data 3) 4) as [zc|]; [|discriminate H].
      cbn [mbind result_bind] in H. injection H as <-.
      cbn [CpuApp.audio_voice_detected CpuApp.audio_frames_received].
      rewrite (u32_small (CpuApp.audio_frames_received a + 1)) by lia.
      destruct (en >? 1000); [rewrite u32_small by lia|]; lia.
    + injection H as <-. lia.
Qed.

(** X14. The reporting core never counts more voice frames than
    frames: starting from counters with [voice <= frames], after any
    sequence of received buffers that the callback accepts (the frame
    counter staying below 2^32) the order still holds, the frame
    counter has grown by at most one per buffer, and the percentage
    that [stats_thread] prints is at most 100 as long as [voice * 100]
    fits a [uint32_t]. *)
Theorem voice_never_exceeds_frames bufs a a' :
  0 <= CpuApp.audio_voice_detected a <= CpuApp.audio_frames_received a ->
  CpuApp.audio_frames_received a + Z.of_nat (length bufs) < 2^32 ->
  ep_recv_all bufs a = Ok a' ->
  0 <= CpuApp.audio_voice_detected a' <= CpuApp.audio_frames_received a' /\
  CpuApp.audio_frames_received a' <= CpuApp.audio_frames_received a + Z.of_nat (length bufs) /\
  (forall p, CpuAppCtl.voice_pct a' = Some p ->
             CpuApp.audio_voice_detected a' * 100 < 2^32 -> 0 <= p <= 100).
Proof.
  revert a. induction bufs as [|data bufs IH]; intros a Hv Hf H.
  - cbn [ep_recv_all] in H. injection H as <-.
    split; [exact Hv|]. split; [cbn [length]; lia|].
    intros p Hp Hs. unfold CpuAppCtl.voice_pct in Hp.
    destruct (Z.gtb_spec (CpuApp.audio_frames_received a) 0) as [Hpos|]; [|discriminate Hp].
    injection Hp as <-. rewrite u32_small by lia.
    split; [apply Z.quot_pos; lia|].
    apply Z.quot_le_upper_bound; lia.
  - cbn [ep_recv_all] in H. cbn [length] in Hf.
    destruct (CpuApp.ep_recv data a) as [a1|] eqn:E; [|discriminate H].
    cbn [mbind result_bind] in H.
    destruct (cpuapp_ep_recv_counters data a a1 E Hv ltac:(lia)) as [Hv1 Hf1].
    destruct (IH a1 Hv1 ltac:(lia) H) as (Hv' & Hf' & Hp').
    split; [exact Hv'|]. split; [cbn [length]; lia | exact Hp'].
Qed.

Lemma voice_never_exceeds_frames_witness :
  0 <= CpuApp.audio_voice_detected (CpuApp.App 0 0 0 1 1)
    <= CpuApp.audio_frames_received (CpuApp.App 0 0 0 1 1) /\
  CpuApp.audio_frames_received (CpuApp.App 0 0 0 1 1)
    <= CpuApp.audio_frames_received (CpuApp.App 0 0 0 0 0)
       + Z.of_nat (length [[x04; x00; x00; x00] ++ replicate 8 x00
                             ++ [xff; xff; x00; x00] ++ replicate 4 x00]) /\
  (forall p, CpuAppCtl.voice_pct (CpuApp.App 0 0 0 1 1) = Some p ->
             CpuApp.audio_voice_detected (CpuApp.App 0 0 0 1 1) * 100 < 2^32 ->
             0 <= p <= 100).
Proof.
  apply (voice_never_exceeds_frames
           [[x04; x00; x00; x00] ++ replicate 8 x00 ++ [xff; xff; x00; x00] ++ replicate 4 x00]
           (CpuApp.App 0 0 0 0 0) (CpuApp.App 0 0 0 1 1)).
  - cbn. lia.
  - cbn. lia.
  - vm_compute. reflexivity.
Defined.

(** ** What the basic kernels compute *)

Lemma matrix_mult_frame_eq e id : matrix_mult_frame e id = 0.
Proof. vm_compute. reflexivity. Qed.

Lemma sorting_frame_eq e id : sorting_frame e id = 13.
Proof. vm_compute. reflexivity. Qed.

Lemma fft_sim_frame_eq e id : fft_sim_frame e id = 0.
Proof. vm_compute. reflexivity. Qed.

Lemma crypto_sim_frame_eq e id : crypto_sim_frame e id = 21.
Proof. vm_compute. reflexivity. Qed.

(** X17. The four basic kernels initialise every cell they read, so
    what they leave in [work_result] depends neither on the stack, nor
    on the timer, nor on the state before: it is 0 after MatrixMult
    ([c[0][0]]), 13 after Sorting (the minimum), 0 after FftSim
    ([real[0]]) and 21 after CryptoSim ([state[0]]); no event is
    produced. *)
Theorem basic_kernels_results e m :
  1 <= current_workload m <= 4 ->
  exists c m',
    execute_workload e m = Ok (c, m') /\
    work_result m' =
      (if current_workload m =? WORKLOAD_MATRIX_MULT then 0
       else if current_workload m =? WORKLOAD_SORTING then 13
       else if current_workload m =? WORKLOAD_FFT_SIM then 0
       else 21) /\
    events m' = events m.
Proof.
  intros Hr. unfold execute_workload. cbv zeta.
  destruct (Z.eqb_spec (current_workload m) WORKLOAD_MATRIX_MULT).
  { rewrite workload_matrix_mult_eq. unfold timed. eexists _, _. split; [reflexivity|].
    cbn [work_result events set_work_result tick].
    split; [exact (matrix_mult_frame_eq e (clock_reads m)) | reflexivity]. }
  destruct (Z.eqb_spec (current_workload m) WORKLOAD_SORTING).
  { rewrite workload_sorting_eq. unfold timed. eexists _, _. split; [reflexivity|].
    cbn [work_result events set_work_result tick].
    split; [exact (sorting_frame_eq e (clock_reads m)) | reflexivity]. }
  destruct (Z.eqb_spec (current_workload m) WORKLOAD_FFT_SIM).
  { rewrite workload_fft_sim_eq. unfold timed. eexists _, _. split; [reflexivity|].
    cbn [work_result events set_work_result tick].
    split; [exact (fft_sim_frame_eq e (clock_reads m)) | reflexivity]. }
  destruct (Z.eqb_spec (current_workload m) WORKLOAD_CRYPTO_SIM).
  { rewrite workload_crypto_sim_eq. unfold timed. eexists _, _. split; [reflexivity|].
    cbn [work_result events set_work_result tick].
    split; [exact (crypto_sim_frame_eq e (clock_reads m)) | reflexivity]. }
  exfalso. unfold_workloads. lia.
Qed.

Lemma basic_kernels_results_witness :
  exists c m',
    execute_workload env_stale (switched 2 boot) = Ok (c, m') /\
    work_result m' =
      (if current_workload (switched 2 boot) =? WORKLOAD_MATRIX_MULT then 0
       else if current_workload (switched 2 boot) =? WORKLOAD_SORTING then 13
       else if current_workload (switched 2 boot) =? WORKLOAD_FFT_SIM then 0
       else 21) /\
    events m' = events (switched 2 boot).
Proof.
  apply (basic_kernels_results env_stale (switched 2 boot)).
  vm_compute. split; discriminate.
Defined.

Lemma u64_sum4 a b c d : u64 (u64 (u64 (u64 (0 + a) + b) + c) + d) = u64 (a + b + c + d).
Proof.
  rewrite u64_add_idemp.
  rewrite <- (Z.add_assoc (u64 (u64 (0 + a) + b)) c d), u64_add_idemp.
  rewrite <- (Z.add_assoc (u64 (0 + a)) b (c + d)), u64_add_idemp.
  f_equal. lia.
Qed.

(** X18. Mixed is the four basic kernels in a row: a dispatch reads the
    timer eight times, returns the sum (modulo 2^64) of the four
    differences of consecutive pairs of readings, ends with CryptoSim's
    21 in [work_result] and produces no event. *)
Theorem mixed_runs_four_kernels e m :
  current_workload m = WORKLOAD_MIXED ->
  exists c m',
    execute_workload e m = Ok (c, m') /\
    c = u64 (elapsed_sum e (clock_reads m) 4) /\
    clock_reads m' = (clock_reads m + 8)%nat /\
    work_result m' = 21 /\
    events m' = events m.
Proof.
  intros H5.
  pose proof (workload_mixed_eq e m) as Hx. cbv zeta in Hx.
  destruct Hx as (m' & E & Hk & _ & _ & _ & Hwr & Hev & _).
  eexists _, m'. split.
  - unfold execute_workload. cbv zeta. rewrite H5.
    unfold_workloads. decide_cases. exact E.
  - split.
    + rewrite u64_sum4. cbn [elapsed_sum Nat.add]. f_equal. lia.
    + split; [rewrite Hk; lia|]. split; [|exact Hev].
      rewrite Hwr. exact (crypto_sim_frame_eq e (6 + clock_reads m)).
Qed.

Lemma mixed_runs_four_kernels_witness :
  exists c m',
    execute_workload env_quiet (switched 5 boot) = Ok (c, m') /\
    c = u64 (elapsed_sum env_quiet (clock_reads (switched 5 boot)) 4) /\
    clock_reads m' = (clock_reads (switched 5 boot) + 8)%nat /\
    work_result m' = 21 /\
    events m' = events (switched 5 boot).
Proof.
  apply (mixed_runs_four_kernels env_quiet (switched 5 boot)). reflexivity.
Defined.

(** ** Telemetry estimates *)

(** X19. Below the first wrap-around the telemetry estimates are exact:
    for a cycle delta under 64424509500000 the MIPS figure is the delta
    divided by 1500000, and the utilisation is that figure times 100
    over 128, capped at 100. *)
Theorem estimates_exact_below_wrap cycle_delta :
  0 <= cycle_delta < 64424509500000 ->
  estimate_mips cycle_delta = cycle_delta ÷ 1500000 /\
  estimate_cpu_pct (estimate_mips cycle_delta)
    = Z.min 100 ((cycle_delta ÷ 1500000 * 100) ÷ 128).
Proof.
  intros H.
  assert (Hm : estimate_mips cycle_delta = cycle_delta ÷ 1500000).
  { unfold estimate_mips. cbv zeta. rewrite u64_small by lia.
    rewrite (Z.quot_div_nonneg (cycle_delta * 10) 15) by lia.
    rewrite (Z.quot_div_nonneg cycle_delta 1500000) by lia.
    rewrite (Z.quot_div_nonneg (cycle_delta * 10 / 15) 1000000)
      by first [lia | apply Z.div_pos; lia].
    rewrite Z.div_div by lia. change (15 * 1000000) with (10 * 1500000).
    rewrite (Z.mul_comm cycle_delta 10). rewrite Z.div_mul_cancel_l by lia.
    apply u32_small. split; [apply Z.div_pos; lia|].
    apply Z.div_lt_upper_bound; lia. }
  split; [exact Hm|]. rewrite Hm.
  assert (Hq : 0 <= cycle_delta ÷ 1500000 < 42949673).
  { rewrite Z.quot_div_nonneg by lia. split; [apply Z.div_pos; lia|].
    apply Z.div_lt_upper_bound; lia. }
  unfold estimate_cpu_pct, RISCV_FREQ_MHZ. cbv zeta.
  rewrite u32_small by lia.
  destruct (Z.gtb_spec ((cycle_delta ÷ 1500000 * 100) ÷ 128) 100); lia.
Qed.

Lemma estimates_exact_below_wrap_witness :
  estimate_mips 15000000 = 15000000 ÷ 1500000 /\
  estimate_cpu_pct (estimate_mips 15000000)
    = Z.min 100 ((15000000 ÷ 1500000 * 100) ÷ 128).
Proof. apply (estimates_exact_below_wrap 15000000). lia. Defined.

(** ** Uninitialised locals *)

(** X20. The output of the audio pipeline depends on memory it never
    wrote: [filtered_data[mic][0]] and [filtered_data[mic][1]] are read
    by the beamformer but not written by the pre-processing loop, which
    starts at index 2.  Two environments with the same timer and the
    same stack except for cells of [filtered_data] give, from the same
    state, one frame without voice that sends nothing and one with
    voice that sends an AudioData envelope. *)
Theorem audio_output_depends_on_stale_stack :
  exists e1 e2 m,
    uptime_us e1 = uptime_us e2 /\ ipc0 e1 = ipc0 e2 /\
    (forall id name i, name <> "filtered_data"%string ->
       stack e1 id name i = stack e2 id name i) /\
    current_workload m = WORKLOAD_AUDIO_PIPELINE /\
    exists c1 m1 c2 m2 msg,
      execute_workload e1 m = Ok (c1, m1) /\ events m1 = events m /\
      execute_workload e2 m = Ok (c2, m2) /\ events m2 = events m ++ [IpcSend msg].
Proof.
  exists env_quiet, env_stale, (state_of (run_chest_then x06)).
  split; [reflexivity|]. split; [reflexivity|]. split.
  { intros id name i Hn. cbn [stack env_quiet env_stale].
    destruct (String.eqb_spec name "filtered_data") as [Heq|_]; [|reflexivity].
    exfalso. apply Hn. exact Heq. }
  assert (Hw : current_workload (state_of (run_chest_then x06)) = WORKLOAD_AUDIO_PIPELINE)
    by (vm_compute; reflexivity).
  split; [exact Hw|].
  destruct (execute_workload_total env_quiet (state_of (run_chest_then x06)))
    as (c1 & m1 & E1 & _).
  destruct (execute_workload_total env_stale (state_of (run_chest_then x06)))
    as (c2 & m2 & E2 & _).
  pose proof (audio_frame_cases _ _ _ _ (or_introl Hw) E1) as H1.
  pose proof (audio_frame_cases _ _ _ _ (or_introl Hw) E2) as H2.
  cbv zeta in H1, H2.
  assert (V1 : fe_voice_detected
                 (audio_front_end env_quiet (clock_reads (state_of (run_chest_then x06)))
                    (work_result (state_of (run_chest_then x06)))) = false)
    by (vm_compute; reflexivity).
  assert (V2 : fe_voice_detected
                 (audio_front_end env_stale (clock_reads (state_of (run_chest_then x06)))
                    (work_result (state_of (run_chest_then x06)))) = true)
    by (vm_compute; reflexivity).
  rewrite V1 in H1. rewrite V2 in H2. cbn [andb ipc0 env_stale] in H1, H2.
  destruct H1 as [Hev1 _]. destruct H2 as (w0 & w1 & word4 & Hev2 & _).
  eexists c1, m1, c2, m2, _.
  split; [exact E1|]. split; [exact Hev1|]. split; [exact E2|]. exact Hev2.
Qed.

(** ** The noise canceller's static filter *)

Lemma noise_update_tap_eq noise_estimate n error k w :
  noise_update_tap noise_estimate n error k w =
  <[k := let v := wrap16 (add32 (w !!! k)
                    (mul32 (mul32 8 error) (noise_estimate !!! (n - k)%nat)
                     ÷ (Z.of_nat FRAME_SIZE * 256))) in
         if v >? 2048 then 2048 else if v <? -2048 then -2048 else v]> w.
Proof.
  unfold noise_update_tap. cbv zeta.
  set (v := wrap16 _).
  destruct (decide (k < length w)%nat) as [Hk|Hk].
  - rewrite list_lookup_total_insert_eq by exact Hk.
    destruct (Z.gtb_spec v 2048).
    + rewrite list_insert_insert_eq.
      rewrite list_lookup_total_insert_eq by exact Hk. reflexivity.
    + rewrite list_lookup_total_insert_eq by exact Hk.
      destruct (Z.ltb_spec v (-2048)); [|reflexivity].
      rewrite list_insert_insert_eq. reflexivity.
  - rewrite !(list_insert_ge w) by lia.
    repeat case_match; rewrite ?(list_insert_ge w) by lia; reflexivity.
Qed.

Lemma noise_update_tap_bounded noise_estimate n error k w :
  length w = 32%nat /\ Forall (fun c => -2048 <= c <= 2048) w ->
  length (noise_update_tap noise_estimate n error k w) = 32%nat /\
  Forall (fun c => -2048 <= c <= 2048) (noise_update_tap noise_estimate n error k w).
Proof.
  intros [Hl Hf]. rewrite noise_update_tap_eq. cbv zeta.
  split; [rewrite length_insert; exact Hl|].
  apply Forall_insert; [exact Hf|].
  destruct (Z.gtb_spec (wrap16 (add32 (w !!! k)
              (mul32 (mul32 8 error) (noise_estimate !!! (n - k)%nat)
               ÷ (Z.of_nat FRAME_SIZE * 256)))) 2048); [lia|].
  destruct (Z.ltb_spec (wrap16 (add32 (w !!! k)
              (mul32 (mul32 8 error) (noise_estimate !!! (n - k)%nat)
               ÷ (Z.of_nat FRAME_SIZE * 256)))) (-2048)); lia.
Qed.

Lemma spatial_noise_cancel_frame_bounded e id wr nf0 :
  length nf0 = 32%nat /\ Forall (fun c => -2048 <= c <= 2048) nf0 ->
  length (spatial_noise_cancel_frame e id wr nf0).2 = 32%nat /\
  Forall (fun c => -2048 <= c <= 2048) (spatial_noise_cancel_frame e id wr nf0).2.
Proof.
  intros H. unfold spatial_noise_cancel_frame. cbv zeta.
  match goal with |- context [for_ 32 FRAME_SIZE ?b ?s0] =>
    assert (Hnf : length (for_ 32 FRAME_SIZE b s0).2 = 32%nat /\
                  Forall (fun c => -2048 <= c <= 2048) (for_ 32 FRAME_SIZE b s0).2);
    [apply (for_ind (fun x => length x.2 = 32%nat /\
                              Forall (fun c => -2048 <= c <= 2048) x.2))
    | destruct (for_ 32 FRAME_SIZE b s0) as [co nf]]
  end.
  - exact H.
  - intros n [co nf] _ Hx. cbn [snd] in *.
    apply (for_ind (fun x => length x = 32%nat /\
                             Forall (fun c => -2048 <= c <= 2048) x)); [exact Hx|].
    intros k w _ Hw. apply noise_update_tap_bounded. exact Hw.
  - cbn [snd] in Hnf.
    match goal with |- context [for_ 0 FRAME_SIZE ?b ?s0] =>
      destruct (for_ 0 FRAME_SIZE b s0) as [oe ne]
    end.
    exact Hnf.
Qed.

(** Every dispatch but SpatialNoiseCancel leaves the noise filter alone. *)
Lemma execute_workload_keeps_noise_filter e m c m' :
  execute_workload e m = Ok (c, m') ->
  current_workload m <> WORKLOAD_SPATIAL_NOISE_CANCEL ->
  noise_filter m' = noise_filter m.
Proof.
  intros H Hne. unfold execute_workload in H. cbv zeta in H.
  destruct (_ =? WORKLOAD_MATRIX_MULT);
    [rewrite workload_matrix_mult_eq in H; apply Ok_pair_inj in H as [_ <-]; reflexivity|].
  destruct (_ =? WORKLOAD_SORTING);
    [rewrite workload_sorting_eq in H; apply Ok_pair_inj in H as [_ <-]; reflexivity|].
  destruct (_ =? WORKLOAD_FFT_SIM);
    [rewrite workload_fft_sim_eq in H; apply Ok_pair_inj in H as [_ <-]; reflexivity|].
  destruct (_ =? WORKLOAD_CRYPTO_SIM);
    [rewrite workload_crypto_sim_eq in H; apply Ok_pair_inj in H as [_ <-]; reflexivity|].
  destruct (_ =? WORKLOAD_MIXED).
  { pose proof (workload_mixed_eq e m) as Hx. cbv zeta in Hx.
    destruct Hx as (m0 & E & _ & _ & _ & _ & _ & _ & Hnf).
    rewrite E in H. apply Ok_pair_inj in H as [_ <-]. exact Hnf. }
  destruct (_ =? WORKLOAD_AUDIO_PIPELINE).
  { rewrite workload_audio_pipeline_eq in H. cbv zeta in H.
    apply Ok_pair_inj in H as [_ <-].
    destruct (fe_voice_detected _); [destruct (ipc0 e)|]; reflexivity. }
  destruct (_ =? WORKLOAD_AUDIO_PIPELINE_AEC).
  { rewrite workload_audio_pipeline_aec_eq in H. cbv zeta in H.
    apply Ok_pair_inj in H as [_ <-].
    destruct (fe_voice_detected _); [destruct (ipc0 e)|]; reflexivity. }
  destruct (_ =? WORKLOAD_PROXIMITY_VAD);
    [rewrite workload_proximity_vad_eq in H; apply Ok_pair_inj in H as [_ <-]; reflexivity|].
  destruct (_ =? WORKLOAD_CHEST_RESONANCE);
    [rewrite workload_chest_resonance_eq in H; apply Ok_pair_inj in H as [_ <-]; reflexivity|].
  destruct (_ =? WORKLOAD_CLOTHING_RUSTLE);
    [rewrite workload_clothing_rustle_eq in H; apply Ok_pair_inj in H as [_ <-]; reflexivity|].
  destruct (Z.eqb_spec (current_workload m) WORKLOAD_SPATIAL_NOISE_CANCEL);
    [exfalso; apply Hne; assumption|].
  destruct (_ =? WORKLOAD_WIND_NOISE_REDUCTION);
    [rewrite workload_wind_noise_reduction_eq in H; apply Ok_pair_inj in H as [_ <-];
     reflexivity|].
  destruct (_ =? WORKLOAD_NECKLACE_FULL);
    [rewrite workload_necklace_full_eq in H; apply Ok_pair_inj in H as [_ <-]; reflexivity|].
  apply Ok_pair_inj in H as [_ <-]. reflexivity.
Qed.

Lemma execute_workload_spatial e m :
  current_workload m = WORKLOAD_SPATIAL_NOISE_CANCEL ->
  execute_workload e m = workload_spatial_noise_cancel e m.
Proof.
  intros H. unfold execute_workload. cbv zeta. rewrite H.
  unfold_workloads. decide_cases. reflexivity.
Qed.

Lemma step_keeps_noise_bound e l m m' :
  step e l m m' ->
  length (noise_filter m) = 32%nat /\ Forall (fun c => -2048 <= c <= 2048) (noise_filter m) ->
  length (noise_filter m') = 32%nat /\ Forall (fun c => -2048 <= c <= 2048) (noise_filter m').
Proof.
  intros Hstep Hb. destruct Hstep as [data m m' H | m m' H | l l' m m' H].
  - apply ep_recv_cases in H as [-> | [w ->]]; exact Hb.
  - apply workload_thread_step_inv in H as [[_ ->] | (_ & c & m1 & Hex & ->)];
      [exact Hb|].
    cbn [noise_filter set_work_iterations set_total_work_cycles].
    destruct (decide (current_workload m = WORKLOAD_SPATIAL_NOISE_CANCEL)) as [Heq|Hne].
    + rewrite (execute_workload_spatial _ _ Heq) in Hex.
      rewrite workload_spatial_noise_cancel_eq in Hex. cbv zeta in Hex.
      apply Ok_pair_inj in Hex as [_ <-].
      cbn [noise_filter set_work_result set_noise_filter tick].
      apply spatial_noise_cancel_frame_bounded. exact Hb.
    + rewrite (execute_workload_keeps_noise_filter _ _ _ _ Hex Hne). exact Hb.
  - rewrite stats_thread_step_fault in H. discriminate H.
Qed.

(** X21. The 32 coefficients of the spatial noise canceller stay
    within their limits: in every state the compute core reaches from
    reset, by any interleaving of received buffers and workload turns,
    [noise_filter] has its 32 cells and each lies in [-2048, 2048]; only
    a SpatialNoiseCancel frame writes to it, and no workload switch
    resets it. *)
Theorem noise_filter_bounded e m :
  reachable e m ->
  length (noise_filter m) = 32%nat /\
  Forall (fun c => -2048 <= c <= 2048) (noise_filter m).
Proof.
  unfold reachable. intros H.
  refine (rtc_ind_r (fun m => length (noise_filter m) = 32%nat /\
                              Forall (fun c => -2048 <= c <= 2048) (noise_filter m))
            boot _ _ m H).
  - split; [reflexivity|]. apply Forall_replicate. lia.
  - intros y z _ [l Hstep] IH. eapply step_keeps_noise_bound; [exact Hstep | exact IH].
Qed.

Lemma noise_filter_bounded_witness :
  reachable env_quiet (state_of run_spatial) /\
  length (noise_filter (state_of run_spatial)) = 32%nat /\
  Forall (fun c => -2048 <= c <= 2048) (noise_filter (state_of run_spatial)).
Proof.
  assert (H : reachable env_quiet (state_of run_spatial)).
  { unfold reachable.
    apply (rtc_l _ _ (switched 11 boot)).
    { exists (Recv (set_workload_envelope x0b)). constructor. vm_compute. reflexivity. }
    apply (rtc_l _ _ (state_of run_spatial)); [|apply rtc_refl].
    exists Work. constructor. vm_compute. reflexivity. }
  split; [exact H|].
  apply (noise_filter_bounded env_quiet _ H).
Defined.

(** ** Simulated microphone data *)

Lemma uninit_2d_shape conv e id name rows cols :
  length (uninit_2d conv e id name rows cols) = rows /\
  forall r, (r < rows)%nat -> length (uninit_2d conv e id name rows cols !!! r) = cols.
Proof.
  unfold uninit_2d. split.
  - rewrite length_fmap, length_seq. reflexivity.
  - intros r Hr.
    rewrite (list_lookup_total_fmap (A:=nat) _ (seq 0 rows) r)
      by (rewrite length_seq; exact Hr).
    rewrite length_fmap, length_seq. reflexivity.
Qed.

Lemma set2_length a r i v : length (set2 a r i v) = length a.
Proof. unfold set2. apply length_insert. Qed.

Lemma set2_row_length a r i v r' :
  (r < length a)%nat -> length (set2 a r i v !!! r') = length (a !!! r').
Proof.
  intros Hr. unfold set2. destruct (decide (r = r')) as [<-|Hne].
  - rewrite list_lookup_total_insert_eq by exact Hr. apply length_insert.
  - rewrite list_lookup_total_insert_ne by exact Hne. reflexivity.
Qed.

Lemma get2_set2_same a r i v :
  (r < length a)%nat -> (i < length (a !!! r))%nat -> get2 (set2 a r i v) r i = v.
Proof.
  intros Hr Hi. unfold get2, set2.
  rewrite list_lookup_total_insert_eq by exact Hr.
  apply list_lookup_total_insert_eq. exact Hi.
Qed.

Lemma get2_set2_other a r i v r' i' :
  (r < length a)%nat -> (r, i) <> (r', i') ->
  get2 (set2 a r i v) r' i' = get2 a r' i'.
Proof.
  intros Hr Hne. unfold get2, set2. destruct (decide (r = r')) as [<-|Hr'].
  - rewrite list_lookup_total_insert_eq by exact Hr.
    apply list_lookup_total_insert_ne. intros ->. apply Hne. reflexivity.
  - rewrite list_lookup_total_insert_ne by exact Hr'. reflexivity.
Qed.

(** After the ADC loops every cell holds its simulated sample. *)
Lemma adc_spec c wr md :
  length md = NUM_MICS ->
  (forall r, (r < NUM_MICS)%nat -> length (md !!! r) = FRAME_SIZE) ->
  forall mic i, (mic < NUM_MICS)%nat -> (i < FRAME_SIZE)%nat ->
    get2 (adc c wr md) mic i = adc_sample c 0xFFF wr mic i.
Proof.
  intros Hl Hrows.
  assert (H : length (adc c wr md) = NUM_MICS /\
              (forall r, (r < NUM_MICS)%nat -> length (adc c wr md !!! r) = FRAME_SIZE) /\
              forall r j, (r < NUM_MICS)%nat -> (j < FRAME_SIZE)%nat ->
                get2 (adc c wr md) r j = adc_sample c 0xFFF wr r j).
  { unfold adc.
    apply (for_ind_idx (fun mic a =>
      length a = NUM_MICS /\
      (forall r, (r < NUM_MICS)%nat -> length (a !!! r) = FRAME_SIZE) /\
      forall r j, (r < mic)%nat -> (j < FRAME_SIZE)%nat ->
        get2 a r j = adc_sample c 0xFFF wr r j)).
    - unfold NUM_MICS. lia.
    - split; [exact Hl|]. split; [exact Hrows|]. intros r j Hr. lia.
    - intros mic a Hmic (Hla & Hra & Hca).
      assert (Hin : length (for_ 0 FRAME_SIZE
                (fun i md0 => set2 md0 mic i (adc_sample c 0xFFF wr mic i)) a) = NUM_MICS /\
              (forall r, (r < NUM_MICS)%nat ->
                 length (for_ 0 FRAME_SIZE
                   (fun i md0 => set2 md0 mic i (adc_sample c 0xFFF wr mic i)) a !!! r)
                 = FRAME_SIZE) /\
              (forall r j, (r < mic)%nat -> (j < FRAME_SIZE)%nat ->
                 get2 (for_ 0 FRAME_SIZE
                   (fun i md0 => set2 md0 mic i (adc_sample c 0xFFF wr mic i)) a) r j
                 = adc_sample c 0xFFF wr r j) /\
              (forall j, (j < FRAME_SIZE)%nat ->
                 get2 (for_ 0 FRAME_SIZE
                   (fun i md0 => set2 md0 mic i (adc_sample c 0xFFF wr mic i)) a) mic j
                 = adc_sample c 0xFFF wr mic j)).
      { apply (for_ind_idx (fun i b =>
          length b = NUM_MICS /\
          (forall r, (r < NUM_MICS)%nat -> length (b !!! r) = FRAME_SIZE) /\
          (forall r j, (r < mic)%nat -> (j < FRAME_SIZE)%nat ->
             get2 b r j = adc_sample c 0xFFF wr r j) /\
          (forall j, (j < i)%nat -> get2 b mic j = adc_sample c 0xFFF wr mic j))).
        - lia.
        - split; [exact Hla|]. split; [exact Hra|]. split; [exact Hca|]. intros j Hj. lia.
        - intros i b Hi (Hlb & Hrb & Hcb & Hdb).
          split; [rewrite set2_length; exact Hlb|].
          split; [intros r Hr; rewrite set2_row_length by lia; apply Hrb; exact Hr|].
          split.
          + intros r j Hr Hj. rewrite get2_set2_other; [apply Hcb; assumption | lia |].
            intros [= -> _]. lia.
          + intros j Hj. destruct (decide (j = i)) as [->|Hne].
            * apply get2_set2_same; [lia|]. rewrite Hrb by lia. lia.
            * rewrite get2_set2_other; [apply Hdb; lia | lia |].
              intros [= ->]. apply Hne. reflexivity. }
      destruct Hin as (H1 & H2 & H3 & H4).
      split; [exact H1|]. split; [exact H2|].
      intros r j Hr Hj. destruct (decide (r = mic)) as [->|Hne].
      + apply H4. exact Hj.
      + apply H3; [lia | exact Hj]. }
  intros mic i Hmic Hi. apply H; assumption.
Qed.

Lemma adc_sample_range c wr mic i : 0 <= adc_sample c 0xFFF wr mic i <= 4095.
Proof.
  unfold adc_sample.
  change (Z.land (u32 (Z.of_nat i * (Z.of_nat mic + 1) * c + wr)) 0xFFF)
    with (Z.land (u32 (Z.of_nat i * (Z.of_nat mic + 1) * c + wr)) (Z.ones 12)).
  rewrite Z.land_ones by lia.
  pose proof (Z.mod_pos_bound (u32 (Z.of_nat i * (Z.of_nat mic + 1) * c + wr)) (2^12)
                ltac:(lia)) as H.
  unfold wrap16. rewrite Z.mod_small by lia. lia.
Qed.

(** Samples of the simulated ADC are 12-bit values, never negative. *)
Lemma adc_range c wr e id mic i :
  (mic < NUM_MICS)%nat -> (i < FRAME_SIZE)%nat ->
  0 <= get2 (adc c wr (uninit_2d wrap16 e id "mic_data" NUM_MICS FRAME_SIZE)) mic i <= 4095.
Proof.
  intros Hmic Hi.
  destruct (uninit_2d_shape wrap16 e id "mic_data" NUM_MICS FRAME_SIZE) as [Hl Hr].
  rewrite (adc_spec c wr _ Hl Hr mic i Hmic Hi). apply adc_sample_range.
Qed.

Lemma sample_square_range s : 0 <= s <= 4095 -> 0 <= (s * s) ÷ 256 < 2^16.
Proof.
  intros H. split; [apply Z.quot_pos; nia|]. apply Z.quot_lt_upper_bound; nia.
Qed.

Lemma add32_small a b : - 2^31 <= a + b < 2^31 -> add32 a b = a + b.
Proof. intros H. unfold add32, wrap32. rewrite Z.mod_small by lia. lia. Qed.

(** ** The proximity detector *)

Lemma crosses_zero_nonneg (x : list Z) i :
  0 <= x !!! i -> 0 <= x !!! (i - 1)%nat -> crosses_zero x i = false.
Proof.
  intros H1 H2. unfold crosses_zero.
  destruct (Z.ltb_spec (x !!! (i - 1)%nat) 0); [lia|].
  destruct (Z.ltb_spec (x !!! i) 0); [lia|].
  rewrite andb_false_r. reflexivity.
Qed.

(** One sample of the band-energy loop on a row of non-negative
    samples: no zero crossing is counted *)
Lemma proximity_band_step (row : list Z) (i : nat) (x : Z * Z * Z) :
  (1 <= i < 128)%nat ->
  0 <= row !!! i <= 4095 -> 0 <= row !!! (i - 1)%nat ->
  x.1.1 = 0 /\ 0 <= x.2 <= 2^16 * Z.of_nat i ->
  (let '(zc, lo, hi) := x in
   let zc := if crosses_zero row i then add32 zc 1 else zc in
   let sq := (row !!! i * row !!! i) ÷ 256 in
   if decide (i < FRAME_SIZE / 4)%nat
   then (zc, add32 lo sq, hi)
   else (zc, lo, add32 hi sq)).1.1 = 0 /\
  0 <= (let '(zc, lo, hi) := x in
   let zc := if crosses_zero row i then add32 zc 1 else zc in
   let sq := (row !!! i * row !!! i) ÷ 256 in
   if decide (i < FRAME_SIZE / 4)%nat
   then (zc, add32 lo sq, hi)
   else (zc, lo, add32 hi sq)).2 <= 2^16 * Z.of_nat (S i).
Proof.
  intros Hi H1 H2 Hx. destruct x as [[zc lo] hi]. cbn [fst snd] in Hx.
  destruct Hx as [-> Hh]. cbv zeta.
  rewrite (crosses_zero_nonneg row i) by lia.
  pose proof (sample_square_range _ H1) as Hs.
  destruct (decide (i < FRAME_SIZE / 4)%nat); cbn [fst snd].
  - split; [reflexivity|]. lia.
  - split; [reflexivity|]. rewrite add32_small by lia. lia.
Qed.

(** The band-energy loop of one microphone *)
Lemma proximity_band_loop (row : list Z) :
  (forall i, (i < 128)%nat -> 0 <= row !!! i <= 4095) ->
  (for_ 1 FRAME_SIZE (fun i '(zc, lo, hi) =>
     let zc := if crosses_zero row i then add32 zc 1 else zc in
     let sq := (row !!! i * row !!! i) ÷ 256 in
     if decide (i < FRAME_SIZE / 4)%nat
     then (zc, add32 lo sq, hi)
     else (zc, lo, add32 hi sq)) (0, 0, 0)).1.1 = 0 /\
  0 <= (for_ 1 FRAME_SIZE (fun i '(zc, lo, hi) =>
     let zc := if crosses_zero row i then add32 zc 1 else zc in
     let sq := (row !!! i * row !!! i) ÷ 256 in
     if decide (i < FRAME_SIZE / 4)%nat
     then (zc, add32 lo sq, hi)
     else (zc, lo, add32 hi sq)) (0, 0, 0)).2 <= 2^23.
Proof.
  intros Hrow.
  change (2^23) with (2^16 * Z.of_nat FRAME_SIZE).
  apply (for_ind_idx (fun i (x : Z * Z * Z) => x.1.1 = 0 /\ 0 <= x.2 <= 2^16 * Z.of_nat i)).
  - unfold FRAME_SIZE. lia.
  - cbn [fst snd]. lia.
  - intros i x Hi Hx. unfold FRAME_SIZE in Hi.
    apply (proximity_band_step row i x); [lia | apply Hrow; lia | apply Hrow; lia | exact Hx].
Qed.

(** One microphone of the voice/noise band split *)
Lemma proximity_band_mic (row : list Z) (mic : nat) (x : Z * Z) :
  (forall i, (i < 128)%nat -> 0 <= row !!! i <= 4095) ->
  (mic < 3)%nat ->
  x.1 = 0 /\ 0 <= x.2 <= 2^23 * Z.of_nat mic ->
  (let '(voice_band_energy, noise_band_energy) := x in
   let '(zero_crossings, low_freq_energy, high_freq_energy) :=
     for_ 1 FRAME_SIZE (fun i '(zc, lo, hi) =>
       let zc := if crosses_zero row i then add32 zc 1 else zc in
       let sq := (row !!! i * row !!! i) ÷ 256 in
       if decide (i < FRAME_SIZE / 4)%nat
       then (zc, add32 lo sq, hi)
       else (zc, lo, add32 hi sq)) (0, 0, 0) in
   if (zero_crossings >=? 10) && (zero_crossings <=? 30)
   then (add32 voice_band_energy low_freq_energy, noise_band_energy)
   else (voice_band_energy, add32 noise_band_energy high_freq_energy)).1 = 0 /\
  0 <= (let '(voice_band_energy, noise_band_energy) := x in
   let '(zero_crossings, low_freq_energy, high_freq_energy) :=
     for_ 1 FRAME_SIZE (fun i '(zc, lo, hi) =>
       let zc := if crosses_zero row i then add32 zc 1 else zc in
       let sq := (row !!! i * row !!! i) ÷ 256 in
       if decide (i < FRAME_SIZE / 4)%nat
       then (zc, add32 lo sq, hi)
       else (zc, lo, add32 hi sq)) (0, 0, 0) in
   if (zero_crossings >=? 10) && (zero_crossings <=? 30)
   then (add32 voice_band_energy low_freq_energy, noise_band_energy)
   else (voice_band_energy, add32 noise_band_energy high_freq_energy)).2
    <= 2^23 * Z.of_nat (S mic).
Proof.
  intros Hrow Hmic Hx. destruct x as [vb nb]. cbn [fst snd] in Hx. destruct Hx as [-> Hn].
  pose proof (proximity_band_loop row Hrow) as Hl.
  destruct (for_ 1 FRAME_SIZE _ (0, 0, 0)) as [[zc lo] hi].
  cbn [fst snd] in Hl. destruct Hl as [-> Hh].
  change ((0 >=? 10) && (0 <=? 30)) with false. cbv iota. cbn [fst snd].
  split; [reflexivity|]. rewrite add32_small by lia. lia.
Qed.

Lemma proximity_vad_frame_eq e id wr : proximity_vad_frame e id wr = 0.
Proof.
  unfold proximity_vad_frame. cbv zeta.
  assert (Hmd : forall mic i, (mic < NUM_MICS)%nat -> (i < FRAME_SIZE)%nat ->
            0 <= get2 (adc 37 wr (uninit_2d wrap16 e id "mic_data" NUM_MICS FRAME_SIZE))
                   mic i <= 4095)
    by (intros mic i; apply adc_range).
  revert Hmd.
  generalize (adc 37 wr (uninit_2d wrap16 e id "mic_data" NUM_MICS FRAME_SIZE)).
  intros mic_data Hmd.
  destruct (energy_spread _) as [energy_avg energy_diff].
  match goal with |- context [for_ 0 NUM_MICS ?b (0, 0)] =>
    assert (Hb : (for_ 0 NUM_MICS b (0, 0)).1 = 0 /\
                 0 <= (for_ 0 NUM_MICS b (0, 0)).2 <= 2^23 * Z.of_nat NUM_MICS);
    [ apply (for_ind_idx (fun mic (x : Z * Z) =>
                            x.1 = 0 /\ 0 <= x.2 <= 2^23 * Z.of_nat mic))
    | destruct (for_ 0 NUM_MICS b (0, 0)) as [voice_band_energy noise_band_energy] ]
  end.
  - unfold NUM_MICS. lia.
  - cbn [fst snd]. lia.
  - intros mic x Hmic Hx. unfold NUM_MICS in Hmic.
    apply (proximity_band_mic (mic_data !!! mic) mic x); [|lia|exact Hx].
    intros i Hi. apply (Hmd mic i); [unfold NUM_MICS; lia | unfold FRAME_SIZE; lia].
  - cbn [fst snd] in Hb. destruct Hb as [-> Hn].
    change (Z.of_nat NUM_MICS) with 3 in Hn.
    assert (Hm : mul32 noise_band_energy 2 = noise_band_energy * 2).
    { unfold mul32, wrap32. rewrite Z.mod_small by lia. lia. }
    rewrite Hm.
    destruct (Z.gtb_spec 0 (noise_band_energy * 2)); [lia|].
    rewrite andb_false_r. reflexivity.
Qed.

Lemma execute_workload_proximity e m :
  current_workload m = WORKLOAD_PROXIMITY_VAD ->
  execute_workload e m = workload_proximity_vad e m.
Proof.
  intros H. unfold execute_workload. cbv zeta. rewrite H.
  unfold_workloads. decide_cases. reflexivity.
Qed.

(** X22. The proximity detector never fires.  The simulated samples are
    12-bit and never negative, so the zero-crossing count of every
    microphone is 0, no microphone passes the 10-to-30 test, the voice
    band energy stays 0 and cannot exceed twice the noise band energy:
    a ProximityVad frame leaves 0 in [work_result] for every state,
    stack and timer, and produces no event. *)
Theorem proximity_vad_never_detects e m :
  current_workload m = WORKLOAD_PROXIMITY_VAD ->
  exists c m',
    execute_workload e m = Ok (c, m') /\ work_result m' = 0 /\ events m' = events m.
Proof.
  intros H. rewrite (execute_workload_proximity e m H), workload_proximity_vad_eq.
  unfold timed. eexists _, _. split; [reflexivity|].
  cbn [work_result events set_work_result tick].
  split; [exact (proximity_vad_frame_eq e (clock_reads m) (work_result m)) | reflexivity].
Qed.

Lemma proximity_vad_never_detects_witness :
  exists c m',
    execute_workload env_stale (switched 8 boot) = Ok (c, m') /\
    work_result m' = 0 /\ events m' = events (switched 8 boot).
Proof.
  apply (proximity_vad_never_detects env_stale (switched 8 boot)). reflexivity.
Defined.
